(** * Shopify -> HubSpot synchronisation scripts: a shallow embedding

    The Python scripts of the repository are embedded as Rocq functions.

    - JSON documents (what [json.load] and [resp.json()] return) are the
      inductive type [json]; a Python [dict] is an association list in
      insertion order, a Python [list] a [list].
    - Python exceptions are explicit: a computation returns [Ok v] or
      [Raise e]; [try/except] is [try_except].
    - Network calls, [print] and [time.sleep] are events of a trace; the
      remote systems (Shopify, HubSpot) are a [Runtime]: a state [World] and
      a function [send] that answers one request.
    - Strings are sequences of code points below 256; numbers are integers
      (JSON floats are not modelled). *)

From Stdlib Require Import List String Ascii ZArith Bool Lia DecimalString.
Import ListNotations.
Open Scope string_scope.
Open Scope Z_scope.
Open Scope list_scope.

(** ** Python values *)

Set Warnings "-register-all".

Inductive json : Type :=
| JNull
| JBool (b : bool)
| JNum (n : Z)
| JStr (s : string)
| JList (l : list json)
| JDict (d : list (string * json)).

Inductive exn : Type :=
| TransportError      (* httpx.TransportError: connect, read, timeout *)
| HTTPStatusError     (* raise_for_status *)
| JSONDecodeError     (* resp.json() on a body that is not JSON *)
| KeyError
| IndexError
| ValueError
| TypeError
| AttributeError.

Inductive result (A : Type) : Type :=
| Ok (a : A)
| Raise (e : exn).
Arguments Ok {A} a.
Arguments Raise {A} e.

Definition rbind {A B} (r : result A) (f : A -> result B) : result B :=
  match r with
  | Ok a => f a
  | Raise e => Raise e
  end.

(** *** dict: association lists in insertion order *)

Section Dict.
Context {A : Type}.

Fixpoint dict_get (d : list (string * A)) (k : string) : option A :=
  match d with
  | [] => None
  | (k', v) :: d' => if String.eqb k' k then Some v else dict_get d' k
  end.

Definition dict_mem (d : list (string * A)) (k : string) : bool :=
  match dict_get d k with Some _ => true | None => false end.

(** [d[k] = v]: the value is replaced in place when the key is there, the
    pair is appended otherwise. *)
Fixpoint dict_set (d : list (string * A)) (k : string) (v : A)
  : list (string * A) :=
  match d with
  | [] => [(k, v)]
  | (k', v') :: d' =>
      if String.eqb k' k then (k', v) :: d' else (k', v') :: dict_set d' k v
  end.

(** [d.pop(k, None)] *)
Fixpoint dict_pop (d : list (string * A)) (k : string) : list (string * A) :=
  match d with
  | [] => []
  | (k', v') :: d' =>
      if String.eqb k' k then dict_pop d' k else (k', v') :: dict_pop d' k
  end.

Definition dict_keys (d : list (string * A)) : list string := map fst d.
End Dict.

(** [d.get(k)] on a JSON object: [None] is [JNull]. *)
Definition py_get (d : list (string * json)) (k : string) : json :=
  match dict_get d k with Some v => v | None => JNull end.

(** Truth value of a Python object ([if x:], [not x]). *)
Definition truthy (v : json) : bool :=
  match v with
  | JNull => false
  | JBool b => b
  | JNum n => negb (n =? 0)
  | JStr s => negb (String.eqb s "")
  | JList l => match l with [] => false | _ => true end
  | JDict d => match d with [] => false | _ => true end
  end.

(** Python [==] on JSON values: [True == 1], lists compare element by
    element, dicts compare as mappings (key order is ignored). *)
Fixpoint py_eq (a b : json) : bool :=
  match a, b with
  | JNull, JNull => true
  | JBool x, JBool y => Bool.eqb x y
  | JBool x, JNum n => Z.b2z x =? n
  | JNum n, JBool x => n =? Z.b2z x
  | JNum m, JNum n => m =? n
  | JStr s, JStr t => String.eqb s t
  | JList xs, JList ys =>
      (fix all2 (xs ys : list json) {struct xs} : bool :=
         match xs, ys with
         | [], [] => true
         | x :: xs', y :: ys' => py_eq x y && all2 xs' ys'
         | _, _ => false
         end) xs ys
  | JDict d, JDict e =>
      (List.length d =? List.length e)%nat &&
      (fix sub (d : list (string * json)) : bool :=
         match d with
         | [] => true
         | (k, v) :: d' =>
             match dict_get e k with
             | Some w => py_eq v w
             | None => false
             end && sub d'
         end) d
  | _, _ => false
  end.

(** [x in l] for a Python list [l]. *)
Definition py_in (x : json) (l : list json) : bool := existsb (py_eq x) l.

(** [s.split(sep)]: never empty. *)
Fixpoint split (sep : ascii) (s : string) : list string :=
  match s with
  | EmptyString => [""]
  | String c s' =>
      if Ascii.eqb c sep then "" :: split sep s'
      else match split sep s' with
           | h :: t => String c h :: t
           | [] => [String c ""]
           end
  end.

(** [int(s)] for a string: surrounding white space, an optional sign, decimal
    digits with single underscores between digits; [ValueError] otherwise,
    and for more than 4300 digits (the default of
    [sys.set_int_max_str_digits]).

    The white space [int] strips: the ASCII white space (code points 9 to 13
    and 32) and, of the code points from 127 on, the Unicode spaces (133 and
    160 below 256). The separators 28 to 31, which [str.strip] removes, are
    not white space for [int]. *)
Definition is_space (c : ascii) : bool :=
  let n := Z.of_nat (nat_of_ascii c) in
  ((9 <=? n) && (n <=? 13)) || (n =? 32) || (n =? 133) || (n =? 160).

Definition is_digit (c : ascii) : bool :=
  let n := Z.of_nat (nat_of_ascii c) in (48 <=? n) && (n <=? 57).

Definition digit_val (c : ascii) : Z := Z.of_nat (nat_of_ascii c) - 48.

Fixpoint lstrip (cs : list ascii) : list ascii :=
  match cs with
  | c :: cs' => if is_space c then lstrip cs' else cs
  | [] => []
  end.

Definition strip (cs : list ascii) : list ascii :=
  rev (lstrip (rev (lstrip cs))).

Fixpoint digits (acc : Z) (after_digit : bool) (cs : list ascii) : option Z :=
  match cs with
  | [] => if after_digit then Some acc else None
  | c :: cs' =>
      if is_digit c then digits (10 * acc + digit_val c) true cs'
      else if Ascii.eqb c "_" then
             if after_digit then digits acc false cs' else None
           else None
  end.

(** The limit on the number of digits of a decimal string. *)
Definition max_str_digits : Z := 4300.

Definition py_int (s : string) : result Z :=
  let cs := strip (list_ascii_of_string s) in
  let signed :=
    match cs with
    | c :: cs' =>
        if Ascii.eqb c "-" then option_map Z.opp (digits 0 false cs')
        else if Ascii.eqb c "+" then digits 0 false cs'
        else digits 0 false cs
    | [] => None
    end in
  match signed with
  | Some n =>
      if max_str_digits <? Z.of_nat (List.length (filter is_digit cs))
      then Raise ValueError
      else Ok n
  | None => Raise ValueError
  end.

(** [l[i]] for a Python list: negative indices count from the end. *)
Definition list_getitem (l : list json) (i : Z) : result json :=
  let n := Z.of_nat (List.length l) in
  let j := if i <? 0 then i + n else i in
  if (0 <=? j) && (j <? n) then
    match nth_error l (Z.to_nat j) with
    | Some v => Ok v
    | None => Raise IndexError
    end
  else Raise IndexError.

(** [j.get(k, dflt)]: only a dict has [get]. *)
Definition get_default (j : json) (k : string) (dflt : json) : result json :=
  match j with
  | JDict d => Ok (match dict_get d k with Some v => v | None => dflt end)
  | _ => Raise AttributeError
  end.

(** [j[k]] for a string [k]. *)
Definition getitem_str (j : json) (k : string) : result json :=
  match j with
  | JDict d => match dict_get d k with Some v => Ok v | None => Raise KeyError end
  | _ => Raise TypeError
  end.

(** [j[0]] *)
Definition getitem_0 (j : json) : result json :=
  match j with
  | JList (x :: _) => Ok x
  | JList [] => Raise IndexError
  | JStr (String c _) => Ok (JStr (String c ""))
  | JStr EmptyString => Raise IndexError
  | JDict _ => Raise KeyError
  | _ => Raise TypeError
  end.

(** [for x in j]: a list gives its items, a dict its keys, a string its
    characters; nothing else is iterable. *)
Definition py_iter (j : json) : result (list json) :=
  match j with
  | JList l => Ok l
  | JDict d => Ok (map (fun kv => JStr (fst kv)) d)
  | JStr s => Ok (map (fun c => JStr (String c "")) (list_ascii_of_string s))
  | _ => Raise TypeError
  end.

(** [len(j)] *)
Definition py_len (j : json) : result Z :=
  match j with
  | JList l => Ok (Z.of_nat (List.length l))
  | JDict d => Ok (Z.of_nat (List.length d))
  | JStr s => Ok (Z.of_nat (String.length s))
  | _ => Raise TypeError
  end.

(** A value used as a key of the property map. Lists and dicts are not
    hashable: [TypeError]. Keys of the embedding are strings, as the keys of
    Shopify metafields are; a key that is null, a boolean or a number is
    refused here with the same exception (Python would store it and fail
    later, at [name.capitalize()], unless the destination lists that very
    name). *)
Definition as_key (j : json) : result string :=
  match j with
  | JStr s => Ok s
  | _ => Raise TypeError
  end.

(** ** Requests, responses and the runtime *)

Inductive Method : Type := GET | POST | PATCH.

(** The URL of a request, by its parts (the scripts build it with f-strings). *)
Inductive Endpoint : Type :=
| ShopifyList (version endpoint : string)
    (* https://{shop}/admin/api/{version}/{endpoint} *)
| ShopifyMetafields (version object : string) (id : json)
    (* https://{shop}/admin/api/{version}/{object}/{id}/metafields.json *)
| HubspotProperties (objects : string)
    (* https://api.hubapi.com/crm/v3/properties/{objects} *)
| HubspotSearch (objects : string)
    (* https://api.hubapi.com/crm/v3/objects/{objects}/search *)
| HubspotObjects (objects : string)
    (* https://api.hubapi.com/crm/v3/objects/{objects} *)
| HubspotObject (objects : string) (id : json).
    (* https://api.hubapi.com/crm/v3/objects/{objects}/{id} *)

Record Request : Type := mkRequest {
  req_method : Method;
  req_url : Endpoint;
  req_json : option json
}.

Record Response : Type := mkResponse {
  status_code : Z;
  content_type : string;       (* the content-type header, empty when absent *)
  text : string;
  json_body : option json      (* [None]: the body does not parse as JSON *)
}.

(** What the scripts print, one constructor per message. *)
Inductive Msg : Type :=
| MFetching (object_type : string)
| MFound (n : Z) (object_type : string)
| MPropertyReady (name : string)
| MPropertyFailed (name : string) (body : string)
| MNotAllowed (value : json) (field : string) (default : json)
| MInvalid (value : json) (field : string)
| MCurrency (value : json) (default_currency : json)
| MSkipping (object_type : string)
| MUpdated (hubspot_object : string) (unique_value : json)
| MCreated (hubspot_object : string) (unique_value : json)
| MFailed (body : string)
| MUpdateFailed (unique_value : json) (body : string)
| MCreateFailed (unique_value : json) (body : string)
| MErrorSyncing (object_type : string) (e : exn)
| MFetchingCustomers
| MNoCustomers
| MLoaded (n : Z)
| MSkipNoEmail
| MPropCreated (key : string)
| MPropExists (key : string)
| MPropCreateFailed (key : string)
| MContactCreated (email : json)
| MContactUpdated (email : json)
| MContactNotSynced (email : json) (state : string).

Inductive Event : Type :=
| EvHttp (rq : Request)
| EvPrint (m : Msg)
| EvSleep (milliseconds : Z).

(** The two remote systems and the parts of the Python runtime the scripts
    rely on: [send] answers a request (or raises, on a transport failure) and
    moves the world; [is_error] is the set of status codes on which httpx's
    [raise_for_status] raises; [capitalize] is [str.capitalize]. *)
Class Runtime : Type := {
  World : Type;
  send : Request -> World -> result Response * World;
  is_error : Z -> bool;
  capitalize : string -> string
}.

(** ** Computations: exceptions, world and trace *)

Section Effects.
Context {RT : Runtime}.

Definition M (A : Type) : Type := World -> result A * World * list Event.

Definition ret {A} (a : A) : M A := fun w => (Ok a, w, []).

Definition raise {A} (e : exn) : M A := fun w => (Raise e, w, []).

Definition bind {A B} (m : M A) (f : A -> M B) : M B :=
  fun w =>
    match m w with
    | (Ok a, w1, t1) => let '(r, w2, t2) := f a w1 in (r, w2, t1 ++ t2)
    | (Raise e, w1, t1) => (Raise e, w1, t1)
    end.

Definition lift {A} (r : result A) : M A := fun w => (r, w, []).

Definition print (m : Msg) : M unit := fun w => (Ok tt, w, [EvPrint m]).

Definition sleep (ms : Z) : M unit := fun w => (Ok tt, w, [EvSleep ms]).

Definition http (m : Method) (u : Endpoint) (p : option json) : M Response :=
  fun w =>
    let rq := mkRequest m u p in
    let '(r, w') := send rq w in (r, w', [EvHttp rq]).

(** [try: m  except Exception as e: h e] *)
Definition try_except {A} (m : M A) (h : exn -> M A) : M A :=
  fun w =>
    match m w with
    | (Ok a, w1, t1) => (Ok a, w1, t1)
    | (Raise e, w1, t1) => let '(r, w2, t2) := h e w1 in (r, w2, t1 ++ t2)
    end.

(** [for x in l: body x] *)
Fixpoint for_each {A} (l : list A) (body : A -> M unit) : M unit :=
  match l with
  | [] => ret tt
  | x :: l' => bind (body x) (fun _ => for_each l' body)
  end.

(** [resp.raise_for_status()] *)
Definition raise_for_status (resp : Response) : M unit :=
  if is_error (status_code resp) then raise HTTPStatusError else ret tt.

(** [resp.json()] *)
Definition resp_json (resp : Response) : M json :=
  match json_body resp with
  | Some j => ret j
  | None => raise JSONDecodeError
  end.
End Effects.

Declare Scope eff_scope.
Delimit Scope eff_scope with eff.
Notation "x <- c ;; k" := (bind c (fun x => k))
  (at level 61, c at next level, right associativity) : eff_scope.
Notation "c ;;; k" := (bind c (fun _ => k))
  (at level 61, right associativity) : eff_scope.

(** The three parts of a finished computation. *)
Definition outcome {W A} (x : result A * W * list Event) : result A :=
  fst (fst x).
Definition final {W A} (x : result A * W * list Event) : W := snd (fst x).
Definition trace {W A} (x : result A * W * list Event) : list Event := snd x.

(** The requests of a trace, in the order they were sent. *)
Fixpoint requests (t : list Event) : list Request :=
  match t with
  | [] => []
  | EvHttp rq :: t' => rq :: requests t'
  | _ :: t' => requests t'
  end.

(** The messages of a trace, in the order they were printed. *)
Fixpoint printed (t : list Event) : list Msg :=
  match t with
  | [] => []
  | EvPrint m :: t' => m :: printed t'
  | _ :: t' => printed t'
  end.

(** [[f x for x in l]] where [f] may raise. *)
Fixpoint map_result {A B} (f : A -> result B) (l : list A) : result (list B) :=
  match l with
  | [] => Ok []
  | x :: l' =>
      rbind (f x) (fun y => rbind (map_result f l') (fun ys => Ok (y :: ys)))
  end.

(** ** Configuration (config.json), per object type *)

Record AllowedRule : Type := mkRule {
  allowed : list json;     (* rules.get("allowed", []) *)
  default : json           (* rules.get("default", None) *)
}.

Record ObjectConfig : Type := mkConfig {
  shopify_endpoint : string;
  shopify_key : string;
  hubspot_object : string;
  unique_field : string;
  property_group : string;
  field_mapping : list (string * string);
  allowed_values : list (string * AllowedRule)
}.

Definition properties_payload (properties : list (string * json)) : json :=
  JDict [("properties", JDict properties)].

(** ** Dynamic_custom_attribute_code/05_dynamic_fileds/sync_manager.py *)

Module Dyn05.

(** The loop of [get_nested_value]: [return None] inside the loop ends the
    function; the [try/except Exception] around [data[int(key)]] turns both
    [ValueError] and [IndexError] into [return None]. *)
Fixpoint get_nested_value_loop (data : json) (keys : list string)
  : result json :=
  match keys with
  | [] => Ok data
  | key :: keys' =>
      match data with
      | JList l =>
          match rbind (py_int key) (list_getitem l) with
          | Ok data' => get_nested_value_loop data' keys'
          | Raise _ => Ok JNull
          end
      | JDict d => get_nested_value_loop (py_get d key) keys'
      | _ => Ok JNull
      end
  end.

Definition get_nested_value (data : json) (path : string) : result json :=
  get_nested_value_loop data (split "." path).

(** Step 1 of [send_to_hubspot]: the loop over [mapping.items()]. *)
Fixpoint map_fields (mapping : list (string * string)) (shopify_obj : json)
  (properties : list (string * json)) : result (list (string * json)) :=
  match mapping with
  | [] => Ok properties
  | (shopify_field, hubspot_field) :: mapping' =>
      rbind (get_nested_value shopify_obj shopify_field) (fun value =>
      map_fields mapping' shopify_obj (dict_set properties hubspot_field value))
  end.

(** Step 2: [properties[meta["key"]] = meta.get("value")]; Python evaluates
    the right-hand side first. *)
Fixpoint add_metafields (metafields : list json)
  (properties : list (string * json)) : result (list (string * json)) :=
  match metafields with
  | [] => Ok properties
  | meta :: metafields' =>
      rbind (get_default meta "value" JNull) (fun value =>
      rbind (getitem_str meta "key") (fun key =>
      rbind (as_key key) (fun k =>
      add_metafields metafields' (dict_set properties k value))))
  end.

(** Step 3, one iteration of the loop over [allowed_cfg.items()]. *)
Definition allowed_step (properties : list (string * json))
  (field : string) (rules : AllowedRule)
  : list (string * json) * list Msg :=
  match dict_get properties field with
  | Some JNull => (properties, [])
  | Some value =>
      if match allowed rules with [] => false | _ => true end
         && negb (py_in value (allowed rules))
      then
        if truthy (default rules)
        then (dict_set properties field (default rules),
              [MNotAllowed value field (default rules)])
        else (dict_pop properties field, [MInvalid value field])
      else (properties, [])
  | None => (properties, [])
  end.

Fixpoint apply_allowed_values (allowed_cfg : list (string * AllowedRule))
  (properties : list (string * json)) : list (string * json) * list Msg :=
  match allowed_cfg with
  | [] => (properties, [])
  | (field, rules) :: allowed_cfg' =>
      let '(properties1, out1) := allowed_step properties field rules in
      let '(properties2, out2) :=
        apply_allowed_values allowed_cfg' properties1 in
      (properties2, out1 ++ out2)
  end.

(** The property map after step 3. *)
Definition normalize (allowed_cfg : list (string * AllowedRule))
  (properties : list (string * json)) : list (string * json) :=
  fst (apply_allowed_values allowed_cfg properties).

Definition search_payload (unique_field : string) (value : json) : json :=
  JDict [("filterGroups",
          JList [JDict [("filters",
                         JList [JDict [("propertyName", JStr unique_field);
                                       ("operator", JStr "EQ");
                                       ("value", value)]])]]);
         ("limit", JNum 1)].

Definition property_payload (capitalized name group_name : string) : json :=
  JDict [("name", JStr name); ("label", JStr capitalized);
         ("type", JStr "string"); ("fieldType", JStr "text");
         ("groupName", JStr group_name)].

Section Run.
Context {RT : Runtime}.
Variable config : list (string * ObjectConfig).
Local Open Scope eff_scope.

(** [self.config[object_type]] *)
Definition config_of (object_type : string) : M ObjectConfig :=
  match dict_get config object_type with
  | Some cfg => ret cfg
  | None => raise KeyError
  end.

Definition fetch_shopify_data (object_type : string) : M json :=
  cfg <- config_of object_type ;;
  print (MFetching object_type) ;;;
  resp <- http GET (ShopifyList "2024-10" (shopify_endpoint cfg)) None ;;
  raise_for_status resp ;;;
  body <- resp_json resp ;;
  data <- lift (get_default body (shopify_key cfg) (JList [])) ;;
  n <- lift (py_len data) ;;
  print (MFound n object_type) ;;;
  ret data.

Definition fetch_metafields (shopify_object : string) (shopify_id : json)
  : M json :=
  resp <- http GET (ShopifyMetafields "2024-10" shopify_object shopify_id)
            None ;;
  if status_code resp =? 200 then
    body <- resp_json resp ;;
    lift (get_default body "metafields" (JList []))
  else ret (JList []).

Definition get_hubspot_properties (hubspot_object : string)
  : M (list json) :=
  resp <- http GET (HubspotProperties (hubspot_object ++ "s")%string)
            None ;;
  raise_for_status resp ;;;
  body <- resp_json resp ;;
  results <- lift (get_default body "results" (JList [])) ;;
  items <- lift (py_iter results) ;;
  lift (map_result (fun p => getitem_str p "name") items).

Definition create_hubspot_property (hubspot_object name group_name : string)
  : M unit :=
  resp <- http POST (HubspotProperties (hubspot_object ++ "s")%string)
            (Some (property_payload (capitalize name) name group_name)) ;;
  if (status_code resp =? 201) || (status_code resp =? 409)
  then print (MPropertyReady name)
  else print (MPropertyFailed name (text resp)).

(** Steps 1 to 3 of [send_to_hubspot]: the property map of a record. *)
Definition build_properties (cfg : ObjectConfig) (shopify_obj : json)
  : M (list (string * json)) :=
  properties <- lift (map_fields (field_mapping cfg) shopify_obj []) ;;
  shopify_id <- lift (get_default shopify_obj "id" JNull) ;;
  metafields <- fetch_metafields (shopify_key cfg) shopify_id ;;
  metas <- lift (py_iter metafields) ;;
  properties <- lift (add_metafields metas properties) ;;
  let '(properties, out) :=
    apply_allowed_values (allowed_values cfg) properties in
  for_each out print ;;;
  ret properties.

(** Step 4, the loop over [list(properties.keys())]. *)
Definition create_missing (hubspot_object property_group : string)
  (current_properties : list json) (fields : list string) : M unit :=
  for_each fields (fun field =>
    if negb (py_in (JStr field) current_properties) then
      create_hubspot_property hubspot_object field property_group ;;;
      sleep 500
    else ret tt).

(** Step 4 of [send_to_hubspot]. *)
Definition ensure_fields (cfg : ObjectConfig)
  (properties : list (string * json)) : M unit :=
  current_properties <- get_hubspot_properties (hubspot_object cfg) ;;
  create_missing (hubspot_object cfg) (property_group cfg)
    current_properties (dict_keys properties).

(** Steps 5 and 6 of [send_to_hubspot]. *)
Definition upsert (object_type hubspot_object unique_field : string)
  (properties : list (string * json)) : M unit :=
  if negb (truthy (py_get properties unique_field)) then
    print (MSkipping object_type)
  else
    let objects := (hubspot_object ++ "s")%string in
    let unique_value := py_get properties unique_field in
    resp <- http POST (HubspotSearch objects)
              (Some (search_payload unique_field unique_value)) ;;
    results <- (if status_code resp =? 200 then
                  body <- resp_json resp ;;
                  lift (get_default body "results" (JList []))
                else ret (JList [])) ;;
    if truthy results then
      first <- lift (getitem_0 results) ;;
      obj_id <- lift (getitem_str first "id") ;;
      http PATCH (HubspotObject objects obj_id)
        (Some (properties_payload properties)) ;;;
      print (MUpdated hubspot_object unique_value)
    else
      r <- http POST (HubspotObjects objects)
             (Some (properties_payload properties)) ;;
      if status_code r =? 201
      then print (MCreated hubspot_object unique_value)
      else print (MFailed (text r)).

Definition send_to_hubspot (object_type : string) (shopify_obj : json)
  : M unit :=
  cfg <- config_of object_type ;;
  properties <- build_properties cfg shopify_obj ;;
  ensure_fields cfg properties ;;;
  upsert object_type (hubspot_object cfg) (unique_field cfg) properties.

(** The body of the loop of [sync_all] over the object types. *)
Definition sync_object_type (object_type : string) : M unit :=
  data <- fetch_shopify_data object_type ;;
  items <- lift (py_iter data) ;;
  for_each items (send_to_hubspot object_type).

Definition sync_all : M unit :=
  for_each (dict_keys config) sync_object_type.
End Run.

End Dyn05.

(** ** json.dumps

    [json.dumps(value)] with its defaults: separators [", "] and [": "],
    [ensure_ascii=True], keys in the dict's own (insertion) order. *)

Definition hex_digit (n : nat) : ascii :=
  nth n (list_ascii_of_string "0123456789abcdef") "0"%char.

Definition quote_char : ascii := ascii_of_nat 34.

Definition escape_char (c : ascii) : string :=
  let n := nat_of_ascii c in
  if Ascii.eqb c quote_char then String "\" (String quote_char "")
  else if Ascii.eqb c "\" then "\\"
  else if (n =? 8)%nat then "\b"
  else if (n =? 9)%nat then "\t"
  else if (n =? 10)%nat then "\n"
  else if (n =? 12)%nat then "\f"
  else if (n =? 13)%nat then "\r"
  else if ((32 <=? n) && (n <=? 126))%nat then String c ""
  else ("\u00" ++ String (hex_digit (n / 16)) (String (hex_digit (n mod 16)) ""))%string.

Definition json_string (s : string) : string :=
  String quote_char
    (String.concat "" (map escape_char (list_ascii_of_string s))
     ++ String quote_char "")%string.

Fixpoint json_dumps (j : json) : string :=
  match j with
  | JNull => "null"
  | JBool true => "true"
  | JBool false => "false"
  | JNum n => DecimalString.NilZero.string_of_int (Z.to_int n)
  | JStr s => json_string s
  | JList l =>
      ("[" ++
       (fix items (l : list json) : string :=
          match l with
          | [] => ""
          | x :: l' =>
              match l' with
              | [] => json_dumps x
              | _ => json_dumps x ++ ", " ++ items l'
              end
          end) l
       ++ "]")%string
  | JDict d =>
      ("{" ++
       (fix items (d : list (string * json)) : string :=
          match d with
          | [] => ""
          | (k, v) :: d' =>
              match d' with
              | [] => json_string k ++ ": " ++ json_dumps v
              | _ => json_string k ++ ": " ++ json_dumps v ++ ", " ++ items d'
              end
          end) d
       ++ "}")%string
  end.

(** [isinstance(value, (dict, list))] *)
Definition is_structured (v : json) : bool :=
  match v with
  | JList _ | JDict _ => true
  | _ => false
  end.

(** ** Dynamic_custom_attribute_code/04_filed_map/sync_manager.py *)

Module Map04.

Record Config : Type := mkConfig {
  shopify_endpoint : string;
  shopify_key : string;
  hubspot_object : string;
  unique_field : string;
  property_group : string;
  field_mapping : list (string * string);
  default_values : list (string * json);
  currency_codes : option (list json);   (* allowed_values["deal_currency_code"] *)
  default_currency : option json         (* allowed_values["default_currency"] *)
}.

(** The loop over [mapping.items()]: nested values are flattened with
    [json.dumps]. *)
Fixpoint map_fields (mapping : list (string * string)) (shopify_obj : json)
  (properties : list (string * json)) : result (list (string * json)) :=
  match mapping with
  | [] => Ok properties
  | (shopify_field, hubspot_field) :: mapping' =>
      rbind (get_default shopify_obj shopify_field JNull) (fun value =>
      let value := if is_structured value then JStr (json_dumps value)
                   else value in
      map_fields mapping' shopify_obj (dict_set properties hubspot_field value))
  end.

(** [properties.get(k) in (None, "")] *)
Definition is_blank (v : json) : bool := py_eq v JNull || py_eq v (JStr "").

(** [properties.update({k: v for k, v in default_values.items()
                        if properties.get(k) in (None, "")})] *)
Definition add_defaults (default_values : list (string * json))
  (properties : list (string * json)) : list (string * json) :=
  fold_left (fun acc kv => dict_set acc (fst kv) (snd kv))
    (filter (fun kv => is_blank (py_get properties (fst kv))) default_values)
    properties.

(** The currency rule: a code outside the allowed list is replaced by the
    default currency. *)
Definition fix_currency (cfg : Config) (properties : list (string * json))
  : list (string * json) * list Msg :=
  match dict_get properties "deal_currency_code" with
  | Some value =>
      let allowed := match currency_codes cfg with Some l => l | None => [] end in
      let default_currency :=
        match default_currency cfg with Some v => v | None => JStr "USD" end in
      if negb (py_in value allowed)
      then (dict_set properties "deal_currency_code" default_currency,
            [MCurrency value default_currency])
      else (properties, [])
  | None => (properties, [])
  end.

(** The property map that [send_to_hubspot] transmits. *)
Definition prepare_properties (cfg : Config) (shopify_obj : json)
  : result (list (string * json) * list Msg) :=
  rbind (map_fields (field_mapping cfg) shopify_obj []) (fun properties =>
  Ok (fix_currency cfg (add_defaults (default_values cfg) properties))).

Definition search_payload (unique_field : string) (value : json) : json :=
  JDict [("filterGroups",
          JList [JDict [("filters",
                         JList [JDict [("propertyName", JStr unique_field);
                                       ("operator", JStr "EQ");
                                       ("value", value)]])]]);
         ("properties", JList [JStr unique_field]);
         ("limit", JNum 1)].

Section Run.
Context {RT : Runtime}.
Variable config : list (string * Config).
Local Open Scope eff_scope.

Definition config_of (object_type : string) : M Config :=
  match dict_get config object_type with
  | Some cfg => ret cfg
  | None => raise KeyError
  end.

Definition fetch_shopify_data (object_type : string) : M json :=
  cfg <- config_of object_type ;;
  print (MFetching object_type) ;;;
  resp <- http GET (ShopifyList "2024-10" (shopify_endpoint cfg)) None ;;
  raise_for_status resp ;;;
  body <- resp_json resp ;;
  data <- lift (get_default body (shopify_key cfg) (JList [])) ;;
  n <- lift (py_len data) ;;
  print (MFound n object_type) ;;;
  ret data.

Definition get_hubspot_properties (hubspot_object : string) : M (list json) :=
  resp <- http GET (HubspotProperties (hubspot_object ++ "s")%string) None ;;
  raise_for_status resp ;;;
  body <- resp_json resp ;;
  results <- lift (get_default body "results" (JList [])) ;;
  items <- lift (py_iter results) ;;
  lift (map_result (fun p => getitem_str p "name") items).

Definition create_hubspot_property (hubspot_object name group_name : string)
  : M unit :=
  resp <- http POST (HubspotProperties (hubspot_object ++ "s")%string)
            (Some (Dyn05.property_payload (capitalize name) name group_name)) ;;
  if (status_code resp =? 201) || (status_code resp =? 409)
  then print (MPropertyReady name)
  else print (MPropertyFailed name (text resp)).

Definition ensure_hubspot_properties_exist (hubspot_object : string)
  (properties : list (string * json)) (group_name : string) : M unit :=
  existing <- get_hubspot_properties hubspot_object ;;
  for_each (dict_keys properties) (fun key =>
    if negb (py_in (JStr key) existing) then
      create_hubspot_property hubspot_object key group_name ;;;
      sleep 1000
    else ret tt).

(** Returns the id of the first match, [None] ([JNull]) otherwise. *)
Definition get_existing_hubspot_record (hubspot_object unique_field : string)
  (value : json) : M json :=
  resp <- http POST (HubspotSearch (hubspot_object ++ "s")%string)
            (Some (search_payload unique_field value)) ;;
  if status_code resp =? 200 then
    body <- resp_json resp ;;
    results <- lift (get_default body "results" (JList [])) ;;
    if truthy results then
      first <- lift (getitem_0 results) ;;
      lift (getitem_str first "id")
    else ret JNull
  else ret JNull.

Definition send_to_hubspot (object_type : string) (shopify_obj : json)
  : M unit :=
  cfg <- config_of object_type ;;
  prepared <- lift (prepare_properties cfg shopify_obj) ;;
  let '(properties, out) := prepared in
  for_each out print ;;;
  ensure_hubspot_properties_exist (hubspot_object cfg) properties
    (property_group cfg) ;;;
  let unique_value := py_get properties (unique_field cfg) in
  if negb (truthy unique_value) then print (MSkipping object_type)
  else
    existing_id <- get_existing_hubspot_record (hubspot_object cfg)
                     (unique_field cfg) unique_value ;;
    let objects := (hubspot_object cfg ++ "s")%string in
    if truthy existing_id then
      http PATCH (HubspotObject objects existing_id)
        (Some (properties_payload properties)) ;;;
      print (MUpdated (hubspot_object cfg) unique_value)
    else
      resp <- http POST (HubspotObjects objects)
                (Some (properties_payload properties)) ;;
      if status_code resp =? 201
      then print (MCreated (hubspot_object cfg) unique_value)
      else print (MFailed (text resp)).

(** The body of the loop of [sync_all] over the object types. *)
Definition sync_object_type (object_type : string) : M unit :=
  data <- fetch_shopify_data object_type ;;
  items <- lift (py_iter data) ;;
  for_each items (send_to_hubspot object_type).

Definition sync_all : M unit :=
  for_each (dict_keys config) sync_object_type.
End Run.

End Map04.

(** ** Dynamic_custom_attribute_code/01_run_but_confilt_so_filed_missing/sync_manager.py *)

Module Run01.

Record Config : Type := mkConfig {
  shopify_endpoint : string;
  hubspot_object : string;
  field_mapping : list (string * string)
}.

(** [{hubspot_field: shopify_obj.get(shopify_field) for ... in mapping.items()}] *)
Fixpoint map_fields (mapping : list (string * string)) (shopify_obj : json)
  (properties : list (string * json)) : result (list (string * json)) :=
  match mapping with
  | [] => Ok properties
  | (shopify_field, hubspot_field) :: mapping' =>
      rbind (get_default shopify_obj shopify_field JNull) (fun value =>
      map_fields mapping' shopify_obj (dict_set properties hubspot_field value))
  end.

(** [list(mapping.values())[0]] *)
Definition first_mapped (mapping : list (string * string)) : result string :=
  match mapping with
  | (_, hubspot_field) :: _ => Ok hubspot_field
  | [] => Raise IndexError
  end.

Section Run.
Context {RT : Runtime}.
Variable config : list (string * Config).
Local Open Scope eff_scope.

Definition config_of (object_type : string) : M Config :=
  match dict_get config object_type with
  | Some cfg => ret cfg
  | None => raise KeyError
  end.

Definition fetch_shopify_data (object_type : string) : M json :=
  cfg <- config_of object_type ;;
  print (MFetching object_type) ;;;
  response <- http GET (ShopifyList "2023-01" (shopify_endpoint cfg)) None ;;
  raise_for_status response ;;;
  body <- resp_json response ;;
  data <- lift (get_default body (object_type ++ "s")%string (JList [])) ;;
  n <- lift (py_len data) ;;
  print (MFound n object_type) ;;;
  ret data.

Definition get_existing_hubspot_record (hubspot_object unique_field : string)
  (value : json) : M json :=
  response <- http POST (HubspotSearch (hubspot_object ++ "s")%string)
                (Some (Map04.search_payload unique_field value)) ;;
  if status_code response =? 200 then
    body <- resp_json response ;;
    results <- lift (get_default body "results" (JList [])) ;;
    if truthy results then
      first <- lift (getitem_0 results) ;;
      lift (getitem_str first "id")
    else ret JNull
  else ret JNull.

Definition send_to_hubspot (object_type : string) (shopify_obj : json)
  : M unit :=
  cfg <- config_of object_type ;;
  properties <- lift (map_fields (field_mapping cfg) shopify_obj []) ;;
  unique_field <- lift (first_mapped (field_mapping cfg)) ;;
  let unique_value := py_get properties unique_field in
  if negb (truthy unique_value) then print (MSkipping object_type)
  else
    existing_id <- get_existing_hubspot_record (hubspot_object cfg)
                     unique_field unique_value ;;
    let objects := (hubspot_object cfg ++ "s")%string in
    if truthy existing_id then
      response <- http PATCH (HubspotObject objects existing_id)
                    (Some (properties_payload properties)) ;;
      if status_code response =? 200
      then print (MUpdated (hubspot_object cfg) unique_value)
      else print (MUpdateFailed unique_value (text response))
    else
      response <- http POST (HubspotObjects objects)
                    (Some (properties_payload properties)) ;;
      if status_code response =? 201
      then print (MCreated (hubspot_object cfg) unique_value)
      else print (MCreateFailed unique_value (text response)).

(** The [try/except] is around one object type: the fetch and the whole loop
    over its records. *)
Definition sync_records (object_type : string) : M unit :=
  shopify_data <- fetch_shopify_data object_type ;;
  items <- lift (py_iter shopify_data) ;;
  for_each items (send_to_hubspot object_type).

Definition sync_object_type (object_type : string) : M unit :=
  try_except (sync_records object_type)
    (fun e => print (MErrorSyncing object_type e)).

Definition sync_all : M unit :=
  for_each (dict_keys config) sync_object_type.
End Run.

End Run01.

(** ** Create_custom_attributes: services and utils/sync_attributes.py *)

Module Attr.

(** [x or ""] *)
Definition or_empty (x : json) : json := if truthy x then x else JStr "".

(** A Python [set] of JSON scalars: a list without repetition. Lists and
    dicts are not hashable. *)
Definition set_add (x : json) (s : list json) : result (list json) :=
  if is_structured x then Raise TypeError
  else if py_in x s then Ok s else Ok (s ++ [x]).

(** [set(prop.get("name") for prop in data if prop.get("name"))] *)
Fixpoint property_names (data : list json) (acc : list json)
  : result (list json) :=
  match data with
  | [] => Ok acc
  | prop :: data' =>
      rbind (get_default prop "name" JNull) (fun name =>
      if truthy name then
        rbind (set_add name acc) (fun acc' => property_names data' acc')
      else property_names data' acc)
  end.

(** [{mf.get("key"): mf.get("value") for mf in metafields
      if mf.get("key") is not None}] *)
Fixpoint metafield_dict (metafields : list json) (acc : list (string * json))
  : result (list (string * json)) :=
  match metafields with
  | [] => Ok acc
  | mf :: metafields' =>
      rbind (get_default mf "key" JNull) (fun key =>
      match key with
      | JNull => metafield_dict metafields' acc
      | _ =>
          rbind (as_key key) (fun k =>
          rbind (get_default mf "value" JNull) (fun value =>
          metafield_dict metafields' (dict_set acc k value)))
      end)
  end.

Definition property_payload (capitalized name : string) : json :=
  JDict [("name", JStr name); ("label", JStr capitalized);
         ("type", JStr "string"); ("fieldType", JStr "text");
         ("groupName", JStr "contactinformation")].

Definition search_payload (email : json) : json :=
  JDict [("filterGroups",
          JList [JDict [("filters",
                         JList [JDict [("propertyName", JStr "email");
                                       ("operator", JStr "EQ");
                                       ("value", email)]])]]);
         ("properties", JList [JStr "email"])].

(** [contact_properties] of [sync_custom_attributes]. *)
Definition contact_properties (email firstname lastname phone : json)
  (metafields : list (string * json)) : list (string * json) :=
  let base := [("email", email); ("firstname", or_empty firstname);
               ("lastname", or_empty lastname)] in
  let base := if truthy phone then dict_set base "phone" phone else base in
  fold_left (fun acc kv => dict_set acc (fst kv) (snd kv)) metafields base.

Section Run.
Context {RT : Runtime}.
Local Open Scope eff_scope.

(** services/shopify_service.py *)
Definition get_shopify_customers : M json :=
  res <- http GET (ShopifyList "2025-01" "customers.json") None ;;
  raise_for_status res ;;;
  data <- resp_json res ;;
  lift (get_default data "customers" (JList [])).

Definition get_customer_metafields (customer_id : json)
  : M (list (string * json)) :=
  res <- http GET (ShopifyMetafields "2025-01" "customers" customer_id) None ;;
  raise_for_status res ;;;
  data <- resp_json res ;;
  metafields <- lift (get_default data "metafields" (JList [])) ;;
  items <- lift (py_iter metafields) ;;
  lift (metafield_dict items []).

(** services/hubspot_service.py *)
Definition fetch_hubspot_properties (object_type : string) : M (list json) :=
  res <- http GET (HubspotProperties object_type) None ;;
  raise_for_status res ;;;
  body <- resp_json res ;;
  data <- lift (get_default body "results" (JList [])) ;;
  items <- lift (py_iter data) ;;
  lift (property_names items []).

(** Returns the status code; the second component of the pair (the decoded
    body) is computed, and may raise, but no caller reads it. *)
Definition create_hubspot_property (name label : string) : M Z :=
  res <- http POST (HubspotProperties "contacts")
           (Some (property_payload (capitalize label) name)) ;;
  (if String.prefix "application/json" (content_type res)
   then resp_json res ;;; ret tt
   else ret tt) ;;;
  ret (status_code res).

(** Returns the first component of the tuple, the state. *)
Definition create_or_update_hubspot_contact (email : json)
  (properties : list (string * json)) : M string :=
  let payload := properties_payload properties in
  create_res <- http POST (HubspotObjects "contacts") (Some payload) ;;
  if status_code create_res =? 201 then
    resp_json create_res ;;; ret "created"
  else if negb (status_code create_res =? 409) then ret "failed"
  else
    search_res <- http POST (HubspotSearch "contacts")
                    (Some (search_payload email)) ;;
    if negb (status_code search_res =? 200) then ret "failed_search"
    else
      body <- resp_json search_res ;;
      results <- lift (get_default body "results" (JList [])) ;;
      if negb (truthy results) then ret "not_found"
      else
        first <- lift (getitem_0 results) ;;
        contact_id <- lift (get_default first "id" JNull) ;;
        if negb (truthy contact_id) then ret "invalid_id"
        else
          update_res <- http PATCH (HubspotObject "contacts" contact_id)
                          (Some payload) ;;
          if status_code update_res =? 200 then
            resp_json update_res ;;; ret "updated"
          else ret "failed_update".

(** utils/sync_attributes.py: the loop over [metafields.keys()]; the set of
    known properties is threaded through the loop and replaced after every
    creation. *)
Fixpoint ensure_metafield_properties (keys : list string)
  (hubspot_props : list json) : M (list json) :=
  match keys with
  | [] => ret hubspot_props
  | key :: keys' =>
      if negb (py_in (JStr key) hubspot_props) then
        status_code <- create_hubspot_property key key ;;
        (if status_code =? 201 then print (MPropCreated key)
         else if status_code =? 409 then print (MPropExists key)
         else print (MPropCreateFailed key)) ;;;
        sleep 1000 ;;;
        hubspot_props' <- fetch_hubspot_properties "contacts" ;;
        ensure_metafield_properties keys' hubspot_props'
      else ensure_metafield_properties keys' hubspot_props
  end.

(** One iteration of the loop over the customers; returns the set of known
    properties for the next iteration. *)
Definition sync_customer (cust : json) (hubspot_props : list json)
  : M (list json) :=
  firstname <- lift (get_default cust "first_name" JNull) ;;
  lastname <- lift (get_default cust "last_name" JNull) ;;
  email <- lift (get_default cust "email" JNull) ;;
  phone <- lift (get_default cust "phone" JNull) ;;
  customer_id <- lift (get_default cust "id" JNull) ;;
  if negb (truthy email) then print MSkipNoEmail ;;; ret hubspot_props
  else
    metafields <- get_customer_metafields customer_id ;;
    hubspot_props' <- ensure_metafield_properties (dict_keys metafields)
                        hubspot_props ;;
    state <- create_or_update_hubspot_contact email
               (contact_properties email firstname lastname phone metafields) ;;
    (if String.eqb state "created" then print (MContactCreated email)
     else if String.eqb state "updated" then print (MContactUpdated email)
     else print (MContactNotSynced email state)) ;;;
    ret hubspot_props'.

Fixpoint sync_customers (customers : list json) (hubspot_props : list json)
  : M unit :=
  match customers with
  | [] => ret tt
  | cust :: customers' =>
      hubspot_props' <- sync_customer cust hubspot_props ;;
      sync_customers customers' hubspot_props'
  end.

Definition sync_custom_attributes : M unit :=
  print MFetchingCustomers ;;;
  customers <- get_shopify_customers ;;
  if negb (truthy customers) then print MNoCustomers
  else
    hubspot_props <- fetch_hubspot_properties "contacts" ;;
    print (MLoaded (Z.of_nat (List.length hubspot_props))) ;;;
    items <- lift (py_iter customers) ;;
    sync_customers items hubspot_props.
End Run.

End Attr.

(** ** A reference runtime

    A small executable stand-in for the two remote systems, used to run the
    scripts on concrete inputs: Shopify serves fixed documents; HubSpot keeps
    a list of property names and a list of records, answers a search with the
    records whose property equals the value (at most [limit] of them), adds a
    record on create (or answers 409 when [hub_unique] names a property whose
    value is already taken), merges on update, and answers 409 to the
    creation of a property it already has. [hub_search_status] is the status
    of the search endpoint (200 when it works). *)

Module Sim.

Record world : Type := mkWorld {
  shop_lists : list (string * json);
  shop_metafields : list (Z * json);
  hub_properties : list string;
  hub_records : list (Z * list (string * json));
  hub_next_id : Z;
  hub_search_status : Z;
  hub_unique : option string
}.

Definition respond (status : Z) (body : json) : Response :=
  mkResponse status "application/json" (json_dumps body) (Some body).

Definition at_path (j : json) (keys : list string) : json :=
  match Dyn05.get_nested_value_loop j keys with
  | Ok v => v
  | Raise _ => JNull
  end.

Definition body_of (rq : Request) : json :=
  match req_json rq with Some j => j | None => JNull end.

Definition record_json (r : Z * list (string * json)) : json :=
  JDict [("id", JNum (fst r)); ("properties", JDict (snd r))].

Fixpoint lookupZ {A} (l : list (Z * A)) (k : Z) : option A :=
  match l with
  | [] => None
  | (k', v) :: l' => if k' =? k then Some v else lookupZ l' k
  end.

Definition merge (old new : list (string * json)) : list (string * json) :=
  fold_left (fun acc kv => dict_set acc (fst kv) (snd kv)) new old.

Definition matching (w : world) (name : string) (value : json)
  : list (Z * list (string * json)) :=
  filter (fun r => py_eq (py_get (snd r) name) value) (hub_records w).

Definition search (w : world) (payload : json) : Response :=
  if negb (hub_search_status w =? 200)
  then respond (hub_search_status w) (JDict [("status", JStr "error")])
  else
    match at_path payload ["filterGroups"; "0"; "filters"; "0"; "propertyName"]
    with
    | JStr name =>
        let found :=
          matching w name
            (at_path payload ["filterGroups"; "0"; "filters"; "0"; "value"]) in
        let found := match at_path payload ["limit"] with
                     | JNum n => firstn (Z.to_nat n) found
                     | _ => found
                     end in
        respond 200 (JDict [("total", JNum (Z.of_nat (List.length found)));
                            ("results", JList (map record_json found))])
    | _ => respond 400 (JDict [("status", JStr "error")])
    end.

Definition taken (w : world) (properties : list (string * json)) : bool :=
  match hub_unique w with
  | Some u => truthy (py_get properties u)
              && match matching w u (py_get properties u) with
                 | [] => false
                 | _ => true
                 end
  | None => false
  end.

Definition set_records (w : world) (records : list (Z * list (string * json)))
  (next : Z) : world :=
  mkWorld (shop_lists w) (shop_metafields w) (hub_properties w) records next
    (hub_search_status w) (hub_unique w).

Definition set_properties (w : world) (names : list string) : world :=
  mkWorld (shop_lists w) (shop_metafields w) names (hub_records w)
    (hub_next_id w) (hub_search_status w) (hub_unique w).

Definition sim_send (rq : Request) (w : world) : result Response * world :=
  match req_method rq, req_url rq with
  | GET, ShopifyList _ endpoint =>
      match dict_get (shop_lists w) endpoint with
      | Some body => (Ok (respond 200 body), w)
      | None => (Ok (respond 404 (JDict [("errors", JStr "Not Found")])), w)
      end
  | GET, ShopifyMetafields _ _ (JNum id) =>
      match lookupZ (shop_metafields w) id with
      | Some l => (Ok (respond 200 (JDict [("metafields", l)])), w)
      | None => (Ok (respond 200 (JDict [("metafields", JList [])])), w)
      end
  | GET, ShopifyMetafields _ _ _ =>
      (Ok (respond 404 (JDict [("errors", JStr "Not Found")])), w)
  | GET, HubspotProperties _ =>
      (Ok (respond 200
             (JDict [("results",
                      JList (map (fun n => JDict [("name", JStr n)])
                               (hub_properties w)))])), w)
  | POST, HubspotProperties _ =>
      match at_path (body_of rq) ["name"] with
      | JStr name =>
          if existsb (String.eqb name) (hub_properties w)
          then (Ok (respond 409 (JDict [("category", JStr "OBJECT_ALREADY_EXISTS")])), w)
          else (Ok (respond 201 (JDict [("name", JStr name)])),
                set_properties w (hub_properties w ++ [name]))
      | _ => (Ok (respond 400 (JDict [("status", JStr "error")])), w)
      end
  | POST, HubspotSearch _ => (Ok (search w (body_of rq)), w)
  | POST, HubspotObjects _ =>
      match at_path (body_of rq) ["properties"] with
      | JDict properties =>
          if taken w properties
          then (Ok (respond 409 (JDict [("category", JStr "CONFLICT")])), w)
          else (Ok (respond 201 (record_json (hub_next_id w, properties))),
                set_records w (hub_records w ++ [(hub_next_id w, properties)])
                  (hub_next_id w + 1))
      | _ => (Ok (respond 400 (JDict [("status", JStr "error")])), w)
      end
  | PATCH, HubspotObject _ (JNum id) =>
      match lookupZ (hub_records w) id, at_path (body_of rq) ["properties"] with
      | Some old, JDict properties =>
          (Ok (respond 200 (record_json (id, merge old properties))),
           set_records w
             (map (fun r => if fst r =? id then (id, merge old properties) else r)
                (hub_records w))
             (hub_next_id w))
      | _, _ => (Ok (respond 404 (JDict [("status", JStr "error")])), w)
      end
  | _, _ => (Ok (respond 405 (JDict [("status", JStr "error")])), w)
  end.

Definition upper (c : ascii) : ascii :=
  let n := nat_of_ascii c in
  if ((97 <=? n) && (n <=? 122))%nat then ascii_of_nat (n - 32) else c.

Definition lower (c : ascii) : ascii :=
  let n := nat_of_ascii c in
  if ((65 <=? n) && (n <=? 90))%nat then ascii_of_nat (n + 32) else c.

(** [str.capitalize] on ASCII letters. *)
Definition ascii_capitalize (s : string) : string :=
  match s with
  | EmptyString => EmptyString
  | String c s' =>
      String (upper c) (string_of_list_ascii (map lower (list_ascii_of_string s')))
  end.

(** [raise_for_status] raises on every status outside 200..299. *)
Definition runtime : Runtime := {|
  World := world;
  send := sim_send;
  is_error := fun status => negb ((200 <=? status) && (status <=? 299));
  capitalize := ascii_capitalize
|}.

(** Running a computation in a world: result, final world and trace. *)
Definition run {A} (m : @M runtime A) (w : world)
  : result A * world * list Event := m w.

End Sim.

(** * Vocabulary of the statements *)

(** ** Segments of a path that fail *)

Module Path.
Import Dyn05.

(** The ways a path segment can fail on the value reached so far. *)
Definition soft_fail (cur : json) (key : string) : Prop :=
  match cur with
  | JDict d => dict_get d key = None                   (* missing key *)
  | JList l =>
      match py_int key with
      | Raise _ => True                                (* not an integer *)
      | Ok i => i < - Z.of_nat (List.length l)
                \/ Z.of_nat (List.length l) <= i       (* out of range *)
      end
  | _ => True                                          (* a scalar *)
  end.

End Path.

(** ** What an allow-list rule does to its field *)

Module Rule.
Import Dyn05.

(** What one rule does to its field, as a function of the field's value. *)
Inductive verdict : Type :=
| Keep
| Replace (v : json)
| Remove.

Definition verdict_of (rules : AllowedRule) (current : option json) : verdict :=
  match current with
  | None => Keep
  | Some JNull => Keep
  | Some value =>
      if match allowed rules with [] => false | _ => true end
         && negb (py_in value (allowed rules))
      then if truthy (default rules) then Replace (default rules) else Remove
      else Keep
  end.

Definition act (a : verdict) (field : string) (p : list (string * json))
  : list (string * json) :=
  match a with
  | Keep => p
  | Replace v => dict_set p field v
  | Remove => dict_pop p field
  end.

(** The value of a governed field after normalisation, from its value
    before. *)
Definition rule_outcome (rules : AllowedRule) (current : option json)
  : option json :=
  match verdict_of rules current with
  | Keep => current
  | Replace v => Some v
  | Remove => None
  end.

Definition step (field : string) (rules : AllowedRule)
  (p : list (string * json)) : list (string * json) :=
  fst (allowed_step p field rules).

End Rule.

(** ** The requests of the upsert of [Dyn05.send_to_hubspot] *)

Module Upsert.
Import Dyn05.

Definition search_request (hubspot_object unique_field : string)
  (properties : list (string * json)) : Request :=
  mkRequest POST (HubspotSearch (hubspot_object ++ "s")%string)
    (Some (search_payload unique_field (py_get properties unique_field))).

Definition create_request (hubspot_object : string)
  (properties : list (string * json)) : Request :=
  mkRequest POST (HubspotObjects (hubspot_object ++ "s")%string)
    (Some (properties_payload properties)).

Definition update_request (hubspot_object : string) (obj_id : json)
  (properties : list (string * json)) : Request :=
  mkRequest PATCH (HubspotObject (hubspot_object ++ "s")%string obj_id)
    (Some (properties_payload properties)).

(** A request that creates a record: a POST to the objects URL. *)
Definition is_create (rq : Request) : bool :=
  match req_method rq, req_url rq with
  | POST, HubspotObjects _ => true
  | _, _ => false
  end.

(** A request that updates a record: a PATCH to the URL of one object. *)
Definition is_update (rq : Request) : bool :=
  match req_method rq, req_url rq with
  | PATCH, HubspotObject _ _ => true
  | _, _ => false
  end.

Definition is_search (rq : Request) : bool :=
  match req_method rq, req_url rq with
  | POST, HubspotSearch _ => true
  | _, _ => false
  end.

Section WithRuntime.
Context {RT : Runtime}.

(** What the upsert does once the search has answered and no match is used:
    one create request, then the message chosen by its status. *)
Definition create_after_search (hubspot_object unique_field : string)
  (properties : list (string * json)) (w1 : World)
  : result unit * World * list Event :=
  let search := search_request hubspot_object unique_field properties in
  let create := create_request hubspot_object properties in
  match send create w1 with
  | (Ok r, w2) =>
      (Ok tt, w2,
       [EvHttp search; EvHttp create;
        EvPrint (if status_code r =? 201
                 then MCreated hubspot_object (py_get properties unique_field)
                 else MFailed (text r))])
  | (Raise e, w2) => (Raise e, w2, [EvHttp search; EvHttp create])
  end.

(** What the upsert does once the search has reported a first match with
    identifier [obj_id]: one update request against it. *)
Definition update_after_search (hubspot_object unique_field : string)
  (properties : list (string * json)) (obj_id : json) (w1 : World)
  : result unit * World * list Event :=
  let search := search_request hubspot_object unique_field properties in
  let update := update_request hubspot_object obj_id properties in
  match send update w1 with
  | (Ok _, w2) =>
      (Ok tt, w2,
       [EvHttp search; EvHttp update;
        EvPrint (MUpdated hubspot_object (py_get properties unique_field))])
  | (Raise e, w2) => (Raise e, w2, [EvHttp search; EvHttp update])
  end.

End WithRuntime.

End Upsert.

(** ** The requests of [create_or_update_hubspot_contact] *)

Module AttrUpsert.
Import Attr.

Definition create_request (properties : list (string * json)) : Request :=
  mkRequest POST (HubspotObjects "contacts")
    (Some (properties_payload properties)).

Definition search_request (email : json) : Request :=
  mkRequest POST (HubspotSearch "contacts") (Some (search_payload email)).

Definition update_request (contact_id : json)
  (properties : list (string * json)) : Request :=
  mkRequest PATCH (HubspotObject "contacts" contact_id)
    (Some (properties_payload properties)).

End AttrUpsert.

(** ** The requests of property listing and creation *)

Module Schema.
Import Dyn05.

Definition listing_request (objects : string) : Request :=
  mkRequest GET (HubspotProperties objects) None.

Definition is_property_listing (rq : Request) : bool :=
  match req_method rq, req_url rq with
  | GET, HubspotProperties _ => true
  | _, _ => false
  end.



Definition is_property_creation (rq : Request) : bool :=
  match req_method rq, req_url rq with
  | POST, HubspotProperties _ => true
  | _, _ => false
  end.

(** Every creation of a property is directly followed by a listing of the
    properties. *)
Fixpoint refetched_after_each_creation (rs : list Request) : bool :=
  match rs with
  | [] => true
  | rq :: rs' =>
      (if is_property_creation rq
       then match rs' with
            | next :: _ => is_property_listing next
            | [] => false
            end
       else true)
      && refetched_after_each_creation rs'
  end.

Section WithRuntime.
Context {RT : Runtime}.

Definition creation_request (hubspot_object name group_name : string)
  : Request :=
  mkRequest POST (HubspotProperties (hubspot_object ++ "s")%string)
    (Some (property_payload (capitalize name) name group_name)).

End WithRuntime.

End Schema.

(** ** Property creation in [sync_custom_attributes] *)

Module AttrSchema.
Import Attr.

Section WithRuntime.
Context {RT : Runtime}.

Definition creation_request (name : string) : Request :=
  mkRequest POST (HubspotProperties "contacts")
    (Some (property_payload (capitalize name) name)).

End WithRuntime.


End AttrSchema.

(** ** The requests of the record pipeline *)

Module Pipeline.

Definition metafields_request (shopify_object : string) (shopify_id : json)
  : Request :=
  mkRequest GET (ShopifyMetafields "2024-10" shopify_object shopify_id) None.

(** Neither a search, nor a create, nor an update of a record. *)
Definition leaves_records_alone (rq : Request) : bool :=
  negb (Upsert.is_search rq || Upsert.is_create rq
        || Upsert.is_update rq).

End Pipeline.

(** ** Nested values in the property map *)

Module Flatten.






End Flatten.

(** ** The allow-list claim, as worded *)

(** The allow-list claim as the specification words it: a governed value
    outside the allowed list is replaced by the rule's default, or removed
    when the rule has none. *)
Definition enforced_as_specified (rules : list (string * AllowedRule))
  (properties : list (string * json)) : Prop :=
  forall field rule value,
    In (field, rule) rules ->
    dict_get properties field = Some value ->
    py_in value (allowed rule) = false ->
    dict_get (Dyn05.normalize rules properties) field
    = match default rule with JNull => None | d => Some d end.

(** ** Sample data *)

Definition sample_product : json :=
  JDict [("id", JNum 7);
         ("variants", JList [JDict [("price", JStr "9.50")]]);
         ("title", JStr "Mug")].

Definition sample_rules : list (string * AllowedRule) :=
  [("status", mkRule [JStr "open"; JStr "closed"] (JStr "open"));
   ("tier", mkRule [JStr "gold"; JStr "silver"] JNull)].

Definition sample_properties : list (string * json) :=
  [("email", JStr "a@x.com"); ("status", JStr "archived");
   ("tier", JStr "bronze")].

(** Sample destination states: a HubSpot holding one contact, and an empty
    one. *)
Definition ann : list (string * json) :=
  [("email", JStr "a@x.com"); ("firstname", JStr "Ann")].

Definition hub_with_ann (search_status : Z) (unique : option string)
  : Sim.world :=
  Sim.mkWorld [] [] ["email"; "firstname"] [(1, ann)] 2 search_status unique.

Definition empty_hub (unique : option string) : Sim.world :=
  Sim.mkWorld [] [] ["email"; "firstname"] [] 1 200 unique.

(** A customer without an email, and a destination that knows the property
    "email" only. *)
Definition customer_config : list (string * ObjectConfig) :=
  [("customer",
    mkConfig "customers.json" "customers" "contact" "email"
      "contactinformation"
      [("email", "email"); ("first_name", "firstname")] [])].

Definition bob : json := JDict [("id", JNum 2); ("first_name", JStr "Bob")].

Definition hub_email_only : Sim.world :=
  Sim.mkWorld [] [] ["email"] [] 1 200 None.

Definition ann_record : json :=
  JDict [("id", JNum 1); ("email", JStr "a@x.com"); ("first_name", JStr "Ann")].

Definition hub_no_properties : Sim.world :=
  Sim.mkWorld [] [] [] [] 1 200 None.

Definition vip_metafields : list string := ["vip"; "tier"].

(** A destination that has the property "tier", which a set of known
    properties fetched earlier may lack. *)
Definition hub_knows_tier : Sim.world :=
  Sim.mkWorld [] [] ["email"; "tier"] [] 1 200 None.

(** Two customers; the metafields of the first come without their "key". *)
Definition bea_record : json :=
  JDict [("id", JNum 2); ("email", JStr "b@x.com"); ("first_name", JStr "Bea")].

Definition shop_two_customers : Sim.world :=
  Sim.mkWorld
    [("customers.json", JDict [("customers", JList [ann_record; bea_record])])]
    [(1, JList [JDict [("namespace", JStr "custom"); ("value", JStr "gold")]])]
    ["email"; "firstname"] [] 1 200 None.

Definition customer_config01 : list (string * Run01.Config) :=
  [("customer",
    Run01.mkConfig "customers.json" "contact"
      [("email", "email"); ("first_name", "firstname")])].

(** A list whose first item is not an object. *)
Definition shop_corrupt_item : Sim.world :=
  Sim.mkWorld
    [("customers.json", JDict [("customers", JList [JStr "corrupt"; bea_record])])]
    [] ["email"; "firstname"] [] 1 200 None.






(** ** Vocabulary of the further properties *)

Module More.

(** The value [get_nested_value] resolves (it never raises). *)
Definition resolve (shopify_obj : json) (path : string) : json :=
  match Dyn05.get_nested_value shopify_obj path with
  | Ok v => v
  | Raise _ => JNull
  end.

(** No character of the string is a dot. *)
Fixpoint dot_free (s : string) : bool :=
  match s with
  | EmptyString => true
  | String c s' => negb (Ascii.eqb c ".") && dot_free s'
  end.

(** The last pair of an association list that has the key: what a sequence
    of assignments [d[k] = v] leaves under the key. *)
Definition last_value {A} (l : list (string * A)) (k : string) : option A :=
  dict_get (rev l) k.

(** The mapping read from destination field to source path. *)
Definition swap_mapping (mapping : list (string * string))
  : list (string * string) :=
  map (fun p => (snd p, fst p)) mapping.

(** What one metafield contributes to the property map of
    [Dyn05.send_to_hubspot]: its key and its value (null when it has none). *)
Definition metafield_pair (meta : json) : result (string * json) :=
  rbind (get_default meta "value" JNull) (fun value =>
  rbind (getitem_str meta "key") (fun key =>
  rbind (as_key key) (fun k => Ok (k, value)))).

(** [d.update(l)]: the assignments [d[k] = v] in the order of [l]. *)
Definition assign_all (l d : list (string * json)) : list (string * json) :=
  fold_left (fun acc kv => dict_set acc (fst kv) (snd kv)) l d.

(** The number of requests of a kind. *)
Definition count (kind : Request -> bool) (rs : list Request) : nat :=
  List.length (filter kind rs).

(** A request that writes a record: a create or an update. *)
Definition is_write (rq : Request) : bool :=
  Upsert.is_create rq || Upsert.is_update rq.

End More.

Module MoreRequests.

Section WithRuntime.
Context {RT : Runtime}.

End WithRuntime.

Definition list_request (version endpoint : string) : Request :=
  mkRequest GET (ShopifyList version endpoint) None.

(** The requests the upsert can leave in a trace: nothing (skipped), the
    search alone (it raised, or its answer did), or the search followed by
    one create or by one update. *)
Definition upsert_shape (hubspot_object unique_field : string)
  (properties : list (string * json)) (rs : list Request) : Prop :=
  rs = []
  \/ rs = [Upsert.search_request hubspot_object unique_field properties]
  \/ rs = [Upsert.search_request hubspot_object unique_field properties;
           Upsert.create_request hubspot_object properties]
  \/ exists obj_id,
       rs = [Upsert.search_request hubspot_object unique_field properties;
             Upsert.update_request hubspot_object obj_id properties].

End MoreRequests.

(** ** Further sample data *)

(** A record whose id is not a number: the reference Shopify has no
    metafields document for it and answers 404. *)
Definition dan_record : json :=
  JDict [("id", JStr "gid-4"); ("email", JStr "d@x.com")].

(** A Shopify whose customers document keeps its list under another key than
    the configured one. *)
Definition shop_other_key : Sim.world :=
  Sim.mkWorld
    [("customers.json", JDict [("clients", JList [ann_record])])]
    [] ["email"; "firstname"] [] 1 200 None.

(** A reference runtime in which HubSpot is down: it answers 503 to every
    request; Shopify answers as in [Sim]. *)
Module Outage.

Definition to_hubspot (rq : Request) : bool :=
  match req_url rq with
  | ShopifyList _ _ | ShopifyMetafields _ _ _ => false
  | _ => true
  end.

Definition outage_send (rq : Request) (w : Sim.world)
  : result Response * Sim.world :=
  if to_hubspot rq
  then (Ok (Sim.respond 503 (JDict [("status", JStr "error")])), w)
  else Sim.sim_send rq w.

Definition runtime : Runtime := {|
  World := Sim.world;
  send := outage_send;
  is_error := fun status => negb ((200 <=? status) && (status <=? 299));
  capitalize := Sim.ascii_capitalize
|}.

End Outage.

(** A reference runtime in which HubSpot answers the listing of the
    properties with 200 and one property that has a label but no name;
    everything else is answered as in [Sim]. *)
Module Nameless.

Definition nameless_send (rq : Request) (w : Sim.world)
  : result Response * Sim.world :=
  match req_method rq, req_url rq with
  | GET, HubspotProperties _ =>
      (Ok (Sim.respond 200
             (JDict [("results", JList [JDict [("label", JStr "Email")]])])),
       w)
  | _, _ => Sim.sim_send rq w
  end.

Definition runtime : Runtime := {|
  World := Sim.world;
  send := nameless_send;
  is_error := fun status => negb ((200 <=? status) && (status <=? 299));
  capitalize := Sim.ascii_capitalize
|}.

End Nameless.

(** ** The requests of [Run01.send_to_hubspot] *)

Module Run01Requests.

Definition search_request (hubspot_object unique_field : string)
  (value : json) : Request :=
  mkRequest POST (HubspotSearch (hubspot_object ++ "s")%string)
    (Some (Map04.search_payload unique_field value)).

(** What [get_existing_hubspot_record] returns once the search was answered:
    the identifier of the first result of a search answered 200, [None] when
    the status is not 200 or there is no result. *)
Definition reported_id (resp : Response) : result json :=
  if status_code resp =? 200 then
    match json_body resp with
    | Some body =>
        rbind (get_default body "results" (JList [])) (fun results =>
        if truthy results
        then rbind (getitem_0 results) (fun first => getitem_str first "id")
        else Ok JNull)
    | None => Raise JSONDecodeError
    end
  else Ok JNull.

(** The search alone, or the search followed by one create or by one update
    against an identifier that is truthy. *)
Definition record_shape (hubspot_object unique_field : string)
  (properties : list (string * json)) (rs : list Request) : Prop :=
  let search :=
    search_request hubspot_object unique_field
      (py_get properties unique_field) in
  rs = [search]
  \/ rs = [search; Upsert.create_request hubspot_object properties]
  \/ exists existing_id,
       truthy existing_id = true
       /\ rs = [search;
                Upsert.update_request hubspot_object existing_id properties].

End Run01Requests.

(** ** The requests of [Attr.create_or_update_hubspot_contact] *)

Module AttrRequests.

(** The create alone, the create and the search, or both followed by one
    update against an identifier that is truthy. *)
Definition contact_shape (email : json) (properties : list (string * json))
  (rs : list Request) : Prop :=
  rs = [AttrUpsert.create_request properties]
  \/ rs = [AttrUpsert.create_request properties;
           AttrUpsert.search_request email]
  \/ exists contact_id,
       truthy contact_id = true
       /\ rs = [AttrUpsert.create_request properties;
                AttrUpsert.search_request email;
                AttrUpsert.update_request contact_id properties].

End AttrRequests.

(** * Properties *)

(** ** Path resolution ([get_nested_value]) *)

Module PathFacts.
Import Path.
Import Dyn05.

Lemma loop_total : forall keys data,
  exists v, get_nested_value_loop data keys = Ok v.
Proof.
  induction keys as [|key keys IH]; intros data; simpl.
  - now exists data.
  - destruct data; try (now exists JNull).
    + destruct (rbind (py_int key) (list_getitem l)); [apply IH | now exists JNull].
    + apply IH.
Qed.

Lemma loop_null : forall keys, get_nested_value_loop JNull keys = Ok JNull.
Proof. now destruct keys. Qed.

Lemma loop_app : forall before data after,
  get_nested_value_loop data (before ++ after) =
  rbind (get_nested_value_loop data before)
        (fun cur => get_nested_value_loop cur after).
Proof.
  induction before as [|key before IH]; intros data after; simpl.
  - reflexivity.
  - destruct data; simpl; try (now rewrite loop_null).
    + destruct (rbind (py_int key) (list_getitem l)); simpl.
      * apply IH.
      * now rewrite loop_null.
    + apply IH.
Qed.

Lemma list_getitem_out_of_range : forall l i,
  i < - Z.of_nat (List.length l) \/ Z.of_nat (List.length l) <= i ->
  list_getitem l i = Raise IndexError.
Proof.
  intros l i H. unfold list_getitem.
  destruct (i <? 0) eqn:Hi.
  - apply Z.ltb_lt in Hi.
    replace ((0 <=? i + Z.of_nat (List.length l)) &&
             (i + Z.of_nat (List.length l) <? Z.of_nat (List.length l)))
      with false; [reflexivity|].
    symmetry. apply andb_false_iff. left. apply Z.leb_gt. lia.
  - apply Z.ltb_ge in Hi.
    replace ((0 <=? i) && (i <? Z.of_nat (List.length l))) with false;
      [reflexivity|].
    symmetry. apply andb_false_iff. right. apply Z.ltb_ge. lia.
Qed.

Lemma step_soft_fail : forall cur key after,
  soft_fail cur key ->
  get_nested_value_loop cur (key :: after) = Ok JNull.
Proof.
  intros cur key after H. destruct cur; simpl in *; try reflexivity.
  - destruct (py_int key) as [i|e]; simpl; [|reflexivity].
    now rewrite (list_getitem_out_of_range l i H).
  - unfold py_get. rewrite H. apply loop_null.
Qed.
End PathFacts.

(** C3. [get_nested_value] is total: for every value and every path it returns
    (it never raises), and when a segment of the path meets a missing key, an
    index that is out of range or not an integer, or a scalar, the result is
    null. *)
Theorem get_nested_value_fails_soft : forall (data : json) (path : string),
  (exists v, Dyn05.get_nested_value data path = Ok v) /\
  (forall before key after cur,
     split "." path = before ++ key :: after ->
     Dyn05.get_nested_value_loop data before = Ok cur ->
     Path.soft_fail cur key ->
     Dyn05.get_nested_value data path = Ok JNull).
Proof.
  intros data path. split.
  - apply PathFacts.loop_total.
  - intros before key after cur Hs Hb Hf.
    unfold Dyn05.get_nested_value. rewrite Hs, PathFacts.loop_app, Hb. simpl rbind.
    now apply PathFacts.step_soft_fail.
Qed.

Lemma get_nested_value_fails_soft_witness :
  Dyn05.get_nested_value sample_product "variants.3.price" = Ok JNull
  /\ Dyn05.get_nested_value sample_product "variants.first.price" = Ok JNull
  /\ Dyn05.get_nested_value sample_product "vendor.name" = Ok JNull
  /\ Dyn05.get_nested_value sample_product "title.0" = Ok JNull.
Proof.
  split; [|split; [|split]].
  - apply (proj2 (get_nested_value_fails_soft sample_product "variants.3.price")
             ["variants"] "3" ["price"]
             (JList [JDict [("price", JStr "9.50")]]));
      [reflexivity | reflexivity | right; vm_compute; discriminate].
  - apply (proj2 (get_nested_value_fails_soft sample_product
                    "variants.first.price")
             ["variants"] "first" ["price"]
             (JList [JDict [("price", JStr "9.50")]]));
      [reflexivity | reflexivity | exact I].
  - apply (proj2 (get_nested_value_fails_soft sample_product "vendor.name")
             [] "vendor" ["name"] sample_product);
      [reflexivity | reflexivity | reflexivity].
  - apply (proj2 (get_nested_value_fails_soft sample_product "title.0")
             ["title"] "0" [] (JStr "Mug"));
      [reflexivity | reflexivity | exact I].
Defined.

(** ** Facts about dicts *)

Module DictFacts.
Section Facts.
Context {A : Type}.
Implicit Types (d : list (string * A)) (k : string) (v : A).

Lemma get_set_same : forall d k v, dict_get (dict_set d k v) k = Some v.
Proof.
  induction d as [|[k' v'] d IH]; intros k v; simpl.
  - now rewrite String.eqb_refl.
  - destruct (String.eqb k' k) eqn:E; simpl; rewrite E; [reflexivity | apply IH].
Qed.

Lemma get_set_other : forall d k k' v,
  k <> k' -> dict_get (dict_set d k v) k' = dict_get d k'.
Proof.
  induction d as [|[k0 v0] d IH]; intros k k' v Hne; simpl.
  - destruct (String.eqb_spec k k'); [contradiction | reflexivity].
  - destruct (String.eqb_spec k0 k) as [->|Hk]; simpl.
    + destruct (String.eqb_spec k k'); [contradiction | reflexivity].
    + destruct (String.eqb k0 k'); [reflexivity | now apply IH].
Qed.

Lemma get_pop_same : forall d k, dict_get (dict_pop d k) k = None.
Proof.
  induction d as [|[k0 v0] d IH]; intros k; simpl; [reflexivity|].
  destruct (String.eqb k0 k) eqn:E; simpl; [apply IH | rewrite E; apply IH].
Qed.

Lemma get_pop_other : forall d k k',
  k <> k' -> dict_get (dict_pop d k) k' = dict_get d k'.
Proof.
  induction d as [|[k0 v0] d IH]; intros k k' Hne; simpl; [reflexivity|].
  destruct (String.eqb_spec k0 k) as [->|Hk]; simpl.
  - destruct (String.eqb_spec k k'); [contradiction | now apply IH].
  - destruct (String.eqb k0 k'); [reflexivity | now apply IH].
Qed.

Lemma set_set_same : forall d k v v',
  dict_set (dict_set d k v) k v' = dict_set d k v'.
Proof.
  induction d as [|[k0 v0] d IH]; intros k v v'; simpl.
  - now rewrite String.eqb_refl.
  - destruct (String.eqb k0 k) eqn:E; simpl; rewrite E; [reflexivity|].
    now rewrite IH.
Qed.

Lemma pop_pop : forall d k k',
  dict_pop (dict_pop d k) k' = dict_pop (dict_pop d k') k.
Proof.
  induction d as [|[k0 v0] d IH]; intros k k'; simpl; [reflexivity|].
  destruct (String.eqb k0 k) eqn:E; destruct (String.eqb k0 k') eqn:E';
    simpl; rewrite ?E, ?E'; try apply IH.
  now rewrite IH.
Qed.

Lemma set_pop : forall d k k' v,
  k <> k' -> dict_set (dict_pop d k') k v = dict_pop (dict_set d k v) k'.
Proof.
  induction d as [|[k0 v0] d IH]; intros k k' v Hne; simpl.
  - destruct (String.eqb_spec k k'); [contradiction | reflexivity].
  - destruct (String.eqb_spec k0 k') as [->|Hk']; simpl.
    + destruct (String.eqb_spec k' k) as [->|_]; [contradiction|].
      simpl. rewrite String.eqb_refl. now apply IH.
    + destruct (String.eqb_spec k0 k) as [->|Hk]; simpl.
      * destruct (String.eqb_spec k k'); [contradiction | reflexivity].
      * destruct (String.eqb_spec k0 k'); [contradiction|].
        now rewrite IH.
Qed.

(** Two assignments to different keys commute when the first key is there
    (the assignment is then in place). *)
Lemma set_set_other : forall d k k' v v',
  k <> k' -> dict_get d k <> None ->
  dict_set (dict_set d k' v') k v = dict_set (dict_set d k v) k' v'.
Proof.
  induction d as [|[k0 v0] d IH]; intros k k' v v' Hne Hin; simpl in *.
  - contradiction.
  - destruct (String.eqb_spec k0 k) as [->|Hk].
    + destruct (String.eqb_spec k k') as [->|_]; [contradiction|].
      simpl. rewrite String.eqb_refl.
      destruct (String.eqb_spec k k'); [contradiction | reflexivity].
    + destruct (String.eqb_spec k0 k') as [->|Hk']; simpl.
      * destruct (String.eqb_spec k' k) as [->|_]; [contradiction|].
        now rewrite String.eqb_refl.
      * destruct (String.eqb_spec k0 k); [contradiction|].
        destruct (String.eqb_spec k0 k'); [contradiction|].
        now rewrite IH.
Qed.

Lemma get_In_keys : forall d k v, dict_get d k = Some v -> In k (dict_keys d).
Proof.
  induction d as [|[k0 v0] d IH]; intros k v H; simpl in *; [discriminate|].
  destruct (String.eqb_spec k0 k); [now left | right; eauto].
Qed.
End Facts.
End DictFacts.

(** ** Allow-list normalisation (step 3 of [Dyn05.send_to_hubspot]) *)

Module NormalizeFacts.
Import Rule.
Import Dyn05.

Lemma step_act : forall field rules p,
  step field rules p = act (verdict_of rules (dict_get p field)) field p.
Proof.
  intros field rules p. unfold step, allowed_step, verdict_of.
  destruct (dict_get p field) as [v|]; [|reflexivity].
  destruct v; try reflexivity;
    match goal with
    | |- context [if ?c then _ else _] => destruct c; [|reflexivity]
    end;
    destruct (truthy (default rules)); reflexivity.
Qed.

Lemma normalize_cons : forall field rules rest p,
  normalize ((field, rules) :: rest) p = normalize rest (step field rules p).
Proof.
  intros. unfold normalize, step. simpl.
  destruct (allowed_step p field rules) as [p1 o1]. simpl.
  destruct (apply_allowed_values rest p1) as [p2 o2]. reflexivity.
Qed.

Lemma verdict_replace_present : forall rules current v,
  verdict_of rules current = Replace v ->
  current <> None /\ v = default rules /\ truthy v = true.
Proof.
  intros rules current v H. unfold verdict_of in H.
  destruct current as [c|]; [|discriminate].
  split; [discriminate|].
  destruct c; try discriminate;
    match type of H with
    | (if ?c then _ else _) = _ => destruct c; [|discriminate]
    end;
    destruct (truthy (default rules)) eqn:T; inversion H; subst; auto.
Qed.

Lemma get_act_other : forall a field field' p,
  field <> field' -> dict_get (act a field p) field' = dict_get p field'.
Proof.
  intros [|v|] field field' p Hne; simpl.
  - reflexivity.
  - now apply DictFacts.get_set_other.
  - now apply DictFacts.get_pop_other.
Qed.

Lemma get_step_other : forall field rules field' p,
  field <> field' -> dict_get (step field rules p) field' = dict_get p field'.
Proof. intros. rewrite step_act. now apply get_act_other. Qed.

Lemma get_step_same : forall field rules p,
  dict_get (step field rules p) field = rule_outcome rules (dict_get p field).
Proof.
  intros. rewrite step_act. unfold rule_outcome.
  destruct (verdict_of rules (dict_get p field)); simpl.
  - reflexivity.
  - apply DictFacts.get_set_same.
  - apply DictFacts.get_pop_same.
Qed.

Lemma act_comm : forall a b f g p,
  f <> g ->
  (forall v, a = Replace v -> dict_get p f <> None) ->
  (forall v, b = Replace v -> dict_get p g <> None) ->
  act a f (act b g p) = act b g (act a f p).
Proof.
  intros [|v|] [|w|] f g p Hne Ha Hb; simpl; try reflexivity.
  - apply DictFacts.set_set_other; [assumption | now apply (Ha v)].
  - apply DictFacts.set_pop. assumption.
  - symmetry. apply DictFacts.set_pop. congruence.
  - apply DictFacts.pop_pop.
Qed.

Lemma step_comm : forall f r g r' p,
  f <> g -> step f r (step g r' p) = step g r' (step f r p).
Proof.
  intros f r g r' p Hne.
  rewrite (step_act f r (step g r' p)), (step_act g r' (step f r p)).
  rewrite get_step_other by congruence.
  rewrite get_step_other by assumption.
  rewrite !step_act.
  apply act_comm; [assumption | |]; intros v Hv;
    now apply verdict_replace_present in Hv.
Qed.

Lemma step_idempotent : forall f r p, step f r (step f r p) = step f r p.
Proof.
  intros f r p. rewrite (step_act f r (step f r p)), get_step_same.
  rewrite step_act. unfold rule_outcome.
  destruct (verdict_of r (dict_get p f)) as [|v|] eqn:V; simpl.
  - now rewrite V.
  - apply verdict_replace_present in V as (_ & -> & T).
    unfold verdict_of.
    destruct (default r) eqn:D; try discriminate; simpl;
      match goal with
      | |- context [if ?c then _ else _] => destruct c; [|reflexivity]
      end;
      simpl in T; rewrite ?T; simpl; now rewrite DictFacts.set_set_same.
  - reflexivity.
Qed.

Lemma step_normalize_comm : forall rest f r p,
  ~ In f (dict_keys rest) ->
  step f r (normalize rest p) = normalize rest (step f r p).
Proof.
  induction rest as [|[g r'] rest IH]; intros f r p Hnin.
  - reflexivity.
  - rewrite !normalize_cons. simpl in Hnin.
    rewrite IH by tauto. f_equal. apply step_comm. intros ->. tauto.
Qed.

Lemma get_normalize_other : forall rest f p,
  ~ In f (dict_keys rest) -> dict_get (normalize rest p) f = dict_get p f.
Proof.
  induction rest as [|[g r'] rest IH]; intros f p Hnin.
  - reflexivity.
  - rewrite normalize_cons. simpl in Hnin. rewrite IH by tauto.
    apply get_step_other. intros ->. tauto.
Qed.

Lemma get_normalize : forall rules f r p,
  NoDup (dict_keys rules) -> In (f, r) rules ->
  dict_get (normalize rules p) f = rule_outcome r (dict_get p f).
Proof.
  induction rules as [|[g r'] rules IH]; intros f r p Hnd Hin.
  - destruct Hin.
  - rewrite normalize_cons. simpl in Hnd. inversion Hnd as [|? ? Hg Hnd']; subst.
    destruct Hin as [E|Hin].
    + inversion E; subst. rewrite get_normalize_other by assumption.
      apply get_step_same.
    + rewrite (IH f r) by assumption. f_equal. apply get_step_other.
      intros ->. apply Hg. unfold dict_keys.
      change f with (fst (f, r)). now apply in_map.
Qed.

Lemma rule_outcome_allowed : forall r current v,
  rule_outcome r current = Some v -> v <> JNull -> allowed r <> [] ->
  py_in v (allowed r) = true \/ v = default r.
Proof.
  intros r current v H Hv Ha. unfold rule_outcome in H.
  destruct (verdict_of r current) as [|d|] eqn:V.
  - subst current. unfold verdict_of in V.
    destruct v; try contradiction;
      (destruct (allowed r); [contradiction|]);
      match type of V with
      | (if true && negb ?c then _ else _) = _ => destruct c; [now left|]
      end; simpl in V; destruct (truthy (default r)); discriminate.
  - inversion H; subst. apply verdict_replace_present in V. tauto.
  - discriminate.
Qed.
End NormalizeFacts.

(** C8. Allow-list normalisation is idempotent: normalising a normalised
    property map changes nothing. The rule set is a dict, so no field has two
    rules. *)
Theorem normalize_idempotent :
  forall (rules : list (string * AllowedRule)) (properties : list (string * json)),
  NoDup (dict_keys rules) ->
  Dyn05.normalize rules (Dyn05.normalize rules properties)
  = Dyn05.normalize rules properties.
Proof.
  induction rules as [|[f r] rules IH]; intros p Hnd.
  - reflexivity.
  - simpl in Hnd. inversion Hnd as [|? ? Hf Hnd']; subst.
    rewrite !NormalizeFacts.normalize_cons.
    rewrite NormalizeFacts.step_normalize_comm by assumption.
    rewrite NormalizeFacts.step_idempotent.
    now apply IH.
Qed.

Lemma sample_rules_nodup : NoDup (dict_keys sample_rules).
Proof.
  repeat constructor; simpl; intuition discriminate.
Defined.

Lemma normalize_idempotent_witness :
  Dyn05.normalize sample_rules (Dyn05.normalize sample_rules sample_properties)
  = Dyn05.normalize sample_rules sample_properties.
Proof.
  apply (normalize_idempotent sample_rules sample_properties).
  exact sample_rules_nodup.
Defined.

(** C4, as stated, fails: a null value stays in the map although it is not in
    the allowed list and the rule has no default, and under a rule whose
    allowed list is empty a value stays although the rule has a default. *)
Lemma allow_list_counterexample :
  ~ enforced_as_specified
      [("status", mkRule [JStr "open"; JStr "closed"] JNull)]
      [("status", JNull)]
  /\ ~ enforced_as_specified
        [("status", mkRule [] (JStr "open"))]
        [("status", JStr "archived")].
Proof.
  split; intros H.
  - specialize (H "status" (mkRule [JStr "open"; JStr "closed"] JNull) JNull
                  (or_introl eq_refl) eq_refl eq_refl).
    discriminate H.
  - specialize (H "status" (mkRule [] (JStr "open")) (JStr "archived")
                  (or_introl eq_refl) eq_refl eq_refl).
    discriminate H.
Qed.

Lemma fix_currency_get : forall (cfg : Map04.Config) properties value,
  dict_get properties "deal_currency_code" = Some value ->
  dict_get (fst (Map04.fix_currency cfg properties)) "deal_currency_code"
  = Some (if py_in value
               match Map04.currency_codes cfg with Some l => l | None => [] end
          then value
          else match Map04.default_currency cfg with
               | Some v => v
               | None => JStr "USD"
               end).
Proof.
  intros cfg properties value H. unfold Map04.fix_currency. rewrite H.
  destruct (py_in value _); simpl.
  - assumption.
  - apply DictFacts.get_set_same.
Qed.

(** C4, amended. After step 3 of [Dyn05.send_to_hubspot] a field governed by a
    rule is absent if it was absent, keeps a null value, keeps a value that is
    in the allowed list or whose rule has an empty allowed list, and otherwise
    holds the rule's default when that default is truthy and is removed when
    it is not. So a governed field that remains with a non-null value under a
    non-empty allowed list holds an allowed value or the default. In
    [Map04] a currency code outside the allowed list is always replaced by
    the default currency. *)
Theorem allow_list_enforced :
  (forall (rules : list (string * AllowedRule))
          (properties : list (string * json)) field rule,
     NoDup (dict_keys rules) -> In (field, rule) rules ->
     let after := dict_get (Dyn05.normalize rules properties) field in
     (dict_get properties field = None -> after = None)
     /\ (dict_get properties field = Some JNull -> after = Some JNull)
     /\ (forall v, dict_get properties field = Some v -> v <> JNull ->
           (allowed rule = [] \/ py_in v (allowed rule) = true ->
            after = Some v)
           /\ (allowed rule <> [] -> py_in v (allowed rule) = false ->
               after = if truthy (default rule) then Some (default rule)
                       else None))
     /\ (forall v, after = Some v -> v <> JNull -> allowed rule <> [] ->
           py_in v (allowed rule) = true \/ v = default rule))
  /\ (forall (cfg : Map04.Config) properties value,
        dict_get properties "deal_currency_code" = Some value ->
        dict_get (fst (Map04.fix_currency cfg properties)) "deal_currency_code"
        = Some (if py_in value
                     match Map04.currency_codes cfg with
                     | Some l => l
                     | None => []
                     end
                then value
                else match Map04.default_currency cfg with
                     | Some v => v
                     | None => JStr "USD"
                     end)).
Proof.
  split; [|exact fix_currency_get].
  intros rules properties field rule Hnd Hin after.
  assert (E : after = Rule.rule_outcome rule (dict_get properties field))
    by now apply NormalizeFacts.get_normalize.
  repeat split.
  - intros H. rewrite E, H. reflexivity.
  - intros H. rewrite E, H. reflexivity.
  - intros [Ha|Ha]; rewrite E, H; unfold Rule.rule_outcome,
      Rule.verdict_of.
    + rewrite Ha. now destruct v.
    + rewrite Ha, andb_false_r. now destruct v.
  - intros Ha Hout. rewrite E, H.
    unfold Rule.rule_outcome, Rule.verdict_of.
    rewrite Hout. destruct (allowed rule); [contradiction|]. simpl.
    destruct v; try contradiction; now destruct (truthy (default rule)).
  - intros v Hv. rewrite E in Hv.
    now apply NormalizeFacts.rule_outcome_allowed with (current := dict_get properties field).
Qed.

Lemma allow_list_enforced_witness :
  dict_get (Dyn05.normalize sample_rules sample_properties) "status"
  = Some (JStr "open")
  /\ dict_get (Dyn05.normalize sample_rules sample_properties) "tier" = None
  /\ dict_get (fst (Map04.fix_currency
                      (Map04.mkConfig "orders.json" "orders" "deal" "dealname"
                         "dealinformation" [] []
                         (Some [JStr "USD"; JStr "EUR"]) None)
                      [("deal_currency_code", JStr "INR")]))
       "deal_currency_code"
     = Some (JStr "USD").
Proof.
  split; [|split].
  - destruct (proj1 allow_list_enforced sample_rules sample_properties
                "status" (mkRule [JStr "open"; JStr "closed"] (JStr "open"))
                sample_rules_nodup (or_introl eq_refl)) as (_ & _ & H & _).
    apply (proj2 (H (JStr "archived") eq_refl ltac:(discriminate)));
      [discriminate | reflexivity].
  - destruct (proj1 allow_list_enforced sample_rules sample_properties
                "tier" (mkRule [JStr "gold"; JStr "silver"] JNull)
                sample_rules_nodup (or_intror (or_introl eq_refl)))
      as (_ & _ & H & _).
    apply (proj2 (H (JStr "bronze") eq_refl ltac:(discriminate)));
      [discriminate | reflexivity].
  - apply (proj2 allow_list_enforced
             (Map04.mkConfig "orders.json" "orders" "deal" "dealname"
                "dealinformation" [] [] (Some [JStr "USD"; JStr "EUR"]) None)
             [("deal_currency_code", JStr "INR")] (JStr "INR") eq_refl).
Defined.

(** ** Facts about computations *)

Module EffFacts.

Lemma requests_app : forall t1 t2,
  requests (t1 ++ t2) = requests t1 ++ requests t2.
Proof.
  induction t1 as [|[rq|m|ms] t1 IH]; intros t2; simpl; rewrite ?IH; reflexivity.
Qed.

Lemma printed_app : forall t1 t2,
  printed (t1 ++ t2) = printed t1 ++ printed t2.
Proof.
  induction t1 as [|[rq|m|ms] t1 IH]; intros t2; simpl; rewrite ?IH; reflexivity.
Qed.

Section Facts.
Context {RT : Runtime}.

Lemma bind_ok : forall {A B} (m : M A) (f : A -> M B) w a w1 t1,
  m w = (Ok a, w1, t1) ->
  bind m f w = (let '(r, w2, t2) := f a w1 in (r, w2, t1 ++ t2)).
Proof. intros. unfold bind. now rewrite H. Qed.

Lemma bind_raise : forall {A B} (m : M A) (f : A -> M B) w e w1 t1,
  m w = (Raise e, w1, t1) -> bind m f w = (Raise e, w1, t1).
Proof. intros. unfold bind. now rewrite H. Qed.

Lemma for_each_app : forall {A} (l1 l2 : list A) (body : A -> M unit) w,
  for_each (l1 ++ l2) body w
  = bind (for_each l1 body) (fun _ => for_each l2 body) w.
Proof.
  induction l1 as [|x l1 IH]; intros l2 body w; simpl.
  - unfold bind, ret. simpl. now destruct (for_each l2 body w) as [[r w2] t2].
  - unfold bind in *. destruct (body x w) as [[[a|e] w1] t1]; [|reflexivity].
    rewrite IH. destruct (for_each l1 body w1) as [[[[]|e] w2] t2].
    + destruct (for_each l2 body w2) as [[r w3] t3]. now rewrite app_assoc.
    + reflexivity.
Qed.

(** A loop whose body never raises never raises. *)
Lemma for_each_ok : forall {A} (l : list A) (body : A -> M unit),
  (forall x w, In x l -> exists w' t, body x w = (Ok tt, w', t)) ->
  forall w, exists w' t, for_each l body w = (Ok tt, w', t).
Proof.
  induction l as [|x l IH]; intros body Hbody w; simpl.
  - now exists w, [].
  - destruct (Hbody x w (or_introl eq_refl)) as (w1 & t1 & E1).
    destruct (IH body (fun y w Hy => Hbody y w (or_intror Hy)) w1)
      as (w2 & t2 & E2).
    exists w2, (t1 ++ t2). unfold bind. now rewrite E1, E2.
Qed.
End Facts.
End EffFacts.

(** ** The upsert of [Dyn05.send_to_hubspot] (steps 5 and 6) *)

Module UpsertFacts.
Import Upsert.
Import Dyn05.

Section Facts.
Context {RT : Runtime}.

Lemma upsert_skips : forall object_type hubspot_object unique_field properties w,
  truthy (py_get properties unique_field) = false ->
  upsert object_type hubspot_object unique_field properties w
  = (Ok tt, w, [EvPrint (MSkipping object_type)]).
Proof.
  intros. unfold upsert. now rewrite H.
Qed.

Lemma upsert_search_failed :
  forall object_type hubspot_object unique_field properties w w1 resp,
  truthy (py_get properties unique_field) = true ->
  send (search_request hubspot_object unique_field properties) w
  = (Ok resp, w1) ->
  status_code resp <> 200 ->
  upsert object_type hubspot_object unique_field properties w
  = create_after_search hubspot_object unique_field properties w1.
Proof.
  intros ot ho uf props w w1 resp Hu Hs Hst.
  unfold upsert, create_after_search. rewrite Hu. simpl.
  unfold bind at 1. unfold http at 1.
  fold (search_request ho uf props). rewrite Hs.
  apply Z.eqb_neq in Hst. rewrite Hst.
  unfold bind, ret, http. simpl.
  fold (create_request ho props).
  destruct (send (create_request ho props) w1) as [[r|e] w2]; [|reflexivity].
  unfold print. now destruct (status_code r =? 201).
Qed.

Lemma upsert_no_match :
  forall object_type hubspot_object unique_field properties w w1 resp body
         results,
  truthy (py_get properties unique_field) = true ->
  send (search_request hubspot_object unique_field properties) w
  = (Ok resp, w1) ->
  status_code resp = 200 ->
  json_body resp = Some body ->
  get_default body "results" (JList []) = Ok results ->
  truthy results = false ->
  upsert object_type hubspot_object unique_field properties w
  = create_after_search hubspot_object unique_field properties w1.
Proof.
  intros ot ho uf props w w1 resp body results Hu Hs Hst Hb Hr Ht.
  unfold upsert, create_after_search. rewrite Hu. simpl.
  unfold bind at 1. unfold http at 1.
  fold (search_request ho uf props). rewrite Hs, Hst. simpl.
  unfold bind at 1. unfold bind at 1. unfold resp_json. rewrite Hb.
  unfold ret at 1. unfold lift at 1. rewrite Hr, Ht.
  unfold bind, ret, http. simpl.
  fold (create_request ho props).
  destruct (send (create_request ho props) w1) as [[r|e] w2]; [|reflexivity].
  unfold print. now destruct (status_code r =? 201).
Qed.

Lemma upsert_match :
  forall object_type hubspot_object unique_field properties w w1 resp body
         first rest obj_id,
  truthy (py_get properties unique_field) = true ->
  send (search_request hubspot_object unique_field properties) w
  = (Ok resp, w1) ->
  status_code resp = 200 ->
  json_body resp = Some body ->
  get_default body "results" (JList []) = Ok (JList (first :: rest)) ->
  getitem_str first "id" = Ok obj_id ->
  upsert object_type hubspot_object unique_field properties w
  = update_after_search hubspot_object unique_field properties obj_id w1.
Proof.
  intros ot ho uf props w w1 resp body first rest obj_id Hu Hs Hst Hb Hr Hid.
  unfold upsert, update_after_search. rewrite Hu. simpl.
  unfold bind at 1. unfold http at 1.
  fold (search_request ho uf props). rewrite Hs, Hst. simpl.
  unfold bind at 1. unfold bind at 1. unfold resp_json. rewrite Hb.
  unfold ret at 1. unfold lift at 1. rewrite Hr. simpl.
  unfold bind, lift, http. simpl. rewrite Hid.
  fold (update_request ho obj_id props).
  destruct (send (update_request ho obj_id props) w1) as [[r|e] w2];
    reflexivity.
Qed.
End Facts.
End UpsertFacts.

Module AttrFacts.
Import AttrUpsert.
Import Attr.

Section Facts.
Context {RT : Runtime}.

(** The create request is sent first, whatever the destination holds. *)
Lemma create_comes_first : forall email properties w,
  exists t,
    snd (create_or_update_hubspot_contact email properties w)
    = EvHttp (create_request properties) :: t.
Proof.
  intros email properties w. unfold create_or_update_hubspot_contact.
  unfold bind at 1. unfold http at 1. fold (create_request properties).
  destruct (send (create_request properties) w) as [[r|e] w1]; simpl.
  - match goal with
    | |- context [?k w1] =>
        match type of (k w1) with
        | (result string * World * list Event)%type =>
            destruct (k w1) as [[r' w'] t']
        end
    end. now exists t'.
  - now exists [].
Qed.

Lemma contact_created : forall email properties w w1 r body,
  send (create_request properties) w = (Ok r, w1) ->
  status_code r = 201 ->
  json_body r = Some body ->
  create_or_update_hubspot_contact email properties w
  = (Ok "created", w1, [EvHttp (create_request properties)]).
Proof.
  intros email properties w w1 r body Hs Hst Hb.
  unfold create_or_update_hubspot_contact.
  unfold bind at 1. unfold http at 1. fold (create_request properties).
  rewrite Hs, Hst. simpl. unfold bind, resp_json, ret. now rewrite Hb.
Qed.

Lemma contact_updated :
  forall email properties w w1 w2 w3 r1 r2 r3 body first rest contact_id body3,
  send (create_request properties) w = (Ok r1, w1) ->
  status_code r1 = 409 ->
  send (search_request email) w1 = (Ok r2, w2) ->
  status_code r2 = 200 ->
  json_body r2 = Some body ->
  get_default body "results" (JList []) = Ok (JList (first :: rest)) ->
  get_default first "id" JNull = Ok contact_id ->
  truthy contact_id = true ->
  send (update_request contact_id properties) w2 = (Ok r3, w3) ->
  status_code r3 = 200 ->
  json_body r3 = Some body3 ->
  create_or_update_hubspot_contact email properties w
  = (Ok "updated", w3,
     [EvHttp (create_request properties); EvHttp (search_request email);
      EvHttp (update_request contact_id properties)]).
Proof.
  intros email properties w w1 w2 w3 r1 r2 r3 body first rest contact_id body3
    H1 S1 H2 S2 B2 R2 I2 T2 H3 S3 B3.
  unfold create_or_update_hubspot_contact.
  unfold bind at 1. unfold http at 1. fold (create_request properties).
  rewrite H1, S1. simpl.
  unfold bind at 1. unfold http at 1. fold (search_request email).
  rewrite H2, S2. simpl.
  unfold bind at 1. unfold resp_json at 1. rewrite B2. unfold ret at 1.
  unfold bind at 1. unfold lift at 1. rewrite R2. simpl.
  unfold bind at 1. unfold lift at 1. simpl.
  unfold bind at 1. unfold lift at 1. rewrite I2, T2. simpl.
  unfold bind at 1. unfold http at 1. fold (update_request contact_id properties).
  rewrite H3, S3. simpl. unfold bind, resp_json, ret. now rewrite B3.
Qed.

(** A create answered with a status other than 409 is the only request. *)
Lemma contact_create_refused : forall email properties w resp w1,
  send (create_request properties) w = (Ok resp, w1) ->
  status_code resp <> 409 ->
  requests (trace (create_or_update_hubspot_contact email properties w))
  = [create_request properties].
Proof.
  intros email props w resp w1 Hs Hst.
  unfold create_or_update_hubspot_contact, trace.
  unfold bind at 1. unfold http at 1. fold (create_request props).
  rewrite Hs. apply Z.eqb_neq in Hst. rewrite Hst.
  destruct (status_code resp =? 201); simpl.
  - unfold bind, resp_json, ret, raise. now destruct (json_body resp).
  - reflexivity.
Qed.
End Facts.
End AttrFacts.

(** C10. In the upsert of [Dyn05.send_to_hubspot] a search answered with a
    status other than 200 is handled exactly as a search answered 200 with no
    result: in both cases the record is sent as a create, nothing reports the
    failed search, and no update is sent. With a destination that holds a
    match the search fails to report, the create adds a second record with
    the same unique value. *)
Theorem search_failure_is_sent_as_create :
  (forall (RT : Runtime) object_type hubspot_object unique_field properties
          (w w1 : World) resp,
     truthy (py_get properties unique_field) = true ->
     send (Upsert.search_request hubspot_object unique_field properties) w
     = (Ok resp, w1) ->
     status_code resp <> 200 ->
     Dyn05.upsert object_type hubspot_object unique_field properties w
     = Upsert.create_after_search hubspot_object unique_field properties w1)
  /\ (forall (RT : Runtime) object_type hubspot_object unique_field properties
             (w w1 : World) resp body results,
        truthy (py_get properties unique_field) = true ->
        send (Upsert.search_request hubspot_object unique_field properties) w
        = (Ok resp, w1) ->
        status_code resp = 200 ->
        json_body resp = Some body ->
        get_default body "results" (JList []) = Ok results ->
        truthy results = false ->
        Dyn05.upsert object_type hubspot_object unique_field properties w
        = Upsert.create_after_search hubspot_object unique_field
            properties w1)
  /\ (exists (w : Sim.world) properties,
        let x := Sim.run (Dyn05.upsert "customer" "contact" "email" properties)
                   w in
        List.length (Sim.matching w "email" (py_get properties "email")) = 1%nat
        /\ outcome x = Ok tt
        /\ requests (trace x)
           = [Upsert.search_request "contact" "email" properties;
              Upsert.create_request "contact" properties]
        /\ printed (trace x) = [MCreated "contact" (JStr "a@x.com")]
        /\ List.length (Sim.matching (final x) "email"
                          (py_get properties "email")) = 2%nat).
Proof.
  split; [|split].
  - intros. now apply UpsertFacts.upsert_search_failed with (w := w) (resp := resp).
  - intros. now apply UpsertFacts.upsert_no_match
      with (w := w) (resp := resp) (body := body) (results := results).
  - exists (hub_with_ann 503 None), ann. vm_compute. repeat split; reflexivity.
Qed.

Lemma search_failure_is_sent_as_create_witness :
  Sim.run (Dyn05.upsert "customer" "contact" "email" ann) (hub_with_ann 503 None)
  = @Upsert.create_after_search Sim.runtime "contact" "email" ann
      (hub_with_ann 503 None)
  /\ Sim.run (Dyn05.upsert "customer" "contact" "email" ann) (empty_hub None)
     = @Upsert.create_after_search Sim.runtime "contact" "email" ann
         (empty_hub None).
Proof.
  split.
  - apply (proj1 search_failure_is_sent_as_create Sim.runtime "customer"
             "contact" "email" ann (hub_with_ann 503 None)
             (hub_with_ann 503 None)
             (Sim.search (hub_with_ann 503 None)
                (Dyn05.search_payload "email" (JStr "a@x.com")))).
    + reflexivity.
    + reflexivity.
    + vm_compute. discriminate.
  - eapply (proj1 (proj2 search_failure_is_sent_as_create) Sim.runtime
              "customer" "contact" "email" ann (empty_hub None));
      reflexivity.
Defined.

(** C1, as stated, fails. The destination holds exactly one contact with the
    email. [create_or_update_hubspot_contact] still issues a create request
    (answered 409) before it searches and updates. And when the search of
    [Dyn05.send_to_hubspot] is answered 503, the upsert issues a create and no
    update, although the contact exists. And against a destination that
    accepts a second contact with the same email, two runs of
    [create_or_update_hubspot_contact] with the same properties end in
    created twice, with two contacts. *)
Lemma create_issued_despite_match :
  (let w := hub_with_ann 200 (Some "email") in
   let x := Sim.run (Attr.create_or_update_hubspot_contact (JStr "a@x.com") ann)
              w in
   List.length (Sim.matching w "email" (JStr "a@x.com")) = 1%nat
   /\ outcome x = Ok "updated"
   /\ requests (trace x)
      = [AttrUpsert.create_request ann;
         AttrUpsert.search_request (JStr "a@x.com");
         AttrUpsert.update_request (JNum 1) ann]
   /\ existsb Upsert.is_create (requests (trace x)) = true)
  /\ (let w := hub_with_ann 503 None in
      let x := Sim.run (Dyn05.upsert "customer" "contact" "email" ann) w in
      List.length (Sim.matching w "email" (JStr "a@x.com")) = 1%nat
      /\ existsb Upsert.is_create (requests (trace x)) = true
      /\ existsb Upsert.is_update (requests (trace x)) = false)
  /\ (let c := Attr.create_or_update_hubspot_contact (JStr "a@x.com") ann in
      let first := Sim.run c (empty_hub None) in
      let second := Sim.run c (final first) in
      outcome first = Ok "created" /\ outcome second = Ok "created"
      /\ List.length (Sim.matching (final second) "email" (JStr "a@x.com"))
         = 2%nat).
Proof.
  vm_compute. repeat split; reflexivity.
Qed.

(** C1, amended. [Dyn05.send_to_hubspot] searches first: when the search
    answers 200 with a non-empty result list whose first element has an id,
    the upsert sends one update against that id and no create.
    [create_or_update_hubspot_contact] always sends the create first; a
    create answered with a status other than 409, or not answered at all,
    is the only request of the call, so it searches and updates only after a
    create answered 409.
    Two runs with the same properties end in created, then updated, with one
    accepted create, under these conditions: for [Dyn05.send_to_hubspot], the
    first search answers 200 without a result, the create is answered 201,
    the second search answers 200 and reports the record, and the update is
    answered; for
    [create_or_update_hubspot_contact], the first create is answered 201, the
    second create is refused with 409, the search answers 200 and reports the
    contact with a truthy id, and the update is answered 200. When the second
    create is answered 201 as well (the destination accepts a duplicate), the
    two runs of [create_or_update_hubspot_contact] end in created twice. *)
Theorem upsert_updates_first_match :
  (forall (RT : Runtime) object_type hubspot_object unique_field properties
          (w w1 : World) resp body first rest obj_id,
     truthy (py_get properties unique_field) = true ->
     send (Upsert.search_request hubspot_object unique_field properties) w
     = (Ok resp, w1) ->
     status_code resp = 200 ->
     json_body resp = Some body ->
     get_default body "results" (JList []) = Ok (JList (first :: rest)) ->
     getitem_str first "id" = Ok obj_id ->
     let x := Dyn05.upsert object_type hubspot_object unique_field properties w
     in
     x = Upsert.update_after_search hubspot_object unique_field properties
           obj_id w1
     /\ requests (trace x)
        = [Upsert.search_request hubspot_object unique_field properties;
           Upsert.update_request hubspot_object obj_id properties]
     /\ existsb Upsert.is_create (requests (trace x)) = false)
  /\ (forall (RT : Runtime) email properties (w : World),
        exists t,
          trace (Attr.create_or_update_hubspot_contact email properties w)
          = EvHttp (AttrUpsert.create_request properties) :: t)
  /\ (forall (RT : Runtime) object_type hubspot_object unique_field properties
             (w w1 w2 w3 w4 : World) s1 b1 r1 c s2 b2 first rest obj_id u,
        truthy (py_get properties unique_field) = true ->
        send (Upsert.search_request hubspot_object unique_field properties)
          w = (Ok s1, w1) ->
        status_code s1 = 200 -> json_body s1 = Some b1 ->
        get_default b1 "results" (JList []) = Ok r1 -> truthy r1 = false ->
        send (Upsert.create_request hubspot_object properties) w1
        = (Ok c, w2) ->
        status_code c = 201 ->
        send (Upsert.search_request hubspot_object unique_field properties)
          w2 = (Ok s2, w3) ->
        status_code s2 = 200 -> json_body s2 = Some b2 ->
        get_default b2 "results" (JList []) = Ok (JList (first :: rest)) ->
        getitem_str first "id" = Ok obj_id ->
        send (Upsert.update_request hubspot_object obj_id properties) w3
        = (Ok u, w4) ->
        let unique_value := py_get properties unique_field in
        Dyn05.upsert object_type hubspot_object unique_field properties w
        = (Ok tt, w2,
           [EvHttp (Upsert.search_request hubspot_object unique_field
                      properties);
            EvHttp (Upsert.create_request hubspot_object properties);
            EvPrint (MCreated hubspot_object unique_value)])
        /\ Dyn05.upsert object_type hubspot_object unique_field properties w2
           = (Ok tt, w4,
              [EvHttp (Upsert.search_request hubspot_object unique_field
                         properties);
               EvHttp (Upsert.update_request hubspot_object obj_id
                         properties);
               EvPrint (MUpdated hubspot_object unique_value)]))
  /\ (forall (RT : Runtime) email properties (w w1 w2 w3 w4 : World)
             c1 b1 c2 s b first rest contact_id u b3,
        send (AttrUpsert.create_request properties) w = (Ok c1, w1) ->
        status_code c1 = 201 -> json_body c1 = Some b1 ->
        send (AttrUpsert.create_request properties) w1 = (Ok c2, w2) ->
        status_code c2 = 409 ->
        send (AttrUpsert.search_request email) w2 = (Ok s, w3) ->
        status_code s = 200 -> json_body s = Some b ->
        get_default b "results" (JList []) = Ok (JList (first :: rest)) ->
        get_default first "id" JNull = Ok contact_id ->
        truthy contact_id = true ->
        send (AttrUpsert.update_request contact_id properties) w3 = (Ok u, w4) ->
        status_code u = 200 -> json_body u = Some b3 ->
        Attr.create_or_update_hubspot_contact email properties w
        = (Ok "created", w1, [EvHttp (AttrUpsert.create_request properties)])
        /\ Attr.create_or_update_hubspot_contact email properties w1
           = (Ok "updated", w4,
              [EvHttp (AttrUpsert.create_request properties);
               EvHttp (AttrUpsert.search_request email);
               EvHttp (AttrUpsert.update_request contact_id properties)]))
  /\ (forall (RT : Runtime) email properties (w w1 : World) resp,
        send (AttrUpsert.create_request properties) w = (Ok resp, w1) ->
        status_code resp <> 409 ->
        requests (trace (Attr.create_or_update_hubspot_contact email
                           properties w))
        = [AttrUpsert.create_request properties])
  /\ (forall (RT : Runtime) email properties (w w1 : World) e,
        send (AttrUpsert.create_request properties) w = (Raise e, w1) ->
        Attr.create_or_update_hubspot_contact email properties w
        = (Raise e, w1, [EvHttp (AttrUpsert.create_request properties)]))
  /\ (forall (RT : Runtime) email properties (w w1 w2 : World) c1 b1 c2 b2,
        send (AttrUpsert.create_request properties) w = (Ok c1, w1) ->
        status_code c1 = 201 -> json_body c1 = Some b1 ->
        send (AttrUpsert.create_request properties) w1 = (Ok c2, w2) ->
        status_code c2 = 201 -> json_body c2 = Some b2 ->
        Attr.create_or_update_hubspot_contact email properties w
        = (Ok "created", w1, [EvHttp (AttrUpsert.create_request properties)])
        /\ Attr.create_or_update_hubspot_contact email properties w1
           = (Ok "created", w2,
              [EvHttp (AttrUpsert.create_request properties)])).
Proof.
  split; [|split; [|split; [|split; [|split; [|split]]]]].
  - intros RT ot ho uf props w w1 resp body first rest obj_id Hu Hs Hst Hb Hr Hi x.
    assert (E : x = Upsert.update_after_search ho uf props obj_id w1).
    { subst x. now apply UpsertFacts.upsert_match
        with (resp := resp) (body := body) (first := first) (rest := rest). }
    split; [exact E|]. rewrite E. unfold Upsert.update_after_search.
    destruct (send (Upsert.update_request ho obj_id props) w1)
      as [[r|e] w2]; split; reflexivity.
  - intros RT email props w. unfold trace. apply AttrFacts.create_comes_first.
  - intros RT ot ho uf props w w1 w2 w3 w4 s1 b1 r1 c s2 b2 first rest obj_id u
           Hu H1 S1 B1 R1 T1 H2 S2 H3 S3 B3 R3 I3 H4 uv.
    split.
    + rewrite (UpsertFacts.upsert_no_match ot ho uf props w w1 s1 b1 r1)
        by assumption.
      unfold Upsert.create_after_search. now rewrite H2, S2.
    + rewrite (UpsertFacts.upsert_match ot ho uf props w2 w3 s2 b2 first rest
                 obj_id) by assumption.
      unfold Upsert.update_after_search. now rewrite H4.
  - intros RT email props w w1 w2 w3 w4 c1 b1 c2 s b first rest contact_id u b3
           H1 S1 B1 H2 S2 H3 S3 B3' R3 I3 T3 H4 S4 B4.
    split.
    + now apply AttrFacts.contact_created with (r := c1) (body := b1).
    + now apply AttrFacts.contact_updated
        with (w1 := w2) (w2 := w3) (r1 := c2) (r2 := s) (r3 := u) (body := b)
             (first := first) (rest := rest) (body3 := b3).
  - intros RT email props w w1 resp H S.
    now apply AttrFacts.contact_create_refused with (w1 := w1) (resp := resp).
  - intros RT email props w w1 e H.
    unfold Attr.create_or_update_hubspot_contact.
    unfold bind at 1. unfold http at 1.
    fold (AttrUpsert.create_request props). now rewrite H.
  - intros RT email props w w1 w2 c1 b1 c2 b2 H1 S1 B1 H2 S2 B2. split.
    + now apply AttrFacts.contact_created with (r := c1) (body := b1).
    + now apply AttrFacts.contact_created with (r := c2) (body := b2).
Qed.

Lemma upsert_updates_first_match_witness :
  (let x := Sim.run (Dyn05.upsert "customer" "contact" "email" ann)
              (hub_with_ann 200 None) in
   requests (trace x)
   = [Upsert.search_request "contact" "email" ann;
      Upsert.update_request "contact" (JNum 1) ann]
   /\ existsb Upsert.is_create (requests (trace x)) = false)
  /\ (let up := Dyn05.upsert "customer" "contact" "email" ann in
      let first := Sim.run up (empty_hub None) in
      let second := Sim.run up (final first) in
      printed (trace first) = [MCreated "contact" (JStr "a@x.com")]
      /\ printed (trace second) = [MUpdated "contact" (JStr "a@x.com")]
      /\ existsb Upsert.is_create (requests (trace second)) = false)
  /\ (let c := Attr.create_or_update_hubspot_contact (JStr "a@x.com") ann in
      let first := Sim.run c (empty_hub (Some "email")) in
      let second := Sim.run c (final first) in
      outcome first = Ok "created" /\ outcome second = Ok "updated")
  /\ requests (trace (@Attr.create_or_update_hubspot_contact Outage.runtime
                        (JStr "a@x.com") ann (hub_with_ann 200 None)))
     = [AttrUpsert.create_request ann]
  /\ (let c := Attr.create_or_update_hubspot_contact (JStr "a@x.com") ann in
      let first := Sim.run c (empty_hub None) in
      let second := Sim.run c (final first) in
      outcome first = Ok "created" /\ outcome second = Ok "created").
Proof.
  split; [|split; [|split; [|split]]].
  - intros x.
    edestruct (proj1 upsert_updates_first_match Sim.runtime "customer"
                 "contact" "email" ann (hub_with_ann 200 None))
      as (_ & R & C); [reflexivity .. | ].
    split; [exact R | exact C].
  - intros up first second.
    edestruct (proj1 (proj2 (proj2 upsert_updates_first_match)) Sim.runtime
                 "customer" "contact" "email" ann (empty_hub None)) as [E1 E2];
      [reflexivity .. | ].
    subst first second up. unfold Sim.run. rewrite E1.
    unfold final, trace, fst, snd. rewrite E2. repeat split.
  - intros c first second.
    edestruct (proj1 (proj2 (proj2 (proj2 upsert_updates_first_match)))
                 Sim.runtime (JStr "a@x.com") ann (empty_hub (Some "email")))
      as [E1 E2]; [reflexivity .. | ].
    subst first second c. unfold Sim.run. rewrite E1.
    unfold final, outcome, fst, snd. rewrite E2. split; reflexivity.
  - apply (proj1 (proj2 (proj2 (proj2 (proj2 upsert_updates_first_match))))
             Outage.runtime (JStr "a@x.com") ann (hub_with_ann 200 None)
             (hub_with_ann 200 None)
             (Sim.respond 503 (JDict [("status", JStr "error")])) eq_refl).
    vm_compute. discriminate.
  - intros c first second.
    edestruct (proj2 (proj2 (proj2 (proj2 (proj2
                 (proj2 upsert_updates_first_match)))))
                 Sim.runtime (JStr "a@x.com") ann (empty_hub None))
      as [E1 E2]; [reflexivity .. | ].
    subst first second c. unfold Sim.run. rewrite E1.
    unfold final, outcome, fst, snd. rewrite E2. split; reflexivity.
Defined.

(** ** Property creation (step 4 of [Dyn05.send_to_hubspot]) *)

Module SchemaFacts.
Import Schema.
Import Dyn05.

Section Facts.
Context {RT : Runtime}.

Lemma create_answered : forall hubspot_object name group_name w w1 resp,
  send (creation_request hubspot_object name group_name) w = (Ok resp, w1) ->
  create_hubspot_property hubspot_object name group_name w
  = (Ok tt, w1,
     [EvHttp (creation_request hubspot_object name group_name);
      EvPrint (if (status_code resp =? 201) || (status_code resp =? 409)
               then MPropertyReady name
               else MPropertyFailed name (text resp))]).
Proof.
  intros ho name g w w1 resp H. unfold create_hubspot_property.
  unfold bind, http. fold (creation_request ho name g). rewrite H.
  unfold print. now destruct ((status_code resp =? 201) || (status_code resp =? 409)).
Qed.

Lemma create_raised : forall hubspot_object name group_name w w1 e,
  send (creation_request hubspot_object name group_name) w = (Raise e, w1) ->
  create_hubspot_property hubspot_object name group_name w
  = (Raise e, w1, [EvHttp (creation_request hubspot_object name group_name)]).
Proof.
  intros ho name g w w1 e H. unfold create_hubspot_property.
  unfold bind, http. fold (creation_request ho name g). now rewrite H.
Qed.

Lemma listing_trace : forall hubspot_object w,
  trace (get_hubspot_properties hubspot_object w)
  = [EvHttp (listing_request (hubspot_object ++ "s")%string)].
Proof.
  intros ho w. unfold get_hubspot_properties, trace.
  unfold bind, http, raise_for_status, resp_json, lift, ret, raise.
  fold (listing_request (ho ++ "s")%string).
  destruct (send (listing_request (ho ++ "s")%string) w) as [[r|e] w1];
    [|reflexivity].
  destruct (is_error (status_code r)); [reflexivity|].
  destruct (json_body r) as [b|]; [|reflexivity].
  destruct (get_default b "results" (JList [])) as [rs|]; [|reflexivity].
  destruct (py_iter rs) as [items|]; [|reflexivity].
  destruct (map_result (fun p => getitem_str p "name") items); reflexivity.
Qed.

Lemma create_missing_cons : forall hubspot_object group current field fields w,
  create_missing hubspot_object group current (field :: fields) w
  = bind (if negb (py_in (JStr field) current)
          then bind (create_hubspot_property hubspot_object field group)
                 (fun _ => sleep 500)
          else ret tt)
      (fun _ => create_missing hubspot_object group current fields) w.
Proof. reflexivity. Qed.

Lemma create_missing_requests : forall hubspot_object group current fields w,
  forallb is_property_creation
    (requests (trace (create_missing hubspot_object group current fields w)))
  = true.
Proof.
  intros ho g cur fields. induction fields as [|f fields IH]; intros w.
  - reflexivity.
  - rewrite create_missing_cons. unfold bind at 1.
    destruct (negb (py_in (JStr f) cur)).
    + unfold bind at 1.
      destruct (send (creation_request ho f g) w) as [[r|e] w1] eqn:E.
      * rewrite (create_answered _ _ _ _ _ _ E). unfold sleep.
        specialize (IH w1).
        destruct (create_missing ho g cur fields w1) as [[r' w'] t'].
        unfold trace in *. simpl in *. exact IH.
      * rewrite (create_raised _ _ _ _ _ _ E). reflexivity.
    + unfold ret. specialize (IH w).
      destruct (create_missing ho g cur fields w) as [[r' w'] t'].
      exact IH.
Qed.




Lemma ensure_fields_requests : forall cfg properties w,
  exists creations,
    requests (trace (ensure_fields cfg properties w))
    = listing_request (hubspot_object cfg ++ "s")%string :: creations
    /\ forallb is_property_creation creations = true.
Proof.
  intros cfg props w. unfold ensure_fields. unfold bind.
  pose proof (listing_trace (hubspot_object cfg) w) as L.
  destruct (get_hubspot_properties (hubspot_object cfg) w) as [[[cur|e] w1] t1];
    unfold trace in L; simpl in L; subst t1.
  - pose proof (create_missing_requests (hubspot_object cfg)
                  (property_group cfg) cur (dict_keys props) w1) as C.
    destruct (create_missing (hubspot_object cfg) (property_group cfg) cur
                (dict_keys props) w1) as [[r' w'] t'].
    unfold trace in *. simpl in *. now exists (requests t').
  - now exists [].
Qed.
End Facts.
End SchemaFacts.

Module AttrSchemaFacts.
Import AttrSchema.
Import Attr.

Section Facts.
Context {RT : Runtime}.


End Facts.
End AttrSchemaFacts.










(** ** The record pipeline of [Dyn05.send_to_hubspot] *)

Module PipelineFacts.
Import Pipeline.
Import Dyn05.

Lemma creation_leaves_records_alone : forall rs,
  forallb Schema.is_property_creation rs = true ->
  forallb leaves_records_alone rs = true.
Proof.
  induction rs as [|rq rs IH]; simpl; [reflexivity|].
  intros H. apply andb_true_iff in H as [H1 H2]. rewrite (IH H2).
  destruct rq as [[] [] p]; simpl in *; try discriminate; reflexivity.
Qed.

Section Facts.
Context {RT : Runtime}.

Lemma for_each_print : forall out w,
  for_each out print w = (Ok tt, w, map EvPrint out).
Proof.
  induction out as [|m out IH]; intros w; simpl.
  - reflexivity.
  - unfold bind, print. now rewrite IH.
Qed.

Lemma requests_prints : forall out, requests (map EvPrint out) = [].
Proof. induction out; simpl; auto. Qed.

Lemma fetch_metafields_trace : forall shopify_object shopify_id w,
  trace (fetch_metafields shopify_object shopify_id w)
  = [EvHttp (metafields_request shopify_object shopify_id)].
Proof.
  intros so id w. unfold fetch_metafields, trace, bind, http.
  fold (metafields_request so id).
  destruct (send (metafields_request so id) w) as [[r|e] w1]; [|reflexivity].
  destruct (status_code r =? 200); [|reflexivity].
  unfold resp_json, lift, ret, raise.
  destruct (json_body r) as [b|]; [|reflexivity].
  now destruct (get_default b "metafields" (JList [])).
Qed.

Lemma build_properties_requests : forall cfg shopify_obj w properties w1 t1,
  build_properties cfg shopify_obj w = (Ok properties, w1, t1) ->
  exists shopify_id,
    get_default shopify_obj "id" JNull = Ok shopify_id
    /\ requests t1 = [metafields_request (shopify_key cfg) shopify_id].
Proof.
  intros cfg obj w props w1 t1. unfold build_properties.
  unfold bind at 1. unfold lift at 1.
  destruct (map_fields (field_mapping cfg) obj []) as [p0|]; [|discriminate].
  unfold bind at 1. unfold lift at 1.
  destruct (get_default obj "id" JNull) as [id|]; [|discriminate].
  unfold bind at 1.
  pose proof (fetch_metafields_trace (shopify_key cfg) id w) as F.
  destruct (fetch_metafields (shopify_key cfg) id w) as [[[mf|e] w2] t2];
    [|discriminate].
  unfold trace in F. simpl in F. subst t2.
  unfold bind at 1. unfold lift at 1.
  destruct (py_iter mf) as [metas|]; [|discriminate].
  unfold bind at 1. unfold lift at 1.
  destruct (add_metafields metas p0) as [p1|]; [|discriminate].
  destruct (apply_allowed_values (allowed_values cfg) p1) as [p2 out].
  unfold bind. rewrite for_each_print. unfold ret. simpl.
  intros H. inversion H; subst. exists id. split; [reflexivity|].
  simpl. rewrite !app_nil_r. now rewrite requests_prints.
Qed.

Lemma send_to_hubspot_skips :
  forall config object_type cfg shopify_obj w w1 properties t1,
  dict_get config object_type = Some cfg ->
  build_properties cfg shopify_obj w = (Ok properties, w1, t1) ->
  truthy (py_get properties (unique_field cfg)) = false ->
  send_to_hubspot config object_type shopify_obj w
  = (let '(r, w2, t2) := ensure_fields cfg properties w1 in
     (r, w2,
      t1 ++ t2 ++ match r with
                  | Ok _ => [EvPrint (MSkipping object_type)]
                  | Raise _ => []
                  end)).
Proof.
  intros config ot cfg obj w w1 props t1 Hc Hb Hu.
  unfold send_to_hubspot, config_of. rewrite Hc.
  unfold bind at 1. unfold ret at 1.
  unfold bind at 1. rewrite Hb.
  unfold bind at 1.
  destruct (ensure_fields cfg props w1) as [[[[]|e] w2] t2].
  - rewrite (UpsertFacts.upsert_skips _ _ _ _ _ Hu). reflexivity.
  - simpl. now rewrite app_nil_r.
Qed.
End Facts.
End PipelineFacts.

(** C2, as stated, fails: the record has no value for the unique field and is
    skipped, after three network calls: the metafield fetch, the property
    listing and the creation of a missing property. *)
Lemma skipped_record_still_calls :
  let x := Sim.run (Dyn05.send_to_hubspot customer_config "customer" bob)
             hub_email_only in
  outcome x = Ok tt
  /\ printed (trace x) = [MPropertyReady "firstname"; MSkipping "customer"]
  /\ requests (trace x)
     = [Pipeline.metafields_request "customers" (JNum 2);
        Schema.listing_request "contacts";
        @Schema.creation_request Sim.runtime "contact" "firstname"
          "contactinformation"]
  /\ requests (trace x) <> [].
Proof.
  vm_compute. repeat split; try reflexivity. discriminate.
Qed.

(** C2, amended. When the property map of a record (steps 1 to 3, which
    fetch the record's metafields) has no truthy value for the unique field,
    [Dyn05.send_to_hubspot] still lists the destination properties and creates
    the missing ones (step 4), then reports the record skipped; it sends no
    search, no create and no update. *)
Theorem skipped_record_calls :
  forall (RT : Runtime) config object_type cfg shopify_obj (w w1 : World)
         properties t1,
  dict_get config object_type = Some cfg ->
  Dyn05.build_properties cfg shopify_obj w = (Ok properties, w1, t1) ->
  truthy (py_get properties (unique_field cfg)) = false ->
  let x := Dyn05.send_to_hubspot config object_type shopify_obj w in
  let e := Dyn05.ensure_fields cfg properties w1 in
  outcome x = outcome e
  /\ final x = final e
  /\ trace x = t1 ++ trace e
               ++ match outcome e with
                  | Ok _ => [EvPrint (MSkipping object_type)]
                  | Raise _ => []
                  end
  /\ (exists shopify_id creations,
        requests (trace x)
        = Pipeline.metafields_request (shopify_key cfg) shopify_id
          :: Schema.listing_request (hubspot_object cfg ++ "s")%string
          :: creations
        /\ forallb Schema.is_property_creation creations = true)
  /\ forallb Pipeline.leaves_records_alone (requests (trace x)) = true.
Proof.
  intros RT config ot cfg obj w w1 props t1 Hc Hb Hu x e.
  assert (Ex : x = (let '(r, w2, t2) := e in
                    (r, w2, t1 ++ t2 ++ match r with
                                        | Ok _ => [EvPrint (MSkipping ot)]
                                        | Raise _ => []
                                        end)))
    by (subst x e; now apply PipelineFacts.send_to_hubspot_skips).
  destruct (PipelineFacts.build_properties_requests _ _ _ _ _ _ Hb)
    as (id & _ & R1).
  destruct (SchemaFacts.ensure_fields_requests cfg props w1)
    as (creations & R2 & C).
  fold e in R2. clearbody x e. destruct e as [[r w2] t2]. subst x.
  unfold outcome, final, trace in *. simpl in *.
  assert (R : requests (t1 ++ t2 ++ match r with
                                    | Ok _ => [EvPrint (MSkipping ot)]
                                    | Raise _ => []
                                    end)
              = Pipeline.metafields_request (shopify_key cfg) id
                :: Schema.listing_request (hubspot_object cfg ++ "s")%string
                :: creations).
  { rewrite !EffFacts.requests_app, R1, R2.
    destruct r; simpl; now rewrite app_nil_r. }
  repeat split; try reflexivity.
  - exists id, creations. now split.
  - rewrite R. simpl. now apply PipelineFacts.creation_leaves_records_alone.
Qed.

Lemma skipped_record_calls_witness :
  let x := Sim.run (Dyn05.send_to_hubspot customer_config "customer" bob)
             hub_email_only in
  forallb Pipeline.leaves_records_alone (requests (trace x)) = true.
Proof.
  intros x.
  edestruct (skipped_record_calls Sim.runtime customer_config "customer"
               (mkConfig "customers.json" "customers" "contact" "email"
                  "contactinformation"
                  [("email", "email"); ("first_name", "firstname")] [])
               bob hub_email_only) as (_ & _ & _ & _ & H);
    [reflexivity | reflexivity | reflexivity | exact H].
Defined.

(** ** Re-fetching the property set *)

Module RefetchFacts.
Import Attr.

Section Facts.
Context {RT : Runtime}.

Lemma create_trace : forall name w,
  trace (create_hubspot_property name name w)
  = [EvHttp (AttrSchema.creation_request name)].
Proof.
  intros name w. unfold create_hubspot_property, trace.
  unfold bind at 1. unfold http. fold (AttrSchema.creation_request name).
  destruct (send (AttrSchema.creation_request name) w) as [[r|e] w1];
    [|reflexivity].
  unfold bind, resp_json, ret, raise.
  destruct (String.prefix "application/json" (content_type r)); [|reflexivity].
  now destruct (json_body r).
Qed.

Lemma fetch_trace : forall object_type w,
  trace (fetch_hubspot_properties object_type w)
  = [EvHttp (Schema.listing_request object_type)].
Proof.
  intros ot w. unfold fetch_hubspot_properties, trace.
  unfold bind, http, raise_for_status, resp_json, lift, ret, raise.
  fold (Schema.listing_request ot).
  destruct (send (Schema.listing_request ot) w) as [[r|e] w1];
    [|reflexivity].
  destruct (is_error (status_code r)); [reflexivity|].
  destruct (json_body r) as [b|]; [|reflexivity].
  destruct (get_default b "results" (JList [])) as [rs|]; [|reflexivity].
  destruct (py_iter rs) as [items|]; [|reflexivity].
  destruct (property_names items []); reflexivity.
Qed.

Lemma status_print_trace : forall key status w,
  (if status =? 201 then print (MPropCreated key)
   else if status =? 409 then print (MPropExists key)
   else print (MPropCreateFailed key)) w
  = (Ok tt, w,
     [EvPrint (if status =? 201 then MPropCreated key
               else if status =? 409 then MPropExists key
               else MPropCreateFailed key)]).
Proof.
  intros. destruct (status =? 201); [|destruct (status =? 409)]; reflexivity.
Qed.

(** After a creation the loop goes on with the set it has just fetched. *)
Lemma ensure_uses_refetched :
  forall key keys hubspot_props w status w1 t1 hubspot_props' w2 t2,
  py_in (JStr key) hubspot_props = false ->
  create_hubspot_property key key w = (Ok status, w1, t1) ->
  fetch_hubspot_properties "contacts" w1 = (Ok hubspot_props', w2, t2) ->
  ensure_metafield_properties (key :: keys) hubspot_props w
  = (let '(r, w3, t3) := ensure_metafield_properties keys hubspot_props' w2 in
     (r, w3,
      t1 ++ [EvPrint (if status =? 201 then MPropCreated key
                      else if status =? 409 then MPropExists key
                      else MPropCreateFailed key);
             EvSleep 1000] ++ t2 ++ t3)).
Proof.
  intros key keys props w st w1 t1 props' w2 t2 Hin Hc Hf.
  simpl. rewrite Hin. simpl.
  unfold bind at 1. rewrite Hc.
  unfold bind at 1. rewrite status_print_trace.
  unfold bind at 1. unfold sleep at 1.
  unfold bind at 1. rewrite Hf.
  destruct (ensure_metafield_properties keys props' w2) as [[r w3] t3].
  reflexivity.
Qed.

(** Keys of the known set cost nothing. *)
Lemma ensure_known : forall keys hubspot_props w,
  (forall key, In key keys -> py_in (JStr key) hubspot_props = true) ->
  ensure_metafield_properties keys hubspot_props w = (Ok hubspot_props, w, []).
Proof.
  intros keys hp w. induction keys as [|key keys IH]; intros H; simpl.
  - reflexivity.
  - rewrite (H key (or_introl eq_refl)). simpl.
    apply IH. intros k Hk. apply H. now right.
Qed.

Lemma ensure_refetches : forall keys hubspot_props w hubspot_props' w' t,
  ensure_metafield_properties keys hubspot_props w = (Ok hubspot_props', w', t) ->
  Schema.refetched_after_each_creation (requests t) = true.
Proof.
  induction keys as [|key keys IH]; intros props w props' w' t H; simpl in H.
  - unfold ret in H. inversion H. reflexivity.
  - destruct (negb (py_in (JStr key) props)).
    + unfold bind at 1 in H.
      pose proof (create_trace key w) as C.
      destruct (create_hubspot_property key key w) as [[[st|e] w1] t1];
        [|discriminate].
      unfold trace in C. simpl in C. subst t1.
      unfold bind at 1 in H. rewrite status_print_trace in H.
      unfold bind at 1 in H. unfold sleep at 1 in H.
      unfold bind at 1 in H.
      pose proof (fetch_trace "contacts" w1) as F.
      destruct (fetch_hubspot_properties "contacts" w1) as [[[ps|e] w2] t2];
        [|discriminate].
      unfold trace in F. simpl in F. subst t2.
      destruct (ensure_metafield_properties keys ps w2) as [[[ps'|e] w3] t3] eqn:E;
        [|discriminate].
      inversion H; subst. simpl.
      eapply IH. eassumption.
    + now apply (IH props w props' w').
Qed.
End Facts.

Lemma batched_not_refetched : forall objects creations,
  creations <> [] ->
  forallb Schema.is_property_creation creations = true ->
  Schema.refetched_after_each_creation
    (Schema.listing_request objects :: creations) = false.
Proof.
  intros objects creations Hne Hall. simpl.
  induction creations as [|c cs IH]; [contradiction|].
  simpl in *. apply andb_true_iff in Hall as [Hc Hcs]. rewrite Hc.
  destruct cs as [|c' cs']; [reflexivity|].
  simpl in Hcs. apply andb_true_iff in Hcs as [Hc' Hcs'].
  assert (L : Schema.is_property_listing c' = false).
  { destruct c' as [[] [] p]; simpl in *; try discriminate; reflexivity. }
  now rewrite L.
Qed.
End RefetchFacts.

(** C6, as stated, fails for [Dyn05.send_to_hubspot]: two properties are
    missing, both are created against the one listing fetched before, and no
    listing follows either creation. *)
Lemma creations_batched :
  let x := Sim.run (Dyn05.send_to_hubspot customer_config "customer" ann_record)
             hub_no_properties in
  outcome x = Ok tt
  /\ requests (trace x)
     = [Pipeline.metafields_request "customers" (JNum 1);
        Schema.listing_request "contacts";
        @Schema.creation_request Sim.runtime "contact" "email"
          "contactinformation";
        @Schema.creation_request Sim.runtime "contact" "firstname"
          "contactinformation";
        Upsert.search_request "contact" "email"
          [("email", JStr "a@x.com"); ("firstname", JStr "Ann")];
        Upsert.create_request "contact"
          [("email", JStr "a@x.com"); ("firstname", JStr "Ann")]]
  /\ Schema.refetched_after_each_creation (requests (trace x)) = false.
Proof.
  vm_compute. repeat split; reflexivity.
Qed.

(** C6, amended. [sync_custom_attributes] re-fetches the property set
    directly after every property creation, and decides on the next key
    against the set it has just fetched: the rest of the loop runs with that
    set, so a key the re-fetched set holds is not created, even when the set
    fetched before lacked it. [Dyn05.send_to_hubspot] lists the properties
    once per record, before any creation, and sends all creations of the
    record against that one listing, with no listing after a creation. *)
Theorem refetch_after_creation :
  (forall (RT : Runtime) keys hubspot_props (w w' : World) hubspot_props' t,
     Attr.ensure_metafield_properties keys hubspot_props w
     = (Ok hubspot_props', w', t) ->
     Schema.refetched_after_each_creation (requests t) = true)
  /\ (forall (RT : Runtime) key keys hubspot_props (w w1 w2 : World)
             status t1 hubspot_props' t2,
        py_in (JStr key) hubspot_props = false ->
        Attr.create_hubspot_property key key w = (Ok status, w1, t1) ->
        Attr.fetch_hubspot_properties "contacts" w1
        = (Ok hubspot_props', w2, t2) ->
        Attr.ensure_metafield_properties (key :: keys) hubspot_props w
        = (let '(r, w3, t3) :=
             Attr.ensure_metafield_properties keys hubspot_props' w2 in
           (r, w3,
            t1 ++ [EvPrint (if status =? 201 then MPropCreated key
                            else if status =? 409 then MPropExists key
                            else MPropCreateFailed key);
                   EvSleep 1000] ++ t2 ++ t3)))
  /\ (forall (RT : Runtime) key keys hubspot_props (w w1 w2 : World)
             status t1 hubspot_props' t2,
        py_in (JStr key) hubspot_props = false ->
        Attr.create_hubspot_property key key w = (Ok status, w1, t1) ->
        Attr.fetch_hubspot_properties "contacts" w1
        = (Ok hubspot_props', w2, t2) ->
        (forall k, In k keys -> py_in (JStr k) hubspot_props' = true) ->
        let x := Attr.ensure_metafield_properties (key :: keys) hubspot_props w
        in
        outcome x = Ok hubspot_props' /\ final x = w2
        /\ requests (trace x)
           = [AttrSchema.creation_request key;
              Schema.listing_request "contacts"])
  /\ (forall (RT : Runtime) cfg properties (w : World),
        exists creations,
          requests (trace (Dyn05.ensure_fields cfg properties w))
          = Schema.listing_request (hubspot_object cfg ++ "s")%string
            :: creations
          /\ forallb Schema.is_property_creation creations = true
          /\ (creations <> [] ->
              Schema.refetched_after_each_creation
                (requests (trace (Dyn05.ensure_fields cfg properties w)))
              = false)).
Proof.
  split; [|split; [|split]].
  - intros RT keys props w w' props' t H.
    now apply (RefetchFacts.ensure_refetches keys props w props' w').
  - intros RT key keys props w w1 w2 st t1 props' t2 Hin Hc Hf.
    exact (RefetchFacts.ensure_uses_refetched key keys props w st w1 t1
             props' w2 t2 Hin Hc Hf).
  - intros RT key keys props w w1 w2 st t1 props' t2 Hin Hc Hf Hk x. subst x.
    rewrite (RefetchFacts.ensure_uses_refetched key keys props w st w1 t1
               props' w2 t2 Hin Hc Hf).
    rewrite (RefetchFacts.ensure_known keys props' w2 Hk).
    pose proof (RefetchFacts.create_trace key w) as C.
    pose proof (RefetchFacts.fetch_trace "contacts" w1) as F.
    rewrite Hc in C. rewrite Hf in F. unfold trace in C, F. simpl in C, F.
    subst t1 t2. unfold outcome, final, trace. simpl.
    repeat split.
  - intros RT cfg props w.
    destruct (SchemaFacts.ensure_fields_requests cfg props w)
      as (creations & R & C).
    exists creations. repeat split; try assumption.
    intros Hne. rewrite R. now apply RefetchFacts.batched_not_refetched.
Qed.

Lemma refetch_after_creation_witness :
  Schema.refetched_after_each_creation
    (requests (trace (Sim.run (Attr.ensure_metafield_properties vip_metafields
                                 [JStr "email"]) hub_email_only)))
  = true
  /\ Schema.refetched_after_each_creation
       (requests (trace (Sim.run (Dyn05.ensure_fields
                                    (mkConfig "customers.json" "customers"
                                       "contact" "email" "contactinformation"
                                       [] [])
                                    ann) hub_no_properties)))
     = false
  /\ requests (trace (Sim.run (Attr.ensure_metafield_properties
                                 ["vip"; "tier"] [JStr "email"])
                        hub_knows_tier))
     = [@AttrSchema.creation_request Sim.runtime "vip";
        Schema.listing_request "contacts"].
Proof.
  split; [|split].
  - unfold trace, Sim.run.
    destruct (Attr.ensure_metafield_properties (RT := Sim.runtime)
                vip_metafields [JStr "email"] hub_email_only)
      as [[r w'] t] eqn:E.
    assert (O : exists ps, r = Ok ps)
      by (apply (f_equal outcome) in E; vm_compute in E; inversion E; eauto).
    destruct O as [ps ->].
    exact (proj1 refetch_after_creation Sim.runtime vip_metafields
             [JStr "email"] hub_email_only w' ps t E).
  - destruct (proj2 (proj2 (proj2 refetch_after_creation)) Sim.runtime
                (mkConfig "customers.json" "customers" "contact" "email"
                   "contactinformation" [] [])
                ann hub_no_properties) as (creations & R & _ & N).
    apply N. intros ->. vm_compute in R. discriminate R.
  - refine (proj2 (proj2
              (proj1 (proj2 (proj2 refetch_after_creation)) Sim.runtime
                 "vip" ["tier"] [JStr "email"] hub_knows_tier
                 (Sim.set_properties hub_knows_tier ["email"; "tier"; "vip"])
                 (Sim.set_properties hub_knows_tier ["email"; "tier"; "vip"])
                 201 [EvHttp (@AttrSchema.creation_request Sim.runtime "vip")]
                 [JStr "email"; JStr "tier"; JStr "vip"]
                 [EvHttp (Schema.listing_request "contacts")]
                 eq_refl eq_refl eq_refl _))).
    intros k [<-|[]]. reflexivity.
Defined.

(** ** Failures inside [sync_all] *)

Module BatchFacts.
Section Facts.
Context {RT : Runtime}.

(** A loop stops at the first iteration that raises. *)
Lemma for_each_raise : forall {A} (before after : list A) bad
    (body : A -> M unit) w w1 t1 e w2 t2,
  for_each before body w = (Ok tt, w1, t1) ->
  body bad w1 = (Raise e, w2, t2) ->
  for_each (before ++ bad :: after) body w = (Raise e, w2, t1 ++ t2).
Proof.
  intros A before after bad body w w1 t1 e w2 t2 H1 H2.
  rewrite EffFacts.for_each_app. unfold bind. rewrite H1. simpl.
  unfold bind. now rewrite H2.
Qed.

(** A loop goes on after an iteration that returns. *)
Lemma for_each_continue : forall {A} (before after : list A) x
    (body : A -> M unit) w w1 t1 w2 t2,
  for_each before body w = (Ok tt, w1, t1) ->
  body x w1 = (Ok tt, w2, t2) ->
  for_each (before ++ x :: after) body w
  = (let '(r, w3, t3) := for_each after body w2 in (r, w3, t1 ++ t2 ++ t3)).
Proof.
  intros A before after x body w w1 t1 w2 t2 H1 H2.
  rewrite EffFacts.for_each_app. unfold bind. rewrite H1. simpl.
  unfold bind. rewrite H2.
  destruct (for_each after body w2) as [[r w3] t3]. reflexivity.
Qed.

Lemma dyn05_object_type_raises :
  forall config object_type before bad after w0 data w1 t1 w2 t2 e w3 t3,
  Dyn05.fetch_shopify_data config object_type w0 = (Ok data, w1, t1) ->
  py_iter data = Ok (before ++ bad :: after) ->
  for_each before (Dyn05.send_to_hubspot config object_type) w1
  = (Ok tt, w2, t2) ->
  Dyn05.send_to_hubspot config object_type bad w2 = (Raise e, w3, t3) ->
  Dyn05.sync_object_type config object_type w0
  = (Raise e, w3, t1 ++ t2 ++ t3).
Proof.
  intros config ot before bad after w0 data w1 t1 w2 t2 e w3 t3 Hf Hi Hb He.
  unfold Dyn05.sync_object_type. unfold bind at 1. rewrite Hf.
  unfold bind at 1. unfold lift at 1. rewrite Hi.
  rewrite (for_each_raise before after bad _ w1 w2 t2 e w3 t3 Hb He).
  reflexivity.
Qed.

Lemma run01_records_raise :
  forall config object_type before bad after w0 data w1 t1 w2 t2 e w3 t3,
  Run01.fetch_shopify_data config object_type w0 = (Ok data, w1, t1) ->
  py_iter data = Ok (before ++ bad :: after) ->
  for_each before (Run01.send_to_hubspot config object_type) w1
  = (Ok tt, w2, t2) ->
  Run01.send_to_hubspot config object_type bad w2 = (Raise e, w3, t3) ->
  Run01.sync_object_type config object_type w0
  = (Ok tt, w3, t1 ++ t2 ++ t3 ++ [EvPrint (MErrorSyncing object_type e)]).
Proof.
  intros config ot before bad after w0 data w1 t1 w2 t2 e w3 t3 Hf Hi Hb He.
  unfold Run01.sync_object_type, try_except, Run01.sync_records.
  unfold bind at 1. rewrite Hf.
  unfold bind at 1. unfold lift at 1. rewrite Hi.
  rewrite (for_each_raise before after bad _ w1 w2 t2 e w3 t3 Hb He).
  unfold print. simpl. now rewrite <- !app_assoc.
Qed.

Lemma run01_object_type_total : forall config object_type w,
  exists w' t, Run01.sync_object_type config object_type w = (Ok tt, w', t).
Proof.
  intros config ot w. unfold Run01.sync_object_type, try_except.
  destruct (Run01.sync_records config ot w) as [[[[]|e] w1] t1].
  - now exists w1, t1.
  - unfold print. now exists w1, (t1 ++ [EvPrint (MErrorSyncing ot e)]).
Qed.
End Facts.
End BatchFacts.

(** C7, as stated, fails. In [Dyn05.sync_all] the first record raises
    (KeyError) and the run ends there: the second record is never sent, no
    contact is created. In [Run01.sync_all] the exception is caught around the
    whole object type: the error is printed and the second record is not
    processed either. *)
Lemma failing_record_aborts_batch :
  (let x := Sim.run (Dyn05.sync_all customer_config) shop_two_customers in
   outcome x = Raise KeyError
   /\ requests (trace x)
      = [mkRequest GET (ShopifyList "2024-10" "customers.json") None;
         Pipeline.metafields_request "customers" (JNum 1)]
   /\ Sim.hub_records (final x) = [])
  /\ (let x := Sim.run (Run01.sync_all customer_config01) shop_corrupt_item in
      outcome x = Ok tt
      /\ printed (trace x)
         = [MFetching "customer"; MFound 2 "customer";
            MErrorSyncing "customer" AttributeError]
      /\ requests (trace x)
         = [mkRequest GET (ShopifyList "2023-01" "customers.json") None]
      /\ Sim.hub_records (final x) = []).
Proof.
  vm_compute. repeat split; reflexivity.
Qed.

(** C7, amended. No exception is caught at the record boundary. In
    [Dyn05.sync_all] an exception raised while one record is processed leaves
    [sync_all]: the records after it, and the object types after its own, are
    not processed. In [Run01.sync_all] the exception is caught around the
    object type: the records after the failing one are skipped, the error is
    printed, the loop goes on with the next object type, and [sync_all]
    itself never raises. *)
Theorem record_failure_propagation :
  (forall (RT : Runtime) config types_before object_type types_after
          before bad after (w w0 w1 w2 w3 : World) t0 data t1 t2 e t3,
     dict_keys config = types_before ++ object_type :: types_after ->
     for_each types_before (Dyn05.sync_object_type config) w = (Ok tt, w0, t0) ->
     Dyn05.fetch_shopify_data config object_type w0 = (Ok data, w1, t1) ->
     py_iter data = Ok (before ++ bad :: after) ->
     for_each before (Dyn05.send_to_hubspot config object_type) w1
     = (Ok tt, w2, t2) ->
     Dyn05.send_to_hubspot config object_type bad w2 = (Raise e, w3, t3) ->
     Dyn05.sync_all config w = (Raise e, w3, t0 ++ t1 ++ t2 ++ t3))
  /\ (forall (RT : Runtime) config types_before object_type types_after
             before bad after (w w0 w1 w2 w3 : World) t0 data t1 t2 e t3,
        dict_keys config = types_before ++ object_type :: types_after ->
        for_each types_before (Run01.sync_object_type config) w
        = (Ok tt, w0, t0) ->
        Run01.fetch_shopify_data config object_type w0 = (Ok data, w1, t1) ->
        py_iter data = Ok (before ++ bad :: after) ->
        for_each before (Run01.send_to_hubspot config object_type) w1
        = (Ok tt, w2, t2) ->
        Run01.send_to_hubspot config object_type bad w2 = (Raise e, w3, t3) ->
        Run01.sync_all config w
        = (let '(r, w4, t4) :=
             for_each types_after (Run01.sync_object_type config) w3 in
           (r, w4,
            t0 ++ (t1 ++ t2 ++ t3 ++ [EvPrint (MErrorSyncing object_type e)])
            ++ t4)))
  /\ (forall (RT : Runtime) config (w : World),
        outcome (Run01.sync_all config w) = Ok tt).
Proof.
  split; [|split].
  - intros RT config tb ot ta before bad after w w0 w1 w2 w3 t0 data t1 t2 e t3
           Hk H0 Hf Hi Hb He.
    unfold Dyn05.sync_all. rewrite Hk.
    apply (BatchFacts.for_each_raise tb ta ot _ w w0 t0 e w3 (t1 ++ t2 ++ t3) H0).
    now apply BatchFacts.dyn05_object_type_raises
      with (before := before) (bad := bad) (after := after) (data := data)
           (w1 := w1) (w2 := w2).
  - intros RT config tb ot ta before bad after w w0 w1 w2 w3 t0 data t1 t2 e t3
           Hk H0 Hf Hi Hb He.
    unfold Run01.sync_all. rewrite Hk.
    apply (BatchFacts.for_each_continue tb ta ot _ w w0 t0 w3 _ H0).
    now apply BatchFacts.run01_records_raise
      with (before := before) (bad := bad) (after := after) (data := data)
           (w1 := w1) (w2 := w2).
  - intros RT config w. unfold Run01.sync_all.
    destruct (EffFacts.for_each_ok (dict_keys config)
                (Run01.sync_object_type config)
                (fun x w _ => BatchFacts.run01_object_type_total config x w) w)
      as (w' & t & E).
    now rewrite E.
Qed.

Lemma record_failure_propagation_witness :
  Sim.run (Dyn05.sync_all customer_config) shop_two_customers
  = (Raise KeyError, shop_two_customers,
     [] ++ [EvPrint (MFetching "customer");
            EvHttp (mkRequest GET (ShopifyList "2024-10" "customers.json") None);
            EvPrint (MFound 2 "customer")]
     ++ [] ++ [EvHttp (Pipeline.metafields_request "customers" (JNum 1))])
  /\ outcome (Sim.run (Run01.sync_all customer_config01) shop_corrupt_item)
     = Ok tt
  /\ printed (trace (Sim.run (Run01.sync_all customer_config01)
                       shop_corrupt_item))
     = [MFetching "customer"; MFound 2 "customer";
        MErrorSyncing "customer" AttributeError].
Proof.
  split; [|split].
  - apply (proj1 record_failure_propagation Sim.runtime customer_config
             [] "customer" [] [] ann_record [bea_record]
             shop_two_customers shop_two_customers shop_two_customers
             shop_two_customers shop_two_customers []
             (JList [ann_record; bea_record])); reflexivity.
  - apply (proj2 (proj2 record_failure_propagation) Sim.runtime
             customer_config01 shop_corrupt_item).
  - unfold Sim.run.
    rewrite (proj1 (proj2 record_failure_propagation) Sim.runtime
               customer_config01 [] "customer" [] [] (JStr "corrupt")
               [bea_record] shop_corrupt_item shop_corrupt_item
               shop_corrupt_item shop_corrupt_item shop_corrupt_item []
               (JList [JStr "corrupt"; bea_record])
               [EvPrint (MFetching "customer");
                EvHttp (mkRequest GET (ShopifyList "2023-01" "customers.json")
                          None);
                EvPrint (MFound 2 "customer")]
               [] AttributeError []
               eq_refl eq_refl eq_refl eq_refl eq_refl eq_refl).
    reflexivity.
Defined.

(** ** Flattening of nested values *)

Module FlattenFacts.
Import Flatten.






End FlattenFacts.




(** * Further properties *)

(** ** Paths *)

Module PathMore.
Import Dyn05 More.

Lemma split_nonempty : forall sep s, split sep s <> [].
Proof.
  intros sep s. destruct s as [|c s]; simpl; [discriminate|].
  destruct (Ascii.eqb c sep); [discriminate|].
  destruct (split sep s); discriminate.
Qed.

Lemma split_app : forall sep p q,
  split sep (p ++ String sep q)%string = split sep p ++ split sep q.
Proof.
  intros sep p q. induction p as [|c p IH]; simpl.
  - now rewrite Ascii.eqb_refl.
  - destruct (Ascii.eqb c sep); [now rewrite IH|].
    rewrite IH. pose proof (split_nonempty sep p) as N.
    destruct (split sep p) as [|h t]; [contradiction | reflexivity].
Qed.

Lemma split_dot_free : forall s, dot_free s = true -> split "." s = [s].
Proof.
  induction s as [|c s IH]; simpl; intros H; [reflexivity|].
  apply andb_true_iff in H as [Hc Hs]. apply negb_true_iff in Hc.
  rewrite Hc. now rewrite (IH Hs).
Qed.

Lemma nth_error_last : forall (l : list json) d,
  l <> [] -> nth_error l (List.length l - 1) = Some (last l d).
Proof.
  intros l d. rewrite Nat.sub_1_r.
  induction l as [|x l IH]; intros Hne; [contradiction|].
  destruct l as [|y l]; [reflexivity|].
  specialize (IH ltac:(discriminate)). simpl in *. exact IH.
Qed.
End PathMore.

(** X1. Paths compose: resolving [p.q] is resolving [p] and then [q] on the
    value reached; a path without a dot, on an object, is [obj.get(path)]. *)
Theorem get_nested_value_composes :
  (forall data p q,
     Dyn05.get_nested_value data (p ++ String "." q)%string
     = rbind (Dyn05.get_nested_value data p)
         (fun cur => Dyn05.get_nested_value cur q))
  /\ (forall d key,
        More.dot_free key = true ->
        Dyn05.get_nested_value (JDict d) key = Ok (py_get d key)).
Proof.
  split.
  - intros data p q. unfold Dyn05.get_nested_value.
    rewrite PathMore.split_app. apply PathFacts.loop_app.
  - intros d key H. unfold Dyn05.get_nested_value.
    now rewrite (PathMore.split_dot_free key H).
Qed.

Lemma get_nested_value_composes_witness :
  Dyn05.get_nested_value sample_product "title" = Ok (JStr "Mug").
Proof.
  apply (proj2 get_nested_value_composes
           [("id", JNum 7);
            ("variants", JList [JDict [("price", JStr "9.50")]]);
            ("title", JStr "Mug")] "title").
  reflexivity.
Defined.

(** X2. An integer segment indexes a list from either end: with [n] the
    length of the list, a segment that reads as the integer [i], with
    [-n <= i < n], resolves to the element at position [i mod n]; so [-1] is
    the last element. *)
Theorem list_segment_indexes_from_either_end :
  forall (l : list json) (key : string) (i : Z),
  More.dot_free key = true ->
  py_int key = Ok i ->
  - Z.of_nat (List.length l) <= i < Z.of_nat (List.length l) ->
  Dyn05.get_nested_value (JList l) key
  = Ok (nth (Z.to_nat (i mod Z.of_nat (List.length l))) l JNull).
Proof.
  intros l key i Hd Hi Hr. unfold Dyn05.get_nested_value.
  rewrite (PathMore.split_dot_free key Hd). simpl. rewrite Hi. simpl.
  unfold list_getitem.
  set (n := Z.of_nat (List.length l)) in *.
  assert (Hj : (if i <? 0 then i + n else i) = i mod n /\ 0 <= i mod n < n).
  { destruct (Z.ltb_spec i 0).
    - split; [|apply Z.mod_pos_bound; lia].
      apply (Z.mod_unique_pos i n (-1) (i + n)); lia.
    - split; [|apply Z.mod_pos_bound; lia].
      symmetry. apply Z.mod_small. lia. }
  destruct Hj as [-> Hb].
  replace ((0 <=? i mod n) && (i mod n <? n)) with true.
  - rewrite (nth_error_nth' l JNull); [reflexivity|].
    subst n. lia.
  - symmetry. apply andb_true_iff. split; [apply Z.leb_le | apply Z.ltb_lt]; lia.
Qed.

Lemma list_segment_indexes_from_either_end_witness :
  Dyn05.get_nested_value (JList [JStr "a"; JStr "b"; JStr "c"]) "-1"
  = Ok (JStr "c").
Proof.
  apply (list_segment_indexes_from_either_end
           [JStr "a"; JStr "b"; JStr "c"] "-1" (-1)).
  - reflexivity.
  - reflexivity.
  - simpl. lia.
Defined.

(** ** Dicts built by successive assignments *)

Module DictMore.
Import More.

Section Facts.
Context {A : Type}.
Implicit Types (d l : list (string * A)) (k : string) (v : A).

Lemma get_app : forall l1 l2 k,
  dict_get (l1 ++ l2) k
  = match dict_get l1 k with Some v => Some v | None => dict_get l2 k end.
Proof.
  induction l1 as [|[k0 v0] l1 IH]; intros l2 k; simpl; [reflexivity|].
  destruct (String.eqb k0 k); [reflexivity | apply IH].
Qed.

Lemma get_none_iff : forall d k,
  dict_get d k = None <-> ~ In k (dict_keys d).
Proof.
  induction d as [|[k0 v0] d IH]; intros k; simpl.
  - tauto.
  - destruct (String.eqb_spec k0 k) as [->|Hne].
    + split; [discriminate | intros H; exfalso; apply H; now left].
    + rewrite IH. tauto.
Qed.

Lemma keys_set : forall d k v,
  dict_keys (dict_set d k v)
  = if dict_mem d k then dict_keys d else dict_keys d ++ [k].
Proof.
  unfold dict_mem.
  induction d as [|[k0 v0] d IH]; intros k v; simpl; [reflexivity|].
  destruct (String.eqb_spec k0 k) as [->|Hne]; simpl; [reflexivity|].
  rewrite IH. now destruct (dict_get d k).
Qed.

Lemma nodup_set : forall d k v,
  NoDup (dict_keys d) -> NoDup (dict_keys (dict_set d k v)).
Proof.
  intros d k v H. rewrite keys_set. unfold dict_mem.
  destruct (dict_get d k) eqn:E; [assumption|].
  apply get_none_iff in E.
  apply NoDup_app; [assumption | repeat constructor; intros [] | ].
  intros x Hx [<-|[]]. contradiction.
Qed.

Lemma keys_pop : forall d k,
  dict_keys (dict_pop d k)
  = filter (fun x => negb (String.eqb x k)) (dict_keys d).
Proof.
  induction d as [|[k0 v0] d IH]; intros k; simpl; [reflexivity|].
  destruct (String.eqb k0 k); simpl; now rewrite IH.
Qed.

Lemma nodup_pop : forall d k,
  NoDup (dict_keys d) -> NoDup (dict_keys (dict_pop d k)).
Proof. intros. rewrite keys_pop. now apply NoDup_filter. Qed.

Lemma get_map_value : forall {B} (f : A -> B) l k,
  dict_get (map (fun kv => (fst kv, f (snd kv))) l) k
  = option_map f (dict_get l k).
Proof.
  induction l as [|[k0 v0] l IH]; intros k; simpl; [reflexivity|].
  destruct (String.eqb k0 k); [reflexivity | apply IH].
Qed.

Lemma get_nodup_rev : forall l k,
  NoDup (dict_keys l) -> dict_get (rev l) k = dict_get l k.
Proof.
  induction l as [|[k0 v0] l IH]; intros k H; simpl; [reflexivity|].
  simpl in H. inversion H as [|? ? Hn Hd]; subst.
  rewrite get_app, (IH k Hd). simpl.
  destruct (String.eqb_spec k0 k) as [->|Hne].
  - apply get_none_iff in Hn. now rewrite Hn.
  - now destruct (dict_get l k).
Qed.
End Facts.

Lemma get_assign_all : forall (l d : list (string * json)) k,
  dict_get (assign_all l d) k
  = match last_value l k with Some v => Some v | None => dict_get d k end.
Proof.
  unfold assign_all, last_value.
  induction l as [|[k0 v0] l IH]; intros d k; simpl; [reflexivity|].
  rewrite IH, get_app. destruct (dict_get (rev l) k); [reflexivity|].
  simpl. destruct (String.eqb_spec k0 k) as [->|Hne].
  - apply DictFacts.get_set_same.
  - now apply DictFacts.get_set_other.
Qed.

Lemma nodup_assign_all : forall (l d : list (string * json)),
  NoDup (dict_keys d) -> NoDup (dict_keys (assign_all l d)).
Proof.
  unfold assign_all.
  induction l as [|[k0 v0] l IH]; intros d H; simpl; [assumption|].
  apply IH. now apply nodup_set.
Qed.
End DictMore.

(** ** The property map of [Dyn05.send_to_hubspot] *)

Module MapMore.
Import Dyn05 More.

Lemma get_nested_value_resolve : forall shopify_obj path,
  get_nested_value shopify_obj path = Ok (resolve shopify_obj path).
Proof.
  intros obj path. unfold resolve.
  destruct (PathFacts.loop_total (split "." path) obj) as [v E].
  unfold get_nested_value. now rewrite E.
Qed.

Lemma map_fields_assign : forall mapping shopify_obj acc,
  map_fields mapping shopify_obj acc
  = Ok (assign_all
          (map (fun p => (snd p, resolve shopify_obj (fst p))) mapping) acc).
Proof.
  induction mapping as [|[sf hf] mapping IH]; intros obj acc; simpl.
  - reflexivity.
  - rewrite get_nested_value_resolve. simpl. apply IH.
Qed.

Lemma last_value_swap : forall mapping shopify_obj hf,
  last_value (map (fun p => (snd p, resolve shopify_obj (fst p))) mapping) hf
  = option_map (resolve shopify_obj) (last_value (swap_mapping mapping) hf).
Proof.
  intros mapping obj hf. unfold last_value, swap_mapping.
  rewrite <- !map_rev. rewrite <- DictMore.get_map_value.
  rewrite map_map. reflexivity.
Qed.

Lemma add_metafields_assign : forall metafields properties,
  add_metafields metafields properties
  = rbind (map_result metafield_pair metafields)
      (fun pairs => Ok (assign_all pairs properties)).
Proof.
  induction metafields as [|meta metafields IH]; intros props; simpl.
  - reflexivity.
  - unfold metafield_pair at 1.
    destruct (get_default meta "value" JNull) as [value|]; [|reflexivity].
    simpl. destruct (getitem_str meta "key") as [key|]; [|reflexivity].
    simpl. destruct (as_key key) as [k|]; [|reflexivity].
    simpl. rewrite IH.
    destruct (map_result metafield_pair metafields); reflexivity.
Qed.
End MapMore.

(** X3. Step 1 of [Dyn05.send_to_hubspot] never raises. The property map it
    builds holds exactly the destination fields of the mapping, each once;
    the value of a field is what its source path resolves to (null when it
    resolves to nothing), and when several source paths are mapped to one
    destination field the last of them wins. *)
Theorem mapped_fields_last_wins :
  forall (mapping : list (string * string)) (shopify_obj : json),
  exists properties,
    Dyn05.map_fields mapping shopify_obj [] = Ok properties
    /\ NoDup (dict_keys properties)
    /\ forall hubspot_field,
         dict_get properties hubspot_field
         = option_map (More.resolve shopify_obj)
             (More.last_value (More.swap_mapping mapping) hubspot_field).
Proof.
  intros mapping obj. eexists. split; [apply MapMore.map_fields_assign|].
  split.
  - apply DictMore.nodup_assign_all. constructor.
  - intros hf. rewrite DictMore.get_assign_all, MapMore.last_value_swap.
    now destruct (More.last_value (More.swap_mapping mapping) hf).
Qed.

(** X4. Step 2 of [Dyn05.send_to_hubspot], when it does not raise: a
    metafield replaces the mapped value of the destination field that has its
    key, among metafields with one key the last wins, and every other
    property keeps its value. *)
Theorem metafields_override_mapped_fields :
  forall (metafields : list json) (properties properties' : list (string * json)),
  Dyn05.add_metafields metafields properties = Ok properties' ->
  exists pairs,
    map_result More.metafield_pair metafields = Ok pairs
    /\ (forall k,
          dict_get properties' k
          = match More.last_value pairs k with
            | Some v => Some v
            | None => dict_get properties k
            end)
    /\ (NoDup (dict_keys properties) -> NoDup (dict_keys properties')).
Proof.
  intros metas props props' H. rewrite MapMore.add_metafields_assign in H.
  destruct (map_result More.metafield_pair metas) as [pairs|]; [|discriminate].
  simpl in H. inversion H; subst. exists pairs. split; [reflexivity|]. split.
  - intros k. apply DictMore.get_assign_all.
  - apply DictMore.nodup_assign_all.
Qed.

Lemma metafields_override_mapped_fields_witness :
  dict_get [("email", JStr "a@x.com"); ("tier", JStr "gold")] "tier"
  = Some (JStr "gold").
Proof.
  destruct (metafields_override_mapped_fields
              [JDict [("key", JStr "tier"); ("value", JStr "silver")];
               JDict [("key", JStr "tier"); ("value", JStr "gold")]]
              [("email", JStr "a@x.com"); ("tier", JStr "bronze")]
              [("email", JStr "a@x.com"); ("tier", JStr "gold")] eq_refl)
    as (pairs & P & G & _).
  rewrite G. inversion P. reflexivity.
Defined.

Module NormalizeMore.
Import Dyn05 Rule.

Lemma keys_act : forall a field p,
  (forall v, a = Replace v -> dict_get p field <> None) ->
  incl (dict_keys (act a field p)) (dict_keys p)
  /\ (NoDup (dict_keys p) -> NoDup (dict_keys (act a field p))).
Proof.
  intros [|v|] field p Hp; simpl.
  - split; [apply incl_refl | trivial].
  - rewrite DictMore.keys_set. unfold dict_mem.
    destruct (dict_get p field) eqn:E; [|now destruct (Hp v eq_refl)].
    split; [apply incl_refl | trivial].
  - split; [|apply DictMore.nodup_pop].
    rewrite DictMore.keys_pop. intros x Hx.
    now apply filter_In in Hx as [Hx _].
Qed.

Lemma keys_step : forall field rules p,
  incl (dict_keys (step field rules p)) (dict_keys p)
  /\ (NoDup (dict_keys p) -> NoDup (dict_keys (step field rules p))).
Proof.
  intros field rules p. rewrite NormalizeFacts.step_act. apply keys_act.
  intros v Hv. now apply NormalizeFacts.verdict_replace_present in Hv.
Qed.

Lemma keys_normalize : forall rules p,
  incl (dict_keys (normalize rules p)) (dict_keys p)
  /\ (NoDup (dict_keys p) -> NoDup (dict_keys (normalize rules p))).
Proof.
  induction rules as [|[f r] rules IH]; intros p.
  - split; [apply incl_refl | trivial].
  - rewrite NormalizeFacts.normalize_cons.
    destruct (IH (step f r p)) as [I N]. destruct (keys_step f r p) as [I' N'].
    split; [eapply incl_tran; eassumption | auto].
Qed.
End NormalizeMore.

(** X5. Step 3 of [Dyn05.send_to_hubspot] touches governed fields only: a
    property without a rule keeps its value, no property is added, and the
    keys of the map stay distinct. *)
Theorem normalize_touches_governed_fields_only :
  forall (rules : list (string * AllowedRule)) (properties : list (string * json)),
  (forall k, ~ In k (dict_keys rules) ->
             dict_get (Dyn05.normalize rules properties) k
             = dict_get properties k)
  /\ (forall k, In k (dict_keys (Dyn05.normalize rules properties)) ->
                In k (dict_keys properties))
  /\ (NoDup (dict_keys properties) ->
      NoDup (dict_keys (Dyn05.normalize rules properties))).
Proof.
  intros rules props. split; [|split].
  - intros k Hk. now apply NormalizeFacts.get_normalize_other.
  - apply (proj1 (NormalizeMore.keys_normalize rules props)).
  - apply (proj2 (NormalizeMore.keys_normalize rules props)).
Qed.

Lemma normalize_touches_governed_fields_only_witness :
  dict_get (Dyn05.normalize sample_rules sample_properties) "email"
  = Some (JStr "a@x.com").
Proof.
  apply (proj1 (normalize_touches_governed_fields_only sample_rules
                  sample_properties) "email").
  simpl. intuition discriminate.
Defined.

(** ** The requests of one record *)

Module RecordMore.
Import Dyn05 More MoreRequests.

Lemma count_app : forall kind rs1 rs2,
  count kind (rs1 ++ rs2) = (count kind rs1 + count kind rs2)%nat.
Proof.
  intros. unfold count. now rewrite filter_app, length_app.
Qed.

Lemma count_alone : forall rs,
  forallb Pipeline.leaves_records_alone rs = true ->
  count Upsert.is_search rs = 0%nat /\ count is_write rs = 0%nat.
Proof.
  unfold count, is_write.
  induction rs as [|rq rs IH]; simpl; intros H; [split; reflexivity|].
  apply andb_true_iff in H as [H1 H2]. destruct (IH H2) as [IS IW].
  unfold Pipeline.leaves_records_alone in H1. apply negb_true_iff in H1.
  apply orb_false_iff in H1 as [H1 Hu]. apply orb_false_iff in H1 as [Hs Hc].
  rewrite Hs, Hc, Hu. simpl. now split.
Qed.

Section Facts.
Context {RT : Runtime}.



Lemma upsert_after_results :
  forall object_type hubspot_object unique_field properties w w1 resp body
         results,
  truthy (py_get properties unique_field) = true ->
  send (Upsert.search_request hubspot_object unique_field properties) w
  = (Ok resp, w1) ->
  status_code resp = 200 ->
  json_body resp = Some body ->
  get_default body "results" (JList []) = Ok results ->
  truthy results = true ->
  upsert object_type hubspot_object unique_field properties w
  = match rbind (getitem_0 results) (fun first => getitem_str first "id") with
    | Ok obj_id =>
        Upsert.update_after_search hubspot_object unique_field properties
          obj_id w1
    | Raise e =>
        (Raise e, w1,
         [EvHttp (Upsert.search_request hubspot_object unique_field properties)])
    end.
Proof.
  intros ot ho uf props w w1 resp body results Hu Hs Hst Hb Hr Ht.
  unfold upsert, Upsert.update_after_search. rewrite Hu. simpl.
  unfold bind at 1. unfold http at 1.
  fold (Upsert.search_request ho uf props). rewrite Hs, Hst. simpl.
  unfold bind at 1. unfold bind at 1. unfold resp_json. rewrite Hb.
  unfold ret at 1. unfold lift at 1. rewrite Hr, Ht.
  unfold bind, lift, http, print.
  destruct (getitem_0 results) as [first|]; [|reflexivity]. simpl.
  destruct (getitem_str first "id") as [obj_id|]; [|reflexivity].
  fold (Upsert.update_request ho obj_id props).
  destruct (send (Upsert.update_request ho obj_id props) w1) as [[r|e] w2];
    reflexivity.
Qed.

Lemma upsert_search_unusable :
  forall object_type hubspot_object unique_field properties w,
  truthy (py_get properties unique_field) = true ->
  (exists e w1,
     send (Upsert.search_request hubspot_object unique_field properties) w
     = (Raise e, w1))
  \/ (exists resp w1,
        send (Upsert.search_request hubspot_object unique_field properties) w
        = (Ok resp, w1)
        /\ status_code resp = 200
        /\ rbind (match json_body resp with
                  | Some body => Ok body
                  | None => Raise JSONDecodeError
                  end)
             (fun body => get_default body "results" (JList []))
           = Raise AttributeError
           \/ send (Upsert.search_request hubspot_object unique_field
                      properties) w = (Ok resp, w1)
              /\ status_code resp = 200 /\ json_body resp = None) ->
  requests (trace (upsert object_type hubspot_object unique_field properties w))
  = [Upsert.search_request hubspot_object unique_field properties].
Proof.
  intros ot ho uf props w Hu H.
  unfold upsert, trace. rewrite Hu. simpl.
  unfold bind at 1. unfold http at 1.
  fold (Upsert.search_request ho uf props).
  destruct H as [(e & w1 & ->) | (resp & w1 & [(-> & Hst & Hr) | (-> & Hst & Hb)])].
  - reflexivity.
  - rewrite Hst. simpl. unfold bind at 1. unfold bind at 1. unfold resp_json.
    destruct (json_body resp) as [body|]; [|reflexivity].
    simpl in Hr. unfold ret at 1. unfold lift at 1. now rewrite Hr.
  - rewrite Hst. simpl. unfold bind at 1. unfold bind at 1. unfold resp_json.
    now rewrite Hb.
Qed.

Lemma upsert_requests :
  forall object_type hubspot_object unique_field properties w,
  upsert_shape hubspot_object unique_field properties
    (requests (trace (upsert object_type hubspot_object unique_field
                        properties w))).
Proof.
  intros ot ho uf props w. unfold upsert_shape.
  destruct (truthy (py_get props uf)) eqn:Hu.
  2:{ rewrite (UpsertFacts.upsert_skips ot ho uf props w Hu). now left. }
  destruct (send (Upsert.search_request ho uf props) w) as [[resp|e] w1] eqn:Hs.
  2:{ right. left. apply upsert_search_unusable; [assumption|].
      left. now exists e, w1. }
  assert (Create : requests (trace (Upsert.create_after_search ho uf props w1))
                   = [Upsert.search_request ho uf props;
                      Upsert.create_request ho props]).
  { unfold Upsert.create_after_search.
    now destruct (send (Upsert.create_request ho props) w1) as [[r|e] w2]. }
  destruct (Z.eq_dec (status_code resp) 200) as [Hst|Hst].
  2:{ rewrite (UpsertFacts.upsert_search_failed ot ho uf props w w1 resp Hu Hs Hst).
      right. right. now left. }
  destruct (json_body resp) as [body|] eqn:Hb.
  2:{ right. left. apply upsert_search_unusable; [assumption|].
      right. exists resp, w1. right. now repeat split. }
  destruct (get_default body "results" (JList [])) as [results|e] eqn:Hr.
  2:{ right. left. apply upsert_search_unusable; [assumption|].
      right. exists resp, w1. left. rewrite Hb. simpl. rewrite Hr.
      destruct body; try discriminate Hr; simpl in Hr; inversion Hr;
        now repeat split. }
  destruct (truthy results) eqn:Ht.
  2:{ rewrite (UpsertFacts.upsert_no_match ot ho uf props w w1 resp body
                 results Hu Hs Hst Hb Hr Ht).
      right. right. now left. }
  rewrite (upsert_after_results ot ho uf props w w1 resp body results
             Hu Hs Hst Hb Hr Ht).
  destruct (rbind (getitem_0 results) (fun first => getitem_str first "id"))
    as [obj_id|e].
  - right. right. right. exists obj_id.
    unfold Upsert.update_after_search.
    now destruct (send (Upsert.update_request ho obj_id props) w1)
      as [[r|e] w2].
  - right. now left.
Qed.

Lemma build_properties_alone : forall cfg shopify_obj w,
  forallb Pipeline.leaves_records_alone
    (requests (trace (build_properties cfg shopify_obj w))) = true.
Proof.
  intros cfg obj w. unfold build_properties, trace.
  unfold bind at 1. unfold lift at 1.
  destruct (map_fields (field_mapping cfg) obj []) as [p0|]; [|reflexivity].
  unfold bind at 1. unfold lift at 1.
  destruct (get_default obj "id" JNull) as [id|]; [|reflexivity].
  unfold bind at 1.
  pose proof (PipelineFacts.fetch_metafields_trace (shopify_key cfg) id w) as F.
  destruct (fetch_metafields (shopify_key cfg) id w) as [[[mf|e] w2] t2];
    unfold trace in F; simpl in F; subst t2; [|reflexivity].
  unfold bind at 1. unfold lift at 1.
  destruct (py_iter mf) as [metas|]; [|reflexivity].
  unfold bind at 1. unfold lift at 1.
  destruct (add_metafields metas p0) as [p1|]; [|reflexivity].
  destruct (apply_allowed_values (allowed_values cfg) p1) as [p2 out].
  unfold bind. rewrite PipelineFacts.for_each_print. unfold ret. simpl.
  rewrite !app_nil_r. now rewrite PipelineFacts.requests_prints.
Qed.

Lemma ensure_fields_alone : forall cfg properties w,
  forallb Pipeline.leaves_records_alone
    (requests (trace (ensure_fields cfg properties w))) = true.
Proof.
  intros cfg props w.
  destruct (SchemaFacts.ensure_fields_requests cfg props w) as (cs & -> & C).
  simpl. now apply PipelineFacts.creation_leaves_records_alone.
Qed.

(** The requests of one record: those of steps 1 to 4, which leave the
    records alone, then those of the upsert of the property map that steps 1
    to 3 built. *)
Lemma send_to_hubspot_requests : forall config object_type shopify_obj w,
  exists before after,
    requests (trace (send_to_hubspot config object_type shopify_obj w))
    = before ++ after
    /\ forallb Pipeline.leaves_records_alone before = true
    /\ (after = []
        \/ exists cfg properties w1 t1,
             dict_get config object_type = Some cfg
             /\ build_properties cfg shopify_obj w = (Ok properties, w1, t1)
             /\ upsert_shape (hubspot_object cfg) (unique_field cfg) properties
                  after).
Proof.
  intros config ot obj w. unfold send_to_hubspot, config_of.
  destruct (dict_get config ot) as [cfg|] eqn:C.
  2:{ exists [], []. repeat split. now left. }
  unfold bind at 1. unfold ret at 1. unfold bind at 1.
  pose proof (build_properties_alone cfg obj w) as B.
  destruct (build_properties cfg obj w) as [[[props|e] w1] t1] eqn:Hb;
    unfold trace in B; simpl in B.
  2:{ exists (requests t1), []. rewrite app_nil_r. repeat split; auto. }
  unfold bind at 1.
  pose proof (ensure_fields_alone cfg props w1) as E.
  destruct (ensure_fields cfg props w1) as [[[[]|e] w2] t2];
    unfold trace in E; simpl in E.
  - pose proof (upsert_requests ot (hubspot_object cfg) (unique_field cfg)
                  props w2) as U.
    destruct (upsert ot (hubspot_object cfg) (unique_field cfg) props w2)
      as [[r w3] t3].
    unfold trace in *. simpl in *.
    exists (requests t1 ++ requests t2), (requests t3).
    rewrite !EffFacts.requests_app, app_assoc. split; [reflexivity|].
    split; [now rewrite forallb_app, B, E|].
    right. exists cfg, props, w1, t1. now repeat split.
  - unfold trace. simpl.
    exists (requests t1 ++ requests t2), [].
    rewrite ?EffFacts.requests_app, ?app_nil_r. split; [reflexivity|].
    split; [now rewrite forallb_app, B, E | now left].
Qed.
End Facts.
End RecordMore.



(** X7. [Dyn05.send_to_hubspot] writes a record at most once, and only
    right after the search. The requests of one call are requests that are
    neither a search, a create nor an update, followed by those of the upsert
    of the property map that steps 1 to 3 built: nothing, the search alone,
    or the search and then one create or one update, which is the last
    request. So there is at most one search, at most one write, and no write
    without a search. *)
Theorem record_written_at_most_once :
  forall (RT : Runtime) config object_type shopify_obj (w : World),
  let rs := requests (trace (Dyn05.send_to_hubspot config object_type
                               shopify_obj w)) in
  (exists before after,
     rs = before ++ after
     /\ forallb Pipeline.leaves_records_alone before = true
     /\ (after = []
         \/ exists cfg properties w1 t1,
              dict_get config object_type = Some cfg
              /\ Dyn05.build_properties cfg shopify_obj w
                 = (Ok properties, w1, t1)
              /\ MoreRequests.upsert_shape (hubspot_object cfg)
                   (unique_field cfg) properties after))
  /\ (More.count Upsert.is_search rs <= 1)%nat
  /\ (More.count More.is_write rs <= 1)%nat
  /\ (More.count More.is_write rs <= More.count Upsert.is_search rs)%nat.
Proof.
  intros RT config ot obj w rs.
  destruct (RecordMore.send_to_hubspot_requests config ot obj w)
    as (before & after & R & B & A).
  split; [now exists before, after|].
  subst rs. rewrite R, !RecordMore.count_app.
  destruct (RecordMore.count_alone before B) as [-> ->].
  destruct A as [-> | (cfg & props & w1 & t1 & _ & _
                       & [-> | [-> | [-> | (id & ->)]]])];
    simpl; repeat split; auto; cbv; lia.
Qed.

Module FetchMore.
Import Dyn05.

Section Facts.
Context {RT : Runtime}.

Lemma fetch_metafields_not_200 : forall shopify_object shopify_id w resp w1,
  send (Pipeline.metafields_request shopify_object shopify_id) w
  = (Ok resp, w1) ->
  status_code resp <> 200 ->
  fetch_metafields shopify_object shopify_id w
  = (Ok (JList []), w1,
     [EvHttp (Pipeline.metafields_request shopify_object shopify_id)]).
Proof.
  intros so id w resp w1 Hs Hst. unfold fetch_metafields, bind, http.
  fold (Pipeline.metafields_request so id). rewrite Hs.
  apply Z.eqb_neq in Hst. now rewrite Hst.
Qed.

Lemma build_properties_without_metafields :
  forall cfg shopify_obj shopify_id mapped w resp w1,
  map_fields (field_mapping cfg) shopify_obj [] = Ok mapped ->
  get_default shopify_obj "id" JNull = Ok shopify_id ->
  send (Pipeline.metafields_request (shopify_key cfg) shopify_id) w
  = (Ok resp, w1) ->
  status_code resp <> 200 ->
  build_properties cfg shopify_obj w
  = (Ok (normalize (allowed_values cfg) mapped), w1,
     EvHttp (Pipeline.metafields_request (shopify_key cfg) shopify_id)
     :: map EvPrint (snd (apply_allowed_values (allowed_values cfg) mapped))).
Proof.
  intros cfg obj id mapped w resp w1 Hm Hi Hs Hst.
  unfold build_properties, normalize.
  unfold bind at 1. unfold lift at 1. rewrite Hm.
  unfold bind at 1. unfold lift at 1. rewrite Hi.
  unfold bind at 1.
  rewrite (fetch_metafields_not_200 _ _ _ _ _ Hs Hst).
  unfold bind at 1. unfold lift at 1. simpl py_iter. cbv iota.
  unfold bind at 1. unfold lift at 1. simpl add_metafields. cbv iota.
  destruct (apply_allowed_values (allowed_values cfg) mapped) as [p2 out].
  unfold bind. rewrite PipelineFacts.for_each_print. unfold ret. simpl.
  now rewrite !app_nil_r.
Qed.

Lemma listing_refused : forall hubspot_object w resp w1,
  send (Schema.listing_request (hubspot_object ++ "s")%string) w
  = (Ok resp, w1) ->
  is_error (status_code resp) = true ->
  get_hubspot_properties hubspot_object w
  = (Raise HTTPStatusError, w1,
     [EvHttp (Schema.listing_request (hubspot_object ++ "s")%string)]).
Proof.
  intros ho w resp w1 Hs He. unfold get_hubspot_properties.
  unfold bind at 1. unfold http at 1.
  fold (Schema.listing_request (ho ++ "s")%string). rewrite Hs.
  unfold bind, raise_for_status. rewrite He. reflexivity.
Qed.

Lemma fetch_without_key : forall config object_type cfg w resp w1 d,
  dict_get config object_type = Some cfg ->
  send (MoreRequests.list_request "2024-10" (shopify_endpoint cfg)) w
  = (Ok resp, w1) ->
  is_error (status_code resp) = false ->
  json_body resp = Some (JDict d) ->
  dict_get d (shopify_key cfg) = None ->
  fetch_shopify_data config object_type w
  = (Ok (JList []), w1,
     [EvPrint (MFetching object_type);
      EvHttp (MoreRequests.list_request "2024-10" (shopify_endpoint cfg));
      EvPrint (MFound 0 object_type)]).
Proof.
  intros config ot cfg w resp w1 d Hc Hs He Hb Hk.
  unfold fetch_shopify_data, config_of. rewrite Hc.
  unfold bind at 1. unfold ret at 1.
  unfold bind at 1. unfold print at 1.
  unfold bind at 1. unfold http at 1.
  fold (MoreRequests.list_request "2024-10" (shopify_endpoint cfg)).
  rewrite Hs.
  unfold bind at 1. unfold raise_for_status. rewrite He. unfold ret at 1.
  unfold bind at 1. unfold resp_json. rewrite Hb. unfold ret at 1.
  unfold bind, lift, print, ret. simpl. now rewrite Hk.
Qed.
End Facts.
End FetchMore.

(** X8. Step 2 of [Dyn05.send_to_hubspot] fails silently: when the metafields
    endpoint answers with a status other than 200, nothing is raised or
    printed about it, and the property map of the record is the mapped
    fields after the allow-list pass, as if the record had no metafield. *)
Theorem metafields_failure_is_silent :
  forall (RT : Runtime) cfg shopify_obj shopify_id mapped (w w1 : World) resp,
  Dyn05.map_fields (field_mapping cfg) shopify_obj [] = Ok mapped ->
  get_default shopify_obj "id" JNull = Ok shopify_id ->
  send (Pipeline.metafields_request (shopify_key cfg) shopify_id) w
  = (Ok resp, w1) ->
  status_code resp <> 200 ->
  let x := Dyn05.build_properties cfg shopify_obj w in
  outcome x = Ok (Dyn05.normalize (allowed_values cfg) mapped)
  /\ final x = w1
  /\ requests (trace x)
     = [Pipeline.metafields_request (shopify_key cfg) shopify_id]
  /\ printed (trace x)
     = snd (Dyn05.apply_allowed_values (allowed_values cfg) mapped).
Proof.
  intros RT cfg obj id mapped w w1 resp Hm Hi Hs Hst x. subst x.
  rewrite (FetchMore.build_properties_without_metafields
             cfg obj id mapped w resp w1 Hm Hi Hs Hst).
  unfold outcome, final, trace. simpl.
  split; [reflexivity|]. split; [reflexivity|].
  set (out := snd _). clearbody out. split.
  - now rewrite PipelineFacts.requests_prints.
  - induction out as [|m out IH]; simpl; [reflexivity | now rewrite IH].
Qed.

Lemma metafields_failure_is_silent_witness :
  outcome (Sim.run (Dyn05.build_properties
                      (mkConfig "customers.json" "customers" "contact" "email"
                         "contactinformation" [("email", "email")] [])
                      dan_record)
             (empty_hub None))
  = Ok [("email", JStr "d@x.com")].
Proof.
  apply (metafields_failure_is_silent Sim.runtime
           (mkConfig "customers.json" "customers" "contact" "email"
              "contactinformation" [("email", "email")] [])
           dan_record (JStr "gid-4") [("email", JStr "d@x.com")]
           (empty_hub None) (empty_hub None)
           (Sim.respond 404 (JDict [("errors", JStr "Not Found")]))
           eq_refl eq_refl eq_refl).
  vm_compute. discriminate.
Defined.

(** X9. Step 4 of [Dyn05.send_to_hubspot] stops the record when the listing
    of the destination properties is answered with an error status:
    [HTTPStatusError] leaves [send_to_hubspot] right after the listing, so no
    property is created and the record is neither searched, created nor
    updated. *)
Theorem listing_failure_stops_the_record :
  forall (RT : Runtime) config object_type cfg shopify_obj properties
         (w w1 w2 : World) t1 resp,
  dict_get config object_type = Some cfg ->
  Dyn05.build_properties cfg shopify_obj w = (Ok properties, w1, t1) ->
  send (Schema.listing_request (hubspot_object cfg ++ "s")%string) w1
  = (Ok resp, w2) ->
  is_error (status_code resp) = true ->
  Dyn05.send_to_hubspot config object_type shopify_obj w
  = (Raise HTTPStatusError, w2,
     t1 ++ [EvHttp (Schema.listing_request (hubspot_object cfg ++ "s")%string)]).
Proof.
  intros RT config ot cfg obj props w w1 w2 t1 resp Hc Hb Hs He.
  unfold Dyn05.send_to_hubspot, Dyn05.config_of. rewrite Hc.
  unfold bind at 1. unfold ret at 1.
  unfold bind at 1. rewrite Hb.
  unfold bind at 1. unfold Dyn05.ensure_fields. unfold bind at 1.
  rewrite (FetchMore.listing_refused _ _ _ _ Hs He). reflexivity.
Qed.

Lemma listing_failure_stops_the_record_witness :
  requests (trace (@Dyn05.send_to_hubspot Outage.runtime customer_config
                     "customer" ann_record (empty_hub None)))
  = [Pipeline.metafields_request "customers" (JNum 1);
     Schema.listing_request "contacts"].
Proof.
  rewrite (listing_failure_stops_the_record Outage.runtime customer_config
             "customer"
             (mkConfig "customers.json" "customers" "contact" "email"
                "contactinformation"
                [("email", "email"); ("first_name", "firstname")] [])
             ann_record ann (empty_hub None) (empty_hub None) (empty_hub None)
             [EvHttp (Pipeline.metafields_request "customers" (JNum 1))]
             (Sim.respond 503 (JDict [("status", JStr "error")]))
             eq_refl eq_refl eq_refl eq_refl).
  reflexivity.
Defined.

(** X10. [Dyn05.fetch_shopify_data] takes an answer that lacks the configured
    key for an empty list: for such an object type [sync_all]'s loop body
    sends the listing request and nothing else, reports 0 records and ends
    normally. *)
Theorem missing_list_key_means_no_records :
  forall (RT : Runtime) config object_type cfg (w w1 : World) resp d,
  dict_get config object_type = Some cfg ->
  send (MoreRequests.list_request "2024-10" (shopify_endpoint cfg)) w
  = (Ok resp, w1) ->
  is_error (status_code resp) = false ->
  json_body resp = Some (JDict d) ->
  dict_get d (shopify_key cfg) = None ->
  Dyn05.sync_object_type config object_type w
  = (Ok tt, w1,
     [EvPrint (MFetching object_type);
      EvHttp (MoreRequests.list_request "2024-10" (shopify_endpoint cfg));
      EvPrint (MFound 0 object_type)]).
Proof.
  intros RT config ot cfg w w1 resp d Hc Hs He Hb Hk.
  unfold Dyn05.sync_object_type. unfold bind at 1.
  rewrite (FetchMore.fetch_without_key config ot cfg w resp w1 d Hc Hs He Hb Hk).
  reflexivity.
Qed.

Lemma missing_list_key_means_no_records_witness :
  Sim.run (Dyn05.sync_object_type customer_config "customer") shop_other_key
  = (Ok tt, shop_other_key,
     [EvPrint (MFetching "customer");
      EvHttp (MoreRequests.list_request "2024-10" "customers.json");
      EvPrint (MFound 0 "customer")]).
Proof.
  apply (missing_list_key_means_no_records Sim.runtime customer_config
           "customer"
           (mkConfig "customers.json" "customers" "contact" "email"
              "contactinformation"
              [("email", "email"); ("first_name", "firstname")] [])
           shop_other_key shop_other_key
           (Sim.respond 200 (JDict [("clients", JList [ann_record])]))
           [("clients", JList [ann_record])]
           eq_refl eq_refl eq_refl eq_refl eq_refl).
Defined.

Module DefaultsMore.
Import More.

Lemma get_filter_key : forall {A} (P : string -> bool) (l : list (string * A)) k,
  dict_get (filter (fun kv => P (fst kv)) l) k
  = if P k then dict_get l k else None.
Proof.
  induction l as [|[k0 v0] l IH]; intros k; simpl.
  - now destruct (P k).
  - destruct (P k0) eqn:E; simpl.
    + destruct (String.eqb_spec k0 k) as [->|Hne]; [now rewrite E | apply IH].
    + rewrite IH. destruct (String.eqb_spec k0 k) as [->|Hne];
        [now rewrite E | reflexivity].
Qed.

Lemma rev_filter : forall {A} (f : A -> bool) l,
  rev (filter f l) = filter f (rev l).
Proof.
  induction l as [|x l IH]; simpl; [reflexivity|].
  rewrite filter_app, <- IH. simpl. destruct (f x); simpl.
  - reflexivity.
  - now rewrite app_nil_r.
Qed.

Lemma last_value_filter_key :
  forall {A} (P : string -> bool) (l : list (string * A)) k,
  last_value (filter (fun kv => P (fst kv)) l) k
  = if P k then last_value l k else None.
Proof.
  intros A P l k. unfold last_value. rewrite rev_filter. apply get_filter_key.
Qed.
End DefaultsMore.

(** X11. The defaults of [Map04.send_to_hubspot] fill blanks only: a property
    whose value is neither null nor the empty string keeps it, whatever the
    defaults say; a property that is absent, null or empty takes the default
    configured for it, and stays as it is when none is configured. *)
Theorem defaults_fill_blanks_only :
  forall (default_values properties : list (string * json)) (k : string),
  dict_get (Map04.add_defaults default_values properties) k
  = if Map04.is_blank (py_get properties k)
    then match More.last_value default_values k with
         | Some v => Some v
         | None => dict_get properties k
         end
    else dict_get properties k.
Proof.
  intros dv props k. unfold Map04.add_defaults.
  change (fold_left _ ?l ?d) with (More.assign_all l d).
  rewrite DictMore.get_assign_all.
  rewrite (DefaultsMore.last_value_filter_key
             (fun k => Map04.is_blank (py_get props k)) dv k).
  now destruct (Map04.is_blank (py_get props k)).
Qed.

Module Run01More.
Import Run01 Run01Requests.

Section Facts.
Context {RT : Runtime}.

Lemma existing_record_trace : forall hubspot_object unique_field value w,
  trace (get_existing_hubspot_record hubspot_object unique_field value w)
  = [EvHttp (search_request hubspot_object unique_field value)].
Proof.
  intros ho uf v w. unfold get_existing_hubspot_record, trace.
  unfold bind, http, resp_json, lift, ret, raise.
  fold (search_request ho uf v).
  destruct (send (search_request ho uf v) w) as [[r|e] w1]; [|reflexivity].
  destruct (status_code r =? 200); [|reflexivity].
  destruct (json_body r) as [b|]; [|reflexivity].
  destruct (get_default b "results" (JList [])) as [rs|]; [|reflexivity].
  destruct (truthy rs); [|reflexivity].
  destruct (getitem_0 rs) as [first|]; [|reflexivity].
  now destruct (getitem_str first "id").
Qed.

Lemma record_skipped : forall config object_type cfg shopify_obj properties
                              unique_field w,
  dict_get config object_type = Some cfg ->
  map_fields (field_mapping cfg) shopify_obj [] = Ok properties ->
  first_mapped (field_mapping cfg) = Ok unique_field ->
  truthy (py_get properties unique_field) = false ->
  send_to_hubspot config object_type shopify_obj w
  = (Ok tt, w, [EvPrint (MSkipping object_type)]).
Proof.
  intros config ot cfg obj props uf w Hc Hm Hf Ht.
  unfold send_to_hubspot, config_of. rewrite Hc.
  unfold bind at 1. unfold ret at 1.
  unfold bind at 1. unfold lift at 1. rewrite Hm.
  unfold bind at 1. unfold lift at 1. rewrite Hf.
  now rewrite Ht.
Qed.

Lemma record_requests : forall config object_type cfg shopify_obj properties
                               unique_field w,
  dict_get config object_type = Some cfg ->
  map_fields (field_mapping cfg) shopify_obj [] = Ok properties ->
  first_mapped (field_mapping cfg) = Ok unique_field ->
  truthy (py_get properties unique_field) = true ->
  record_shape (hubspot_object cfg) unique_field properties
    (requests (trace (send_to_hubspot config object_type shopify_obj w))).
Proof.
  intros config ot cfg obj props uf w Hc Hm Hf Ht.
  unfold send_to_hubspot, config_of. rewrite Hc.
  unfold bind at 1. unfold ret at 1.
  unfold bind at 1. unfold lift at 1. rewrite Hm.
  unfold bind at 1. unfold lift at 1. rewrite Hf.
  simpl. rewrite Ht. simpl.
  unfold bind at 1.
  pose proof (existing_record_trace (hubspot_object cfg) uf (py_get props uf) w)
    as E.
  destruct (get_existing_hubspot_record (hubspot_object cfg) uf
              (py_get props uf) w) as [[[existing_id|e] w1] t1];
    unfold trace in E; simpl in E; subst t1.
  2:{ left. reflexivity. }
  destruct (truthy existing_id) eqn:Tid.
  - right. right. exists existing_id. split; [assumption|].
    unfold bind, http, print, trace.
    fold (Upsert.update_request (hubspot_object cfg) existing_id props).
    destruct (send (Upsert.update_request (hubspot_object cfg) existing_id
                      props) w1) as [[r|e] w2]; [|reflexivity].
    now destruct (status_code r =? 200).
  - right. left.
    unfold bind, http, print, trace.
    fold (Upsert.create_request (hubspot_object cfg) props).
    destruct (send (Upsert.create_request (hubspot_object cfg) props) w1)
      as [[r|e] w2]; [|reflexivity].
    now destruct (status_code r =? 201).
Qed.
Lemma existing_record_answered :
  forall hubspot_object unique_field value w resp w1,
  send (search_request hubspot_object unique_field value) w = (Ok resp, w1) ->
  get_existing_hubspot_record hubspot_object unique_field value w
  = (reported_id resp, w1,
     [EvHttp (search_request hubspot_object unique_field value)]).
Proof.
  intros ho uf v w resp w1 H. unfold get_existing_hubspot_record, reported_id.
  unfold bind at 1. unfold http at 1. fold (search_request ho uf v).
  rewrite H.
  destruct (status_code resp =? 200); [|reflexivity].
  unfold bind, resp_json, lift, ret, raise.
  destruct (json_body resp) as [b|]; [|reflexivity].
  destruct (get_default b "results" (JList [])) as [rs|]; [|reflexivity].
  simpl. destruct (truthy rs); [|reflexivity].
  destruct (getitem_0 rs) as [first|]; [|reflexivity].
  simpl. now destruct (getitem_str first "id").
Qed.

(** The write is chosen by what the search reported. *)
Lemma record_decided : forall config object_type cfg shopify_obj properties
                              unique_field w resp w1,
  dict_get config object_type = Some cfg ->
  map_fields (field_mapping cfg) shopify_obj [] = Ok properties ->
  first_mapped (field_mapping cfg) = Ok unique_field ->
  truthy (py_get properties unique_field) = true ->
  send (search_request (hubspot_object cfg) unique_field
          (py_get properties unique_field)) w = (Ok resp, w1) ->
  requests (trace (send_to_hubspot config object_type shopify_obj w))
  = match reported_id resp with
    | Ok existing_id =>
        [search_request (hubspot_object cfg) unique_field
           (py_get properties unique_field);
         if truthy existing_id
         then Upsert.update_request (hubspot_object cfg) existing_id properties
         else Upsert.create_request (hubspot_object cfg) properties]
    | Raise _ =>
        [search_request (hubspot_object cfg) unique_field
           (py_get properties unique_field)]
    end.
Proof.
  intros config ot cfg obj props uf w resp w1 Hc Hm Hf Ht Hs.
  unfold send_to_hubspot, config_of. rewrite Hc.
  unfold bind at 1. unfold ret at 1.
  unfold bind at 1. unfold lift at 1. rewrite Hm.
  unfold bind at 1. unfold lift at 1. rewrite Hf.
  simpl. rewrite Ht. simpl.
  unfold bind at 1.
  rewrite (existing_record_answered _ _ _ _ _ _ Hs).
  destruct (reported_id resp) as [existing_id|e]; [|reflexivity].
  destruct (truthy existing_id).
  - unfold bind, http, print, trace.
    fold (Upsert.update_request (hubspot_object cfg) existing_id props).
    destruct (send (Upsert.update_request (hubspot_object cfg) existing_id
                      props) w1) as [[r|e] w2]; [|reflexivity].
    now destruct (status_code r =? 200).
  - unfold bind, http, print, trace.
    fold (Upsert.create_request (hubspot_object cfg) props).
    destruct (send (Upsert.create_request (hubspot_object cfg) props) w1)
      as [[r|e] w2]; [|reflexivity].
    now destruct (status_code r =? 201).
Qed.
End Facts.
End Run01More.

(** X12. [Run01.send_to_hubspot] matches on the first mapped field. A record
    whose value for it is empty or missing is skipped without any request.
    Otherwise the call sends the search, then at most one write, chosen by
    what the search reported: once the search is answered, the requests are
    the search and an update against the reported identifier when that
    identifier is truthy, the search and a create when it is not (a status
    other than 200, no result, or a falsy identifier), and the search alone
    when the answer cannot be read. It never lists or creates a property and
    never reads a metafield. *)
Theorem run01_record_requests :
  forall (RT : Runtime) config object_type cfg shopify_obj properties
         unique_field (w : World),
  dict_get config object_type = Some cfg ->
  Run01.map_fields (Run01.field_mapping cfg) shopify_obj [] = Ok properties ->
  Run01.first_mapped (Run01.field_mapping cfg) = Ok unique_field ->
  let x := Run01.send_to_hubspot config object_type shopify_obj w in
  let search :=
    Run01Requests.search_request (Run01.hubspot_object cfg) unique_field
      (py_get properties unique_field) in
  (truthy (py_get properties unique_field) = false ->
   requests (trace x) = [] /\ outcome x = Ok tt /\ final x = w)
  /\ (truthy (py_get properties unique_field) = true ->
      Run01Requests.record_shape (Run01.hubspot_object cfg) unique_field
        properties (requests (trace x))
      /\ forall resp w1,
           send search w = (Ok resp, w1) ->
           requests (trace x)
           = match Run01Requests.reported_id resp with
             | Ok existing_id =>
                 [search;
                  if truthy existing_id
                  then Upsert.update_request (Run01.hubspot_object cfg)
                         existing_id properties
                  else Upsert.create_request (Run01.hubspot_object cfg)
                         properties]
             | Raise _ => [search]
             end).
Proof.
  intros RT config ot cfg obj props uf w Hc Hm Hf x search. subst x search.
  split; intros Ht.
  - now rewrite (Run01More.record_skipped config ot cfg obj props uf w
                   Hc Hm Hf Ht).
  - split.
    + now apply Run01More.record_requests.
    + intros resp w1 Hs.
      now apply Run01More.record_decided with (w1 := w1).
Qed.

Lemma run01_record_requests_witness :
  requests (trace (Sim.run (Run01.send_to_hubspot customer_config01 "customer"
                              bob)
                     (empty_hub None)))
  = []
  /\ requests (trace (Sim.run (Run01.send_to_hubspot customer_config01
                                 "customer" ann_record)
                        (hub_with_ann 200 None)))
     = [Run01Requests.search_request "contact" "email" (JStr "a@x.com");
        Upsert.update_request "contact" (JNum 1) ann]
  /\ requests (trace (Sim.run (Run01.send_to_hubspot customer_config01
                                 "customer" ann_record)
                        (empty_hub None)))
     = [Run01Requests.search_request "contact" "email" (JStr "a@x.com");
        Upsert.create_request "contact" ann].
Proof.
  split; [|split].
  - apply (proj1 (run01_record_requests Sim.runtime customer_config01
                    "customer"
                    (Run01.mkConfig "customers.json" "contact"
                       [("email", "email"); ("first_name", "firstname")])
                    bob [("email", JNull); ("firstname", JStr "Bob")] "email"
                    (empty_hub None) eq_refl eq_refl eq_refl) eq_refl).
  - exact (proj2 (proj2 (run01_record_requests Sim.runtime customer_config01
                           "customer"
                           (Run01.mkConfig "customers.json" "contact"
                              [("email", "email");
                               ("first_name", "firstname")])
                           ann_record ann "email" (hub_with_ann 200 None)
                           eq_refl eq_refl eq_refl) eq_refl)
             (Sim.search (hub_with_ann 200 None)
                (Map04.search_payload "email" (JStr "a@x.com")))
             (hub_with_ann 200 None) eq_refl).
  - exact (proj2 (proj2 (run01_record_requests Sim.runtime customer_config01
                           "customer"
                           (Run01.mkConfig "customers.json" "contact"
                              [("email", "email");
                               ("first_name", "firstname")])
                           ann_record ann "email" (empty_hub None)
                           eq_refl eq_refl eq_refl) eq_refl)
             (Sim.search (empty_hub None)
                (Map04.search_payload "email" (JStr "a@x.com")))
             (empty_hub None) eq_refl).
Defined.

Module AttrMore.
Import Attr AttrUpsert AttrRequests.

Section Facts.
Context {RT : Runtime}.

Lemma contact_requests : forall email properties w,
  contact_shape email properties
    (requests (trace (create_or_update_hubspot_contact email properties w))).
Proof.
  intros email props w. unfold create_or_update_hubspot_contact, trace.
  unfold bind, http, resp_json, lift, ret, raise.
  fold (create_request props). fold (search_request email).
  destruct (send (create_request props) w) as [[r1|e1] w1];
    [|left; reflexivity].
  destruct (status_code r1 =? 201).
  { left. now destruct (json_body r1). }
  destruct (status_code r1 =? 409); [|left; reflexivity]. simpl.
  destruct (send (search_request email) w1) as [[r2|e2] w2];
    [|right; left; reflexivity].
  destruct (status_code r2 =? 200); [|right; left; reflexivity].
  simpl.
  destruct (json_body r2) as [body|]; [|right; left; reflexivity].
  destruct (get_default body "results" (JList [])) as [results|];
    [|right; left; reflexivity].
  destruct (truthy results); [|right; left; reflexivity].
  simpl.
  destruct (getitem_0 results) as [first|]; [|right; left; reflexivity].
  destruct (get_default first "id" JNull) as [contact_id|];
    [|right; left; reflexivity].
  destruct (truthy contact_id) eqn:Tid; [|right; left; reflexivity].
  simpl.
  right. right. exists contact_id. split; [assumption|].
  fold (update_request contact_id props).
  destruct (send (update_request contact_id props) w2) as [[r3|e3] w3];
    [|reflexivity].
  destruct (status_code r3 =? 200); [|reflexivity].
  now destruct (json_body r3).
Qed.

Lemma customer_without_email : forall d hubspot_props w,
  truthy (py_get d "email") = false ->
  sync_customer (JDict d) hubspot_props w
  = (Ok hubspot_props, w, [EvPrint MSkipNoEmail]).
Proof.
  intros d hp w H. unfold sync_customer.
  unfold bind, lift, print, ret. simpl.
  unfold py_get in H. now rewrite H.
Qed.
End Facts.
End AttrMore.

(** X13. [Attr.create_or_update_hubspot_contact] creates before it looks:
    the create request is always the first, the search is sent only after a
    create answered 409, and the update only against an identifier that is
    truthy. A create answered with any other status is the only request of
    the call: the contact is neither searched nor updated. *)
Theorem contact_is_created_before_it_is_searched :
  forall (RT : Runtime) email properties (w : World),
  let rs := requests (trace (Attr.create_or_update_hubspot_contact email
                               properties w)) in
  AttrRequests.contact_shape email properties rs
  /\ (forall resp w1,
        send (AttrUpsert.create_request properties) w = (Ok resp, w1) ->
        status_code resp <> 409 ->
        rs = [AttrUpsert.create_request properties]).
Proof.
  intros RT email props w rs. subst rs. split.
  - apply AttrMore.contact_requests.
  - intros resp w1. apply AttrFacts.contact_create_refused.
Qed.

Lemma contact_is_created_before_it_is_searched_witness :
  requests (trace (@Attr.create_or_update_hubspot_contact Outage.runtime
                     (JStr "a@x.com") ann (hub_with_ann 200 None)))
  = [AttrUpsert.create_request ann].
Proof.
  apply (proj2 (contact_is_created_before_it_is_searched Outage.runtime
                  (JStr "a@x.com") ann (hub_with_ann 200 None))
           (Sim.respond 503 (JDict [("status", JStr "error")]))
           (hub_with_ann 200 None) eq_refl).
  vm_compute. discriminate.
Defined.

(** X14. The loop of [Attr.sync_custom_attributes] over the customers sends
    nothing for a customer without an email: when no customer of the list has
    one, the loop ends normally without a single request, and the set of
    known properties is not fetched again. *)
Theorem customers_without_email_send_nothing :
  forall (RT : Runtime) customers hubspot_props (w : World),
  (forall cust, In cust customers ->
     exists d, cust = JDict d /\ truthy (py_get d "email") = false) ->
  Attr.sync_customers customers hubspot_props w
  = (Ok tt, w, map (fun _ => EvPrint MSkipNoEmail) customers).
Proof.
  intros RT customers hp w. induction customers as [|cust customers IH];
    intros H; simpl.
  - reflexivity.
  - destruct (H cust (or_introl eq_refl)) as (d & -> & Hd).
    unfold bind at 1. rewrite (AttrMore.customer_without_email d hp w Hd).
    rewrite IH; [reflexivity|].
    intros c Hc. apply H. now right.
Qed.

Lemma customers_without_email_send_nothing_witness :
  Sim.run (Attr.sync_customers [bob; JDict [("email", JStr "")]] [])
    (empty_hub None)
  = (Ok tt, empty_hub None, [EvPrint MSkipNoEmail; EvPrint MSkipNoEmail]).
Proof.
  apply (customers_without_email_send_nothing Sim.runtime
           [bob; JDict [("email", JStr "")]] [] (empty_hub None)).
  intros cust [<-|[<-|[]]]; eexists; split; reflexivity.
Defined.


(** X16. The loop of [Attr.sync_custom_attributes] over the metafield keys
    costs nothing when every key is in the set of known properties: no
    property is created, the set is not fetched again, and it is handed on
    unchanged. *)
Theorem known_metafields_cost_nothing :
  forall (RT : Runtime) keys hubspot_props (w : World),
  (forall key, In key keys -> py_in (JStr key) hubspot_props = true) ->
  Attr.ensure_metafield_properties keys hubspot_props w
  = (Ok hubspot_props, w, []).
Proof.
  intros RT keys hp w. induction keys as [|key keys IH]; intros H; simpl.
  - reflexivity.
  - rewrite (H key (or_introl eq_refl)). simpl.
    apply IH. intros k Hk. apply H. now right.
Qed.

Lemma known_metafields_cost_nothing_witness :
  Sim.run (Attr.ensure_metafield_properties ["tier"; "email"]
             [JStr "email"; JStr "tier"]) hub_email_only
  = (Ok [JStr "email"; JStr "tier"], hub_email_only, []).
Proof.
  apply (known_metafields_cost_nothing Sim.runtime ["tier"; "email"]
           [JStr "email"; JStr "tier"] hub_email_only).
  intros key [<-|[<-|[]]]; reflexivity.
Defined.
